(** * Image promotion and validation-VM cleanup (cloud-function-promote-cleanup/main.py)

    A shallow embedding of the Cloud Function [promote_cleanup] and of the
    helpers it is built from ([wait_for_zone_operation],
    [wait_for_global_operation], [create_image_from_vm], [check_vm_exists],
    [wait_for_vm_stable], [delete_vm]).

    The function talks to the Compute Engine client, sleeps and reads the
    clock.  Every such effect is a method of the class [Platform]; a program
    is a function from the platform's state to an outcome, the next state and
    the list of calls it issued, in the order it issued them.  The [while]
    loops take a fuel argument that bounds their number of turns; running
    out of it is the outcome [OutOfFuel], which no [except] clause catches.
    Logging is not modelled: no control flow depends on it. *)

From Stdlib Require Import PrimFloat.
From Stdlib Require String Ascii.
From Stdlib Require Import ZArith Lia.
From stdpp Require Import gmap strings list.

Local Open Scope Z_scope.

(** ** Strings

    A Python [str] is modelled by the bytes of its UTF-8 encoding.  The only
    uses of [str.lower] in the source compare the result with, or search it
    for, an ASCII literal, which lowering the ASCII letters decides. *)

Definition lower_ascii (c : Ascii.ascii) : Ascii.ascii :=
  let n := Ascii.N_of_ascii c in
  if ((65 <=? n) && (n <=? 90))%N then Ascii.ascii_of_N (n + 32) else c.

Fixpoint lower (s : string) : string :=
  match s with
  | EmptyString => EmptyString
  | String c rest => String (lower_ascii c) (lower rest)
  end.

(** [contains needle hay] is Python's [needle in hay]. *)
Fixpoint contains (needle hay : string) : bool :=
  String.prefix needle hay ||
  match hay with
  | EmptyString => false
  | String _ rest => contains needle rest
  end.

(** Truth value of a string: [bool(s)]. *)
Definition truthy (s : string) : bool :=
  match s with EmptyString => false | String _ _ => true end.

(** [range lo hi] is Python's [range(lo, hi)]. *)
Definition range (lo hi : Z) : list Z :=
  map (fun i => lo + Z.of_nat i) (seq 0 (Z.to_nat (hi - lo))).

(** ** Exceptions

    [main.py] raises only the builtin [Exception]; the client library raises
    its own classes, and decoding the event payload raises the decoder's.
    All three are caught by [except Exception]; [str] is the message. *)

Inductive exn : Type :=
| PyException (msg : string)
| ClientError (msg : string)
| DecodeError (msg : string).

Definition str (e : exn) : string :=
  match e with
  | PyException msg | ClientError msg | DecodeError msg => msg
  end.

(** The two not-found tests of the source: the inner handlers look for
    ["not found"] only, the handler of a whole attempt also for
    ["not_found"]. *)
Definition mentions_not_found (e : exn) : bool :=
  contains "not found" (lower (str e)).

Definition is_not_found (e : exn) : bool :=
  let error_str := lower (str e) in
  contains "not found" error_str || contains "not_found" error_str.

(** ** Resources of the compute client *)

Module Operation.
Inductive Status : Type := DONE | PENDING | RUNNING | UNDEFINED_STATUS.

(** [error] is [None] when the operation carries no error (a false
    [operation.error]), and [Some payload] with the payload's rendering
    otherwise. *)
Record t : Type := { name : string; status : Status; error : option string }.
End Operation.

Module Instance.
(** The lifecycle states of the client library; [main.py] names RUNNING,
    STOPPING, STOPPED and TERMINATED. *)
Inductive Status : Type :=
| PROVISIONING | STAGING | RUNNING | STOPPING | STOPPED | TERMINATED
| SUSPENDING | SUSPENDED | REPAIRING | DEPROVISIONING | UNDEFINED_STATUS.

Record AttachedDisk : Type := { boot : bool; source : string }.

Record t : Type := { status : Status; disks : list AttachedDisk }.
End Instance.

Module Image.
Record t : Type := {
  name : string;
  description : string;
  source_disk : string;
  family : string;
  labels : gmap string string
}.
End Image.

#[global] Instance operation_status_eq_dec : EqDecision Operation.Status.
Proof. solve_decision. Defined.

#[global] Instance instance_status_eq_dec : EqDecision Instance.Status.
Proof. solve_decision. Defined.

(** ** Local time *)

Record datetime : Type := {
  year : N; month : N; day : N;
  hour : N; minute : N; second : N; microsecond : N
}.

Definition digit (n : N) : Ascii.ascii := Ascii.ascii_of_N (48 + n mod 10).

Definition pad2 (n : N) : string :=
  String (digit (n / 10)) (String (digit n) EmptyString).

Definition pad4 (n : N) : string :=
  String (digit (n / 1000)) (String (digit (n / 100)) (pad2 n)).

Definition pad6 (n : N) : string :=
  String (digit (n / 100000)) (String (digit (n / 10000)) (pad4 n)).

(** [strftime_promoted dt] is [dt.strftime('%Y%m%d-%H%M%S')], for the years
    1000 to 9999 on which every platform prints four digits. *)
Definition strftime_promoted (dt : datetime) : string :=
  pad4 (year dt) +:+ pad2 (month dt) +:+ pad2 (day dt) +:+ "-" +:+
  pad2 (hour dt) +:+ pad2 (minute dt) +:+ pad2 (second dt).

(** [isoformat dt] is [dt.isoformat()] of a naive datetime. *)
Definition isoformat (dt : datetime) : string :=
  pad4 (year dt) +:+ "-" +:+ pad2 (month dt) +:+ "-" +:+ pad2 (day dt) +:+ "T" +:+
  pad2 (hour dt) +:+ ":" +:+ pad2 (minute dt) +:+ ":" +:+ pad2 (second dt) +:+
  (if N.eqb (microsecond dt) 0 then "" else "." +:+ pad6 (microsecond dt)).

(** ** The triggering event and the result *)

Module PubSub.
(** The [event] dictionary: its ['data'] and ['attributes'] keys, each
    possibly absent. *)
Record t : Type := {
  data : option string;
  attributes : option (gmap string string)
}.
End PubSub.

Module Result.
Record t : Type := {
  status : string;
  promoted_image : option string;
  validation_instance : string;
  timestamp : string
}.
End Result.

(** ** Calls

    What a run leaves behind: the calls to the client, the sleeps and the
    clock readings, in program order. *)

Inductive Call : Type :=
| InstancesGet (project zone instance : string)
| InstancesStop (project zone instance : string)
| InstancesDelete (project zone instance : string)
| ImagesInsert (project : string) (image_resource : Image.t)
| ZoneOperationsGet (project zone operation : string)
| GlobalOperationsGet (project operation : string)
| Sleep (seconds : Z)
| TimeTime
| DatetimeNow.

(** The calls that change a remote resource. *)
Definition is_mutating (c : Call) : bool :=
  match c with
  | InstancesStop _ _ _ | InstancesDelete _ _ _ | ImagesInsert _ _ => true
  | _ => false
  end.

Definition is_delete (c : Call) : bool :=
  match c with InstancesDelete _ _ _ => true | _ => false end.

Definition is_insert (c : Call) : bool :=
  match c with ImagesInsert _ _ => true | _ => false end.

(** ** The platform

    The collaborators of [main.py], over a state [W] of their own: the four
    clients (a reply is the message of the exception raised, or the value
    returned), [time.sleep], [time.time], [datetime.now], the environment
    variable [GCP_PROJECT], and [base64.b64decode(..).decode('utf-8')] (the
    message of the exception raised, or the decoded text). *)

Class Platform (W : Type) : Type := {
  instances_get : string -> string -> string -> W -> (string + Instance.t) * W;
  instances_stop : string -> string -> string -> W -> (string + Operation.t) * W;
  instances_delete : string -> string -> string -> W -> (string + Operation.t) * W;
  images_insert : string -> Image.t -> W -> (string + Operation.t) * W;
  zone_operations_get : string -> string -> string -> W -> (string + Operation.t) * W;
  global_operations_get : string -> string -> W -> (string + Operation.t) * W;
  time_sleep : Z -> W -> W;
  time_time : W -> float * W;
  datetime_now : W -> datetime * W;
  environ_GCP_PROJECT : option string;
  b64decode_utf8 : string -> string + string
}.

(** ** Outcomes and the monad of programs *)

Inductive outcome (A : Type) : Type :=
| Ret (a : A)
| Raise (e : exn)
| OutOfFuel.

Arguments Ret {A} a.
Arguments Raise {A} e.
Arguments OutOfFuel {A}.

Definition M (W A : Type) : Type := W -> outcome A * W * list Call.

Definition ret {W A} (a : A) : M W A := fun w => (Ret a, w, []).

Definition raise {W A} (e : exn) : M W A := fun w => (Raise e, w, []).

Definition out_of_fuel {W A} : M W A := fun w => (OutOfFuel, w, []).

Definition bind {W A B} (m : M W A) (k : A -> M W B) : M W B :=
  fun w =>
    match m w with
    | (Ret a, w1, l1) => let '(r, w2, l2) := k a w1 in (r, w2, l1 ++ l2)
    | (Raise e, w1, l1) => (Raise e, w1, l1)
    | (OutOfFuel, w1, l1) => (OutOfFuel, w1, l1)
    end.

(** [try_catch m h] is [try: m except Exception as e: h e]. *)
Definition try_catch {W A} (m : M W A) (h : exn -> M W A) : M W A :=
  fun w =>
    match m w with
    | (Raise e, w1, l1) => let '(r, w2, l2) := h e w1 in (r, w2, l1 ++ l2)
    | other => other
    end.

Notation "x <- m ;; k" := (bind m (fun x => k))
  (at level 100, m at next level, right associativity).
Notation "m ;;; k" := (bind m (fun _ => k))
  (at level 100, right associativity).

(** One call to a client: the reply's error becomes a [ClientError]. *)
Definition client {W A} (c : Call) (f : W -> (string + A) * W) : M W A :=
  fun w =>
    match f w with
    | (inl msg, w1) => (Raise (ClientError msg), w1, [c])
    | (inr a, w1) => (Ret a, w1, [c])
    end.

Section Program.
Context {W : Type} `{Platform W}.

Definition call_instances_get (project zone instance : string) : M W Instance.t :=
  client (InstancesGet project zone instance) (instances_get project zone instance).

Definition call_instances_stop (project zone instance : string) : M W Operation.t :=
  client (InstancesStop project zone instance) (instances_stop project zone instance).

Definition call_instances_delete (project zone instance : string) : M W Operation.t :=
  client (InstancesDelete project zone instance) (instances_delete project zone instance).

Definition call_images_insert (project : string) (image_resource : Image.t) : M W Operation.t :=
  client (ImagesInsert project image_resource) (images_insert project image_resource).

Definition call_zone_operations_get (project zone operation : string) : M W Operation.t :=
  client (ZoneOperationsGet project zone operation) (zone_operations_get project zone operation).

Definition call_global_operations_get (project operation : string) : M W Operation.t :=
  client (GlobalOperationsGet project operation) (global_operations_get project operation).

Definition sleep (seconds : Z) : M W unit :=
  fun w => (Ret tt, time_sleep seconds w, [Sleep seconds]).

Definition call_time_time : M W float :=
  fun w => let '(t, w1) := time_time w in (Ret t, w1, [TimeTime]).

Definition call_datetime_now : M W datetime :=
  fun w => let '(dt, w1) := datetime_now w in (Ret dt, w1, [DatetimeNow]).

(** *** Configuration *)

Definition PROJECT_ID : string := default "sandbox-dev-478813" environ_GCP_PROJECT.
Definition ZONE : string := "us-central1-a".

(** *** wait_for_zone_operation, wait_for_global_operation *)

Fixpoint wait_for_zone_operation (fuel : nat) (operation_name project_id zone : string)
    : M W unit :=
  match fuel with
  | O => out_of_fuel
  | S fuel' =>
      operation <- call_zone_operations_get project_id zone operation_name ;;
      if bool_decide (Operation.status operation = Operation.DONE) then
        match Operation.error operation with
        | Some err => raise (PyException ("Operation failed: " +:+ err))
        | None => ret tt
        end
      else
        sleep 2 ;;;
        wait_for_zone_operation fuel' operation_name project_id zone
  end.

Fixpoint wait_for_global_operation (fuel : nat) (operation_name project_id : string)
    : M W unit :=
  match fuel with
  | O => out_of_fuel
  | S fuel' =>
      operation <- call_global_operations_get project_id operation_name ;;
      if bool_decide (Operation.status operation = Operation.DONE) then
        match Operation.error operation with
        | Some err => raise (PyException ("Operation failed: " +:+ err))
        | None => ret tt
        end
      else
        sleep 2 ;;;
        wait_for_global_operation fuel' operation_name project_id
  end.

(** *** create_image_from_vm *)

(** The [for disk in instance.disks] loop: the source of the first disk
    flagged as boot, [None] when no disk is. *)
Fixpoint find_boot_disk_source (disks : list Instance.AttachedDisk) : option string :=
  match disks with
  | [] => None
  | disk :: rest =>
      if Instance.boot disk then Some (Instance.source disk)
      else find_boot_disk_source rest
  end.

Definition promoted_image_resource (instance_name image_name boot_disk_source : string)
    : Image.t :=
  {| Image.name := image_name;
     Image.description := "Promoted image from validated VM " +:+ instance_name;
     Image.source_disk := boot_disk_source;
     Image.family := "rhel9-runtime";
     Image.labels :=
       <["source_image" := instance_name]>
       (<["validation_status" := "passed"]>
       (<["created_by" := "promote-cleanup-function"]> ∅)) |}.

Definition no_boot_disk (instance_name : string) : exn :=
  PyException ("Could not find boot disk for instance " +:+ instance_name).

Definition create_image_from_vm (fuel : nat) (instance_name image_name project_id : string)
    : M W string :=
  try_catch
    (operation <- call_instances_stop project_id ZONE instance_name ;;
     wait_for_zone_operation fuel (Operation.name operation) project_id ZONE ;;;
     instance <- call_instances_get project_id ZONE instance_name ;;
     match find_boot_disk_source (Instance.disks instance) with
     | None => raise (no_boot_disk instance_name)
     | Some boot_disk_source =>
         if negb (truthy boot_disk_source) then raise (no_boot_disk instance_name)
         else
           let image := promoted_image_resource instance_name image_name boot_disk_source in
           operation <- call_images_insert project_id image ;;
           wait_for_global_operation fuel (Operation.name operation) project_id ;;;
           sleep 30 ;;;
           ret image_name
     end)
    (fun e => raise e).

(** *** check_vm_exists *)

Definition check_vm_exists (instance_name project_id : string) : M W bool :=
  try_catch
    (instance <- call_instances_get project_id ZONE instance_name ;;
     ret true)
    (fun e =>
       if contains "not found" (lower (str e)) || contains "NOT_FOUND" (str e)
       then ret false
       else raise e).

(** *** wait_for_vm_stable

    The only caller passes no [max_wait_seconds], so the bound is the
    default 60, compared with the float difference of two clock readings.
    One turn of the [while] loop either returns a boolean or goes round
    again. *)

Definition is_stable (status : Instance.Status) : bool :=
  bool_decide (status ∈ [Instance.TERMINATED; Instance.STOPPED; Instance.RUNNING]).

Fixpoint wait_for_vm_stable_loop (fuel : nat) (instance_name project_id : string)
    (max_wait_seconds start_time : float) : M W bool :=
  match fuel with
  | O => out_of_fuel
  | S fuel' =>
      now <- call_time_time ;;
      if PrimFloat.ltb (PrimFloat.sub now start_time) max_wait_seconds then
        returned <-
          try_catch
            (instance <- call_instances_get project_id ZONE instance_name ;;
             if is_stable (Instance.status instance) then ret (Some true)
             else sleep 5 ;;; ret None)
            (fun e =>
               if contains "not found" (lower (str e)) || contains "NOT_FOUND" (str e)
               then ret (Some false)
               else raise e) ;;
        match returned with
        | Some b => ret b
        | None =>
            wait_for_vm_stable_loop fuel' instance_name project_id
              max_wait_seconds start_time
        end
      else ret false
  end.

Definition wait_for_vm_stable (fuel : nat) (instance_name project_id : string)
    (max_wait_seconds : float) : M W bool :=
  start_time <- call_time_time ;;
  wait_for_vm_stable_loop fuel instance_name project_id max_wait_seconds start_time.

(** *** delete_vm *)

(** Lines 199-216: stop the VM if it is running; every exception of the
    block is caught, and the handler only logs. *)
Definition stop_before_delete_body (fuel : nat) (instance_name project_id : string)
    : M W unit :=
  instance <- call_instances_get project_id ZONE instance_name ;;
  if bool_decide (Instance.status instance = Instance.RUNNING) then
    stop_operation <- call_instances_stop project_id ZONE instance_name ;;
    wait_for_zone_operation fuel (Operation.name stop_operation) project_id ZONE
  else ret tt.

Definition stop_before_delete (fuel : nat) (instance_name project_id : string)
    : M W unit :=
  try_catch (stop_before_delete_body fuel instance_name project_id)
    (fun stop_error =>
       if negb (contains "not found" (lower (str stop_error))) then ret tt else ret tt).

(** Lines 244-252: the force stop, under a bare [except: pass]. *)
Definition force_stop (fuel : nat) (instance_name project_id : string) : M W unit :=
  try_catch
    (instance <- call_instances_get project_id ZONE instance_name ;;
     if bool_decide (Instance.status instance ∈ [Instance.RUNNING; Instance.STOPPING]) then
       stop_op <- call_instances_stop project_id ZONE instance_name ;;
       wait_for_zone_operation fuel (Operation.name stop_op) project_id ZONE ;;;
       sleep 5
     else ret tt)
    (fun _ => ret tt).

(** Lines 242-264: force stop, then the second delete. *)
Definition force_delete (fuel : nat) (instance_name project_id : string) : M W unit :=
  try_catch
    (force_stop fuel instance_name project_id ;;;
     operation <- call_instances_delete project_id ZONE instance_name ;;
     wait_for_zone_operation fuel (Operation.name operation) project_id ZONE ;;;
     sleep 10)
    (fun force_error =>
       if negb (contains "not found" (lower (str force_error))) then raise force_error
       else ret tt).

(** Lines 220-267: the delete, with its fallback. *)
Definition delete_instance (fuel : nat) (instance_name project_id : string) : M W unit :=
  try_catch
    (operation <- call_instances_delete project_id ZONE instance_name ;;
     wait_for_zone_operation fuel (Operation.name operation) project_id ZONE ;;;
     sleep 10)
    (fun delete_error =>
       let error_str := lower (str delete_error) in
       if negb (contains "not found" error_str) then
         force_delete fuel instance_name project_id
       else ret tt).

(** Lines 187-267, the body of the [try] of one attempt.  Each of its paths
    ends in [return] or in an exception, so its normal completion is the
    return of [delete_vm]. *)
Definition delete_attempt (fuel : nat) (instance_name project_id : string) : M W unit :=
  exists_ <- check_vm_exists instance_name project_id ;;
  if negb exists_ then ret tt
  else
    wait_for_vm_stable fuel instance_name project_id 60%float ;;;
    stop_before_delete fuel instance_name project_id ;;;
    delete_instance fuel instance_name project_id.

(** The [for attempt in range(1, max_retries + 1)] loop.  One turn answers
    [true] when [delete_vm] returns and [false] when the loop goes on. *)
Fixpoint delete_vm_loop (fuel : nat) (instance_name project_id : string)
    (max_retries : Z) (attempts : list Z) : M W unit :=
  match attempts with
  | [] => ret tt
  | attempt :: rest =>
      returned <-
        try_catch
          (delete_attempt fuel instance_name project_id ;;; ret true)
          (fun e =>
             if is_not_found e then ret true
             else if attempt <? max_retries then
               let wait_time := attempt * 5 in
               sleep wait_time ;;; ret false
             else raise e) ;;
      if returned : bool then ret tt
      else delete_vm_loop fuel instance_name project_id max_retries rest
  end.

Definition delete_vm (fuel : nat) (instance_name project_id : string) (max_retries : Z)
    : M W unit :=
  delete_vm_loop fuel instance_name project_id max_retries (range 1 (max_retries + 1)).

(** *** promote_cleanup *)

Definition promoted_image_name (image_id : string) (now : datetime) : string :=
  image_id +:+ "-promoted-" +:+ strftime_promoted now.

Definition promote_cleanup (fuel : nat) (event : PubSub.t) : M W (option Result.t) :=
  try_catch
    (match PubSub.data event with
     | Some data =>
         match b64decode_utf8 data with
         | inl msg => raise (DecodeError msg)
         | inr message_data => ret tt
         end
     | None => ret tt
     end ;;;
     let attributes := default ∅ (PubSub.attributes event) in
     let image_id := default "" (attributes !! "image_id") in
     let scan_result := default "" (attributes !! "scan_result") in
     let validation_instance := default "" (attributes !! "validation_instance") in
     let skip_destroy :=
       String.eqb (lower (default "false" (attributes !! "skip_destroy"))) "true" in
     let skip_promotion :=
       String.eqb (lower (default "false" (attributes !! "skip_promotion"))) "true" in
     if negb (truthy validation_instance) then ret None
     else if negb (String.eqb scan_result "Pass") then ret None
     else
       promoted_image <-
         (if negb skip_promotion then
            now <- call_datetime_now ;;
            let promoted_image_name := promoted_image_name image_id now in
            promoted <- create_image_from_vm fuel validation_instance
                          promoted_image_name PROJECT_ID ;;
            ret (Some promoted)
          else ret None) ;;
       (if negb skip_destroy then
          match promoted_image with
          | Some image => if truthy image then sleep 5 else ret tt
          | None => ret tt
          end ;;;
          delete_vm fuel validation_instance PROJECT_ID 3
        else ret tt) ;;;
       now <- call_datetime_now ;;
       ret (Some {| Result.status := "success";
                    Result.promoted_image := promoted_image;
                    Result.validation_instance := validation_instance;
                    Result.timestamp := isoformat now |}))
    (fun e => raise e).

End Program.

(** ** Readings of a request *)

Definition attribute (event : PubSub.t) (key dflt : string) : string :=
  default dflt (default ∅ (PubSub.attributes event) !! key).

Definition flag (event : PubSub.t) (key : string) : bool :=
  String.eqb (lower (attribute event key "false")) "true".

(** The payload, when there is one, is base64 of UTF-8 text. *)
Definition payload_decodes `{Platform W} (event : PubSub.t) : Prop :=
  forall data, PubSub.data event = Some data -> exists text, b64decode_utf8 data = inr text.

(** ** Test doubles *)

(** A service that refuses every call. *)
Module Unavailable.
Definition refuse {A} (w : unit) : (string + A) * unit :=
  (inl "503 service unavailable", w).

#[global] Instance platform : Platform unit := {|
  instances_get _ _ _ := refuse;
  instances_stop _ _ _ := refuse;
  instances_delete _ _ _ := refuse;
  images_insert _ _ := refuse;
  zone_operations_get _ _ _ := refuse;
  global_operations_get _ _ := refuse;
  time_sleep _ w := w;
  time_time w := (0%float, w);
  datetime_now w := ({| year := 2024; month := 1; day := 1; hour := 0;
                        minute := 0; second := 0; microsecond := 0 |}, w);
  environ_GCP_PROJECT := None;
  b64decode_utf8 s := inr s
|}.
End Unavailable.

(** A service whose operations never complete. *)
Module Stuck.
Definition still_running (name : string) : Operation.t :=
  {| Operation.name := name; Operation.status := Operation.RUNNING;
     Operation.error := None |}.

#[global] Instance platform : Platform nat := {|
  instances_get _ _ _ w := (inl "unexpected call", w);
  instances_stop _ _ instance w := (inr (still_running instance), w);
  instances_delete _ _ instance w := (inr (still_running instance), w);
  images_insert _ image w := (inr (still_running (Image.name image)), w);
  zone_operations_get _ _ operation w := (inr (still_running operation), w);
  global_operations_get _ operation w := (inr (still_running operation), w);
  time_sleep seconds w := (w + Z.to_nat seconds)%nat;
  time_time w := (0%float, w);
  datetime_now w := ({| year := 2024; month := 1; day := 1; hour := 0;
                        minute := 0; second := 0; microsecond := 0 |}, w);
  environ_GCP_PROJECT := None;
  b64decode_utf8 s := inr s
|}.
End Stuck.

(** A service that answers from a script, one reply per client call, and a
    clock that stands still. *)
Module Scripted.
Inductive Reply : Type :=
| Fails (msg : string)
| AnInstance (i : Instance.t)
| AnOperation (o : Operation.t).

Record World : Type := { script : list Reply; clock : datetime }.

Definition next_instance (w : World) : (string + Instance.t) * World :=
  match script w with
  | Fails msg :: rest => (inl msg, {| script := rest; clock := clock w |})
  | AnInstance i :: rest => (inr i, {| script := rest; clock := clock w |})
  | _ => (inl "unexpected call", w)
  end.

Definition next_operation (w : World) : (string + Operation.t) * World :=
  match script w with
  | Fails msg :: rest => (inl msg, {| script := rest; clock := clock w |})
  | AnOperation o :: rest => (inr o, {| script := rest; clock := clock w |})
  | _ => (inl "unexpected call", w)
  end.

#[global] Instance platform : Platform World := {|
  instances_get _ _ _ := next_instance;
  instances_stop _ _ _ := next_operation;
  instances_delete _ _ _ := next_operation;
  images_insert _ _ := next_operation;
  zone_operations_get _ _ _ := next_operation;
  global_operations_get _ _ := next_operation;
  time_sleep _ w := w;
  time_time w := (0%float, w);
  datetime_now w := (clock w, w);
  environ_GCP_PROJECT := None;
  b64decode_utf8 s := inr s
|}.

Definition noon : datetime :=
  {| year := 2024; month := 5; day := 17; hour := 12;
     minute := 0; second := 0; microsecond := 0 |}.

Definition done (name : string) : Reply :=
  AnOperation {| Operation.name := name; Operation.status := Operation.DONE;
                 Operation.error := None |}.

Definition running (name : string) : Reply :=
  AnOperation {| Operation.name := name; Operation.status := Operation.RUNNING;
                 Operation.error := None |}.

Definition failed (name payload : string) : Reply :=
  AnOperation {| Operation.name := name; Operation.status := Operation.DONE;
                 Operation.error := Some payload |}.

Definition vm (status : Instance.Status) : Reply :=
  AnInstance {| Instance.status := status;
                Instance.disks :=
                  [ {| Instance.boot := false; Instance.source := "zones/z/disks/data" |};
                    {| Instance.boot := true; Instance.source := "zones/z/disks/boot" |} ] |}.

Definition start (replies : list Reply) : World :=
  {| script := replies; clock := noon |}.
End Scripted.

(** Requests stopped at a gate. *)
Module GateExamples.

Definition failed_scan : PubSub.t :=
  {| PubSub.data := Some "eyJzY2FuIjogImZhaWwifQ==";
     PubSub.attributes :=
       Some (<["image_id" := "rhel9"]>
            (<["scan_result" := "Fail"]>
            (<["validation_instance" := "vm-1"]> ∅))) |}.

Definition no_instance : PubSub.t :=
  {| PubSub.data := None;
     PubSub.attributes :=
       Some (<["image_id" := "rhel9"]> (<["scan_result" := "Pass"]> ∅)) |}.
End GateExamples.

(** ** Runs *)

Definition outcome_of {W A} (run : outcome A * W * list Call) : outcome A := run.1.1.
Definition world_of {W A} (run : outcome A * W * list Call) : W := run.1.2.
Definition calls_of {W A} (run : outcome A * W * list Call) : list Call := run.2.

(** ** Polling histories

    [pending get n w w'] : from [w], [n] polls in a row were answered with
    an operation that is not done, each followed by the two-second sleep,
    and the platform is then in [w']. *)

Inductive pending `{Platform W} (get : W -> (string + Operation.t) * W)
    : nat -> W -> W -> Prop :=
| pending_O w : pending get 0 w w
| pending_S n w operation w1 w2 :
    get w = (inr operation, w1) ->
    Operation.status operation <> Operation.DONE ->
    pending get n (time_sleep 2 w1) w2 ->
    pending get (S n) w w2.

(** The calls of [n] such polls. *)
Fixpoint pending_calls (poll : Call) (n : nat) : list Call :=
  match n with
  | O => []
  | S n' => poll :: Sleep 2 :: pending_calls poll n'
  end.

(** Both waiters are this loop, over their own client. *)
Fixpoint poll_until_done `{Platform W} (fuel : nat) (poll : Call)
    (get : W -> (string + Operation.t) * W) : M W unit :=
  match fuel with
  | O => out_of_fuel
  | S fuel' =>
      operation <- client poll get ;;
      if bool_decide (Operation.status operation = Operation.DONE) then
        match Operation.error operation with
        | Some err => raise (PyException ("Operation failed: " +:+ err))
        | None => ret tt
        end
      else
        sleep 2 ;;;
        poll_until_done fuel' poll get
  end.

(** What the claim on the waiters says of one of them: it returns exactly
    when a poll finds the operation done without an error, raises the
    exception made of the error payload exactly when a poll finds it done
    with one, and as long as the polls find it not done goes on polling, two
    seconds apart, without returning. *)
Definition waiter_contract `{Platform W} (poll : Call)
    (get : W -> (string + Operation.t) * W) (wait : nat -> M W unit) : Prop :=
  (forall fuel w w' calls,
     wait fuel w = (Ret tt, w', calls) <->
     exists n operation w1,
       (n < fuel)%nat /\ pending get n w w1 /\ get w1 = (inr operation, w') /\
       Operation.status operation = Operation.DONE /\
       Operation.error operation = None /\
       calls = pending_calls poll n ++ [poll]) /\
  (forall fuel w w' calls msg,
     wait fuel w = (Raise (PyException msg), w', calls) <->
     exists n operation w1 payload,
       (n < fuel)%nat /\ pending get n w w1 /\ get w1 = (inr operation, w') /\
       Operation.status operation = Operation.DONE /\
       Operation.error operation = Some payload /\
       msg = "Operation failed: " +:+ payload /\
       calls = pending_calls poll n ++ [poll]) /\
  (forall fuel w w',
     pending get fuel w w' ->
     wait fuel w = (OutOfFuel, w', pending_calls poll fuel)) /\
  (forall w,
     (forall n, exists w', pending get n w w') ->
     forall fuel, outcome_of (wait fuel w) = OutOfFuel).

(** The delete call with its wait and settle delay, as it stands twice in
    [delete_vm] (lines 221-234 and 255-258). *)
Definition delete_and_wait `{Platform W} (fuel : nat) (instance_name project_id : string)
    : M W unit :=
  operation <- call_instances_delete project_id ZONE instance_name ;;
  wait_for_zone_operation fuel (Operation.name operation) project_id ZONE ;;;
  sleep 10.

(** Runs of [delete_vm] against a script. *)
Module ReaperExamples.
Import Scripted.

(** The VM is there and running; reading its status before the stop is
    refused; the delete goes through. *)
Definition stop_refused : World :=
  start [vm Instance.RUNNING; vm Instance.RUNNING; Fails "403 permission denied";
         done "op-d"; done "op-d"].

(** The VM is there at the existence check and gone right after; the
    service then refuses both deletes for another reason. *)
Definition gone_then_refused : World :=
  start [vm Instance.RUNNING; Fails "404 instance not found";
         Fails "404 instance not found"; Fails "403 permission denied";
         Fails "404 instance not found"; Fails "403 permission denied"].

(** The VM is gone before the first call. *)
Definition already_gone : World :=
  start [Fails "404 The resource was not found"].
End ReaperExamples.

(** The calls of a promotion that succeeds: the stop and the polls of its
    operation, the read of the instance, the creation of the image and the
    polls of its operation, the settle delay. *)
Definition promotion_calls (project_id instance_name stop_operation : string) (n1 : nat)
    (image : Image.t) (insert_operation : string) (n2 : nat) : list Call :=
  InstancesStop project_id ZONE instance_name ::
  pending_calls (ZoneOperationsGet project_id ZONE stop_operation) n1 ++
  ZoneOperationsGet project_id ZONE stop_operation ::
  InstancesGet project_id ZONE instance_name ::
  ImagesInsert project_id image ::
  pending_calls (GlobalOperationsGet project_id insert_operation) n2 ++
  [GlobalOperationsGet project_id insert_operation; Sleep 30].

(** End-to-end scenario: a passed scan, both stages, a service that does
    all it is asked. *)
Module PromotionExamples.
Import Scripted.

Definition passed_scan : PubSub.t :=
  {| PubSub.data := None;
     PubSub.attributes :=
       Some (<["image_id" := "rhel9"]>
            (<["scan_result" := "Pass"]>
            (<["validation_instance" := "vm-1"]> ∅))) |}.

Definition obliging_replies : list Reply :=
  [done "op-1"; done "op-1"; vm Instance.TERMINATED; done "op-2"; done "op-2";
   vm Instance.TERMINATED; vm Instance.TERMINATED; vm Instance.TERMINATED;
   done "op-3"; done "op-3"].

Definition obliging : World := start obliging_replies.

(** The same service, a little later within the same second. *)
Definition obliging_later : World :=
  {| script := obliging_replies;
     clock := {| year := 2024; month := 5; day := 17; hour := 12;
                 minute := 0; second := 0; microsecond := 250000 |} |}.
End PromotionExamples.

(** ** Clock readings *)

(** The fields of a [datetime] are within the ranges of the calendar, with
    a year of four digits. *)
Definition valid_datetime (dt : datetime) : Prop :=
  (1000 <= year dt <= 9999)%N /\ (1 <= month dt <= 12)%N /\ (1 <= day dt <= 31)%N /\
  (hour dt <= 23)%N /\ (minute dt <= 59)%N /\ (second dt <= 59)%N /\
  (microsecond dt <= 999999)%N.

(** Two readings within the same second. *)
Definition same_second (dt1 dt2 : datetime) : Prop :=
  year dt1 = year dt2 /\ month dt1 = month dt2 /\ day dt1 = day dt2 /\
  hour dt1 = hour dt2 /\ minute dt1 = minute dt2 /\ second dt1 = second dt2.

(** Reading the digits back, to tell two paddings apart. *)
Definition digit_value (c : Ascii.ascii) : N := (Ascii.N_of_ascii c - 48)%N.

Definition unpad2 (s : string) : N :=
  match s with
  | String c1 (String c0 _) => (10 * digit_value c1 + digit_value c0)%N
  | _ => 0%N
  end.

Definition unpad4 (s : string) : N :=
  match s with
  | String c3 (String c2 rest) =>
      (1000 * digit_value c3 + 100 * digit_value c2 + unpad2 rest)%N
  | _ => 0%N
  end.

(** A call that creates an image creates it under the given name. *)
Definition inserts_named (image_name : string) (c : Call) : Prop :=
  match c with
  | ImagesInsert _ image => Image.name image = image_name
  | _ => True
  end.

(** ** Further test doubles and requests *)

(** A service that refuses every call, with a decoder that rejects a payload
    that is not base64. *)
Module Garbled.
Definition decode (payload : string) : string + string :=
  if String.eqb payload "%%%" then inl "Incorrect padding" else inr payload.

Definition platform : Platform bool := {|
  instances_get _ _ _ w := (inl "503 service unavailable", w);
  instances_stop _ _ _ w := (inl "503 service unavailable", w);
  instances_delete _ _ _ w := (inl "503 service unavailable", w);
  images_insert _ _ w := (inl "503 service unavailable", w);
  zone_operations_get _ _ _ w := (inl "503 service unavailable", w);
  global_operations_get _ _ w := (inl "503 service unavailable", w);
  time_sleep _ w := w;
  time_time w := (0%float, w);
  datetime_now w := ({| year := 2024; month := 1; day := 1; hour := 0;
                        minute := 0; second := 0; microsecond := 0 |}, w);
  environ_GCP_PROJECT := Some "proj-1";
  b64decode_utf8 := decode
|}.

Definition bad_payload : PubSub.t :=
  {| PubSub.data := Some "%%%";
     PubSub.attributes :=
       Some (<["image_id" := "rhel9"]>
            (<["scan_result" := "Pass"]>
            (<["validation_instance" := "vm-1"]> ∅))) |}.
End Garbled.

(** Requests with a stage switched off; the flags are read without regard
    to letter case. *)
Module SkipExamples.
Import Scripted.

Definition request (skip_promotion skip_destroy : string) : PubSub.t :=
  {| PubSub.data := None;
     PubSub.attributes :=
       Some (<["image_id" := "rhel9"]>
            (<["scan_result" := "Pass"]>
            (<["validation_instance" := "vm-1"]>
            (<["skip_promotion" := skip_promotion]>
            (<["skip_destroy" := skip_destroy]> ∅))))) |}.

Definition cleanup_only : PubSub.t := request "TRUE" "false".
Definition promotion_only : PubSub.t := request "no" "True".
Definition nothing_to_do : PubSub.t := request "true" "true".

(** The replies to a cleanup alone: the VM is there and stopped, the delete
    completes. *)
Definition cleanup_replies : list Reply :=
  [vm Instance.TERMINATED; vm Instance.TERMINATED; vm Instance.TERMINATED;
   done "op-3"; done "op-3"].

(** The replies to a promotion alone. *)
Definition promotion_replies : list Reply :=
  [done "op-1"; done "op-1"; vm Instance.TERMINATED; done "op-2"; done "op-2"].

(** The promotion goes through, then every call of the cleanup is refused. *)
Definition cleanup_refused_replies : list Reply :=
  promotion_replies ++
  [Fails "503 backend error"; Fails "503 backend error"; Fails "503 backend error"].
End SkipExamples.

(** ** Footprints

    The calls a reaper may issue for an instance of a project: reads, stops
    and deletes of that instance in the fixed zone, polls of zonal
    operations of the project, clock readings and sleeps of positive
    length. *)
Definition reaper_call (project_id instance_name : string) (c : Call) : Prop :=
  match c with
  | InstancesGet p z i | InstancesStop p z i | InstancesDelete p z i =>
      p = project_id /\ z = ZONE /\ i = instance_name
  | ZoneOperationsGet p z _ => p = project_id /\ z = ZONE
  | Sleep seconds => 0 < seconds
  | TimeTime => True
  | ImagesInsert _ _ | GlobalOperationsGet _ _ | DatetimeNow => False
  end.

(** The calls a promotion may issue: the stop and the read of the instance,
    polls of operations of the project, the creation of an image in the
    project from that instance, sleeps of positive length. *)
Definition promoter_call (project_id instance_name : string) (c : Call) : Prop :=
  match c with
  | InstancesGet p z i | InstancesStop p z i =>
      p = project_id /\ z = ZONE /\ i = instance_name
  | ZoneOperationsGet p z _ => p = project_id /\ z = ZONE
  | GlobalOperationsGet p _ => p = project_id
  | ImagesInsert p image =>
      p = project_id /\ Image.labels image !! "source_image" = Some instance_name
  | Sleep seconds => 0 < seconds
  | InstancesDelete _ _ _ | TimeTime | DatetimeNow => False
  end.

(** The calls of an invocation for an instance. *)
Definition invocation_call (project_id instance_name : string) (c : Call) : Prop :=
  c = DatetimeNow \/ promoter_call project_id instance_name c \/
  reaper_call project_id instance_name c.

(** What [wait_for_vm_stable] may do: read the clock, read the instance,
    sleep five seconds. *)
Definition observer_call (project_id instance_name : string) (c : Call) : Prop :=
  c = TimeTime \/ c = InstancesGet project_id ZONE instance_name \/ c = Sleep 5.

(** [count p calls] is the number of calls that satisfy [p]. *)
Fixpoint count (p : Call -> bool) (calls : list Call) : nat :=
  match calls with
  | [] => 0
  | c :: rest => ((if p c then 1 else 0) + count p rest)%nat
  end.

(** A clock that gives the readings of a list, then stands at zero, before
    a service that always finds the instance being stopped. *)
Module Clocked.
Definition platform : Platform (list float) := {|
  instances_get _ _ _ w :=
    (inr {| Instance.status := Instance.STOPPING; Instance.disks := [] |}, w);
  instances_stop _ _ _ w := (inl "409 not ready", w);
  instances_delete _ _ _ w := (inl "409 not ready", w);
  images_insert _ _ w := (inl "409 not ready", w);
  zone_operations_get _ _ _ w := (inl "409 not ready", w);
  global_operations_get _ _ w := (inl "409 not ready", w);
  time_sleep _ w := w;
  time_time w := match w with t :: rest => (t, rest) | [] => (0%float, []) end;
  datetime_now w := ({| year := 2024; month := 1; day := 1; hour := 0;
                        minute := 0; second := 0; microsecond := 0 |}, w);
  environ_GCP_PROJECT := None;
  b64decode_utf8 s := inr s
|}.
End Clocked.

(** ** Facts about strings *)

Lemma prefix_lower (needle hay : string) :
  String.prefix needle hay = true -> String.prefix (lower needle) (lower hay) = true.
Proof.
  revert hay. induction needle as [|c needle IH]; intros hay Hp; [by destruct hay|].
  destruct hay as [|d hay]; [done|]. simpl in *.
  destruct (Ascii.ascii_dec c d) as [->|Hne]; [|done].
  destruct (Ascii.ascii_dec (lower_ascii d) (lower_ascii d)); [|done].
  by apply IH.
Qed.

Lemma contains_unfold (needle hay : string) :
  contains needle hay =
  String.prefix needle hay ||
  match hay with EmptyString => false | String _ rest => contains needle rest end.
Proof. by destruct hay. Qed.

Lemma contains_lower (needle hay : string) :
  contains needle hay = true -> contains (lower needle) (lower hay) = true.
Proof.
  induction hay as [|d hay IH]; intros Hc;
    rewrite contains_unfold in Hc; rewrite contains_unfold;
    apply orb_true_iff in Hc as [Hp|Hc]; try discriminate.
  - by rewrite (prefix_lower _ _ Hp).
  - by rewrite (prefix_lower _ _ Hp).
  - simpl lower. cbv iota. rewrite (IH Hc). apply orb_true_r.
Qed.

(** Whatever the existence check and the stabilisation call not found, the
    handler of the attempt does too. *)
Lemma inner_not_found_is_not_found (e : exn) :
  contains "not found" (lower (str e)) || contains "NOT_FOUND" (str e) = true ->
  is_not_found e = true.
Proof.
  unfold is_not_found. intros [Hc|Hc]%orb_true_iff.
  - by rewrite Hc.
  - apply contains_lower in Hc. change (lower "NOT_FOUND") with "not_found" in Hc.
    rewrite Hc. apply orb_true_r.
Qed.

Lemma not_not_found_inner (e : exn) :
  is_not_found e = false ->
  contains "not found" (lower (str e)) || contains "NOT_FOUND" (str e) = false.
Proof.
  intros Hnf. destruct (_ || _) eqn:Hc; [|done].
  apply inner_not_found_is_not_found in Hc. congruence.
Qed.

Lemma range_empty (lo hi : Z) : hi <= lo -> range lo hi = [].
Proof. intros Hle. unfold range. by replace (Z.to_nat (hi - lo)) with 0%nat by lia. Qed.

Lemma range_cons (lo hi : Z) : lo < hi -> range lo hi = lo :: range (lo + 1) hi.
Proof.
  intros Hlt. unfold range.
  replace (Z.to_nat (hi - lo)) with (S (Z.to_nat (hi - (lo + 1)))) by lia.
  simpl. f_equal; [lia|]. rewrite <- seq_shift, map_map.
  apply map_ext. intros i. lia.
Qed.

(** ** Facts about runs *)

Section Runs.
Context {W : Type}.

Lemma run_eta {A} (run : outcome A * W * list Call) :
  run = (outcome_of run, world_of run, calls_of run).
Proof. by destruct run as [[r w] l]. Qed.

Lemma bind_Ret {A B} (m : M W A) (k : A -> M W B) w a w1 l1 :
  m w = (Ret a, w1, l1) ->
  bind m k w = (outcome_of (k a w1), world_of (k a w1), l1 ++ calls_of (k a w1)).
Proof. intros Hm. unfold bind. rewrite Hm. by destruct (k a w1) as [[r w2] l2]. Qed.

Lemma bind_Raise {A B} (m : M W A) (k : A -> M W B) w e w1 l1 :
  m w = (Raise e, w1, l1) -> bind m k w = (Raise e, w1, l1).
Proof. intros Hm. unfold bind. by rewrite Hm. Qed.

Lemma bind_OutOfFuel {A B} (m : M W A) (k : A -> M W B) w w1 l1 :
  m w = (OutOfFuel, w1, l1) -> bind m k w = (OutOfFuel, w1, l1).
Proof. intros Hm. unfold bind. by rewrite Hm. Qed.

Lemma try_catch_Ret {A} (m : M W A) h w a w1 l1 :
  m w = (Ret a, w1, l1) -> try_catch m h w = (Ret a, w1, l1).
Proof. intros Hm. unfold try_catch. by rewrite Hm. Qed.

Lemma try_catch_OutOfFuel {A} (m : M W A) h w w1 l1 :
  m w = (OutOfFuel, w1, l1) -> try_catch m h w = (OutOfFuel, w1, l1).
Proof. intros Hm. unfold try_catch. by rewrite Hm. Qed.

Lemma try_catch_Raise {A} (m : M W A) h w e w1 l1 :
  m w = (Raise e, w1, l1) ->
  try_catch m h w = (outcome_of (h e w1), world_of (h e w1), l1 ++ calls_of (h e w1)).
Proof. intros Hm. unfold try_catch. rewrite Hm. by destruct (h e w1) as [[r w2] l2]. Qed.

(** A handler that raises again what it caught changes nothing. *)
Lemma try_catch_reraise {A} (m : M W A) w :
  try_catch m (fun e => raise e) w = m w.
Proof.
  unfold try_catch, raise. destruct (m w) as [[[a|e|] w1] l1]; [done| |done].
  by rewrite app_nil_r.
Qed.

(** The calls of a compound start with the calls of its first part. *)
Lemma bind_calls {A B} (m : M W A) (k : A -> M W B) w :
  exists rest, calls_of (bind m k w) = calls_of (m w) ++ rest.
Proof.
  unfold bind. destruct (m w) as [[[a|e|] w1] l1]; simpl.
  - destruct (k a w1) as [[r w2] l2]. by exists l2.
  - exists []. by rewrite app_nil_r.
  - exists []. by rewrite app_nil_r.
Qed.

Lemma try_catch_calls {A} (m : M W A) h w :
  exists rest, calls_of (try_catch m h w) = calls_of (m w) ++ rest.
Proof.
  unfold try_catch. destruct (m w) as [[[a|e|] w1] l1]; simpl.
  - exists []. by rewrite app_nil_r.
  - destruct (h e w1) as [[r w2] l2]. by exists l2.
  - exists []. by rewrite app_nil_r.
Qed.

Lemma client_calls {A} (c : Call) (f : W -> (string + A) * W) w :
  calls_of (client c f w) = [c].
Proof. unfold client. by destruct (f w) as [[msg|a] w1]. Qed.
End Runs.

(** Peels the first part off the calls of a compound program. *)
Ltac first_calls :=
  repeat match goal with
  | |- context [calls_of (try_catch ?m ?h ?w)] =>
      destruct (try_catch_calls m h w) as [? ->]
  | |- context [calls_of (bind ?m ?k ?w)] =>
      destruct (bind_calls m k w) as [? ->]
  end.

Section Gates.
Context {W : Type} `{Platform W}.

Lemma create_image_from_vm_first_call fuel instance_name image_name project_id (w : W) :
  exists rest,
    calls_of (create_image_from_vm fuel instance_name image_name project_id w) =
    InstancesStop project_id ZONE instance_name :: rest.
Proof.
  unfold create_image_from_vm. first_calls.
  unfold call_instances_stop. rewrite client_calls. by eexists.
Qed.

Lemma check_vm_exists_calls instance_name project_id (w : W) :
  calls_of (check_vm_exists instance_name project_id w) =
  [InstancesGet project_id ZONE instance_name].
Proof.
  unfold check_vm_exists, try_catch, bind, call_instances_get, client.
  destruct (instances_get _ _ _ w) as [[msg|i] w1]; simpl; [|done].
  by destruct (_ || _).
Qed.

Lemma delete_vm_loop_first_call fuel instance_name project_id max_retries attempt rest (w : W) :
  exists more,
    calls_of (delete_vm_loop fuel instance_name project_id max_retries (attempt :: rest) w) =
    InstancesGet project_id ZONE instance_name :: more.
Proof.
  simpl delete_vm_loop. first_calls. unfold delete_attempt. first_calls.
  rewrite check_vm_exists_calls. by eexists.
Qed.

Lemma promote_cleanup_gate fuel event (w : W) :
  payload_decodes event ->
  truthy (attribute event "validation_instance" "") = false \/
  attribute event "scan_result" "" <> "Pass" ->
  promote_cleanup fuel event w = (Ret None, w, []).
Proof.
  intros Hdec Hgate. unfold promote_cleanup. rewrite try_catch_reraise.
  fold (attribute event "validation_instance" "").
  fold (attribute event "scan_result" "").
  assert (Hdata :
    (match PubSub.data event with
     | Some data =>
         match b64decode_utf8 data with
         | inl msg => raise (DecodeError msg)
         | inr _ => ret tt
         end
     | None => ret tt
     end) w = (Ret tt, w, [])).
  { destruct (PubSub.data event) as [data|] eqn:Hd; [|done].
    destruct (Hdec data Hd) as [text ->]. done. }
  rewrite (bind_Ret _ _ _ _ _ _ Hdata).
  destruct (truthy (attribute event "validation_instance" "")); simpl; [|done].
  destruct Hgate as [?|Hscan]; [done|].
  apply String.eqb_neq in Hscan. by rewrite Hscan.
Qed.

(** Whatever the payload, a request stopped by a gate leaves no call. *)
Lemma promote_cleanup_gate_calls fuel event (w : W) :
  truthy (attribute event "validation_instance" "") = false \/
  attribute event "scan_result" "" <> "Pass" ->
  world_of (promote_cleanup fuel event w) = w /\
  calls_of (promote_cleanup fuel event w) = [].
Proof.
  intros Hgate. unfold promote_cleanup. rewrite try_catch_reraise.
  fold (attribute event "validation_instance" "").
  fold (attribute event "scan_result" "").
  unfold bind.
  destruct (PubSub.data event) as [data|]; [destruct (b64decode_utf8 data)|]; simpl; try done.
  all: destruct (truthy (attribute event "validation_instance" "")); simpl; [|done].
  all: destruct Hgate as [?|Hscan]; [done|].
  all: apply String.eqb_neq in Hscan; by rewrite Hscan.
Qed.
End Gates.

(** ** The gates of promote_cleanup *)


(** C2: a request whose [scan_result] attribute is anything but ["Pass"]
    (the empty default included) makes [promote_cleanup] return early: no
    call of any kind is issued and the platform is left as it was, whereas
    [create_image_from_vm] and [delete_vm] each start with a remote call;
    with a payload that decodes the return value is [None]. *)
Theorem scan_result_gate `{Platform W} (fuel : nat) (event : PubSub.t) (w : W) :
  attribute event "scan_result" "" <> "Pass" ->
  world_of (promote_cleanup fuel event w) = w /\
  calls_of (promote_cleanup fuel event w) = [] /\
  (payload_decodes event -> promote_cleanup fuel event w = (Ret None, w, [])) /\
  (forall instance_name image_name project_id w',
     exists rest,
       calls_of (create_image_from_vm fuel instance_name image_name project_id w') =
       InstancesStop project_id ZONE instance_name :: rest) /\
  (forall instance_name project_id w',
     exists rest,
       calls_of (delete_vm fuel instance_name project_id 3 w') =
       InstancesGet project_id ZONE instance_name :: rest).
Proof.
  intros Hscan.
  destruct (promote_cleanup_gate_calls fuel event w (or_intror Hscan)) as [Hw Hc].
  repeat split; [done|done| | |].
  - intros Hdec. apply promote_cleanup_gate; auto.
  - intros. apply create_image_from_vm_first_call.
  - intros. apply delete_vm_loop_first_call.
Qed.

Lemma scan_result_gate_witness :
  promote_cleanup 10 GateExamples.failed_scan tt = (Ret None, tt, []).
Proof.
  apply (scan_result_gate (W := unit) 10 GateExamples.failed_scan tt).
  - vm_compute. discriminate.
  - intros data _. by exists data.
Defined.

(** C3, as the code has it: a request whose [validation_instance] attribute
    is empty or absent makes [promote_cleanup] issue no call and leave the
    platform as it was; with a payload that decodes it returns normally, and
    what it returns is [None], not a result record. *)
Theorem empty_instance_gate `{Platform W} (fuel : nat) (event : PubSub.t) (w : W) :
  attribute event "validation_instance" "" = "" ->
  world_of (promote_cleanup fuel event w) = w /\
  calls_of (promote_cleanup fuel event w) = [] /\
  (payload_decodes event -> promote_cleanup fuel event w = (Ret None, w, [])).
Proof.
  intros Hempty.
  assert (Hgate : truthy (attribute event "validation_instance" "") = false
                  \/ attribute event "scan_result" "" <> "Pass")
    by (left; by rewrite Hempty).
  destruct (promote_cleanup_gate_calls fuel event w Hgate) as [Hw Hc].
  repeat split; [done|done|].
  intros Hdec. by apply promote_cleanup_gate.
Qed.

Lemma empty_instance_gate_witness :
  calls_of (promote_cleanup 10 GateExamples.no_instance tt) = [].
Proof.
  apply (empty_instance_gate (W := unit) 10 GateExamples.no_instance tt).
  vm_compute. reflexivity.
Defined.

(** C3, as stated, fails: with no [validation_instance] the value returned
    is not a record with the result fields. *)
Lemma empty_instance_returns_no_record :
  attribute GateExamples.no_instance "validation_instance" "" = "" /\
  ~ exists record : Result.t,
      outcome_of (promote_cleanup 10 GateExamples.no_instance tt) = Ret (Some record).
Proof.
  split; [vm_compute; reflexivity|].
  intros [record Hrecord]. vm_compute in Hrecord. discriminate.
Qed.

(** ** The retry loop of delete_vm *)

(** C9: with [max_retries] zero or negative the attempt loop has no turn:
    [delete_vm] returns at once, without raising and without a single call,
    the existence check included. *)
Theorem delete_vm_no_attempts `{Platform W} (fuel : nat)
    (instance_name project_id : string) (max_retries : Z) (w : W) :
  max_retries <= 0 ->
  delete_vm fuel instance_name project_id max_retries w = (Ret tt, w, []).
Proof.
  intros Hle. unfold delete_vm. rewrite range_empty by lia. reflexivity.
Qed.

Lemma delete_vm_no_attempts_witness :
  delete_vm 10 "vm-1" "p" 0 tt = (Ret tt, tt, []).
Proof. apply (delete_vm_no_attempts (W := unit) 10 "vm-1" "p" 0 tt). lia. Defined.

(** ** The waiters *)

Section Waiters.
Context {W : Type} `{Platform W}.

Lemma wait_for_zone_operation_poll fuel operation_name project_id zone :
  wait_for_zone_operation fuel operation_name project_id zone =
  poll_until_done fuel (ZoneOperationsGet project_id zone operation_name)
    (zone_operations_get project_id zone operation_name).
Proof. induction fuel as [|fuel IH]; simpl; [done|]. by rewrite IH. Qed.

Lemma wait_for_global_operation_poll fuel operation_name project_id :
  wait_for_global_operation fuel operation_name project_id =
  poll_until_done fuel (GlobalOperationsGet project_id operation_name)
    (global_operations_get project_id operation_name).
Proof. induction fuel as [|fuel IH]; simpl; [done|]. by rewrite IH. Qed.

(** One turn of the loop. *)
Lemma poll_until_done_S fuel poll get (w : W) :
  poll_until_done (S fuel) poll get w =
  match get w with
  | (inl msg, w1) => (Raise (ClientError msg), w1, [poll])
  | (inr operation, w1) =>
      if bool_decide (Operation.status operation = Operation.DONE) then
        match Operation.error operation with
        | Some err => (Raise (PyException ("Operation failed: " +:+ err)), w1, [poll])
        | None => (Ret tt, w1, [poll])
        end
      else
        let run := poll_until_done fuel poll get (time_sleep 2 w1) in
        (outcome_of run, world_of run, poll :: Sleep 2 :: calls_of run)
  end.
Proof.
  simpl. unfold bind, client. destruct (get w) as [[msg|operation] w1]; [done|].
  case_bool_decide.
  - by destruct (Operation.error operation).
  - unfold sleep. by destruct (poll_until_done _ _ _ _) as [[r w2] l].
Qed.

Lemma poll_until_done_pending fuel poll get (w w' : W) :
  pending get fuel w w' ->
  poll_until_done fuel poll get w = (OutOfFuel, w', pending_calls poll fuel).
Proof.
  induction 1 as [w|n w operation w1 w2 Hget Hstatus _ IH]; [done|].
  rewrite poll_until_done_S, Hget, bool_decide_eq_false_2 by done.
  by rewrite IH.
Qed.

(** The loop stops at the first poll that finds the operation done. *)
Lemma poll_until_done_finish fuel poll get n (w w1 w' : W) operation :
  (n < fuel)%nat -> pending get n w w1 -> get w1 = (inr operation, w') ->
  Operation.status operation = Operation.DONE ->
  poll_until_done fuel poll get w =
  (match Operation.error operation with
   | Some err => Raise (PyException ("Operation failed: " +:+ err))
   | None => Ret tt
   end, w', pending_calls poll n ++ [poll]).
Proof.
  intros Hlt Hpending Hget Hdone. revert fuel Hlt.
  induction Hpending as [w|n w pending_operation w1 w2 Hget' Hstatus _ IH];
    intros [|fuel] Hlt; try lia; rewrite poll_until_done_S.
  - rewrite Hget, bool_decide_eq_true_2 by done.
    by destruct (Operation.error operation).
  - rewrite Hget', bool_decide_eq_false_2 by done.
    rewrite (IH Hget fuel) by lia. done.
Qed.

(** Conversely, a run that ends ended at such a poll, or at a poll that
    the client refused. *)
Lemma poll_until_done_inv fuel poll get (w w' : W) result calls :
  poll_until_done fuel poll get w = (result, w', calls) ->
  result <> OutOfFuel ->
  exists n w1,
    (n < fuel)%nat /\ pending get n w w1 /\ calls = pending_calls poll n ++ [poll] /\
    ((exists msg, get w1 = (inl msg, w') /\ result = Raise (ClientError msg)) \/
     (exists operation,
        get w1 = (inr operation, w') /\
        Operation.status operation = Operation.DONE /\
        result = match Operation.error operation with
                 | Some err => Raise (PyException ("Operation failed: " +:+ err))
                 | None => Ret tt
                 end)).
Proof.
  revert w calls. induction fuel as [|fuel IH]; intros w calls Hrun Hresult.
  { simpl in Hrun. unfold out_of_fuel in Hrun. congruence. }
  rewrite poll_until_done_S in Hrun.
  destruct (get w) as [[msg|operation] w1] eqn:Hget.
  - injection Hrun as <- <- <-. exists 0%nat, w.
    split; [lia|]. split; [constructor|]. split; [done|]. left. by exists msg.
  - case_bool_decide as Hstatus.
    + exists 0%nat, w. split; [lia|]. split; [constructor|].
      destruct (Operation.error operation) eqn:Herror;
        injection Hrun as <- <- <-; (split; [done|]); right;
        exists operation; by rewrite Herror.
    + cbv zeta in Hrun. injection Hrun as Ho Hw Hc.
      destruct (IH (time_sleep 2 w1) (calls_of (poll_until_done fuel poll get (time_sleep 2 w1))))
        as (n & w2 & Hlt & Hpending & Hcalls & Hend).
      { rewrite <- Ho, <- Hw. apply run_eta. }
      { done. }
      exists (S n), w2. split; [lia|]. split; [by econstructor|].
      split; [by rewrite <- Hc, Hcalls|]. exact Hend.
Qed.

Lemma poll_until_done_contract poll get :
  waiter_contract poll get (fun fuel => poll_until_done fuel poll get).
Proof.
  split; [|split; [|split]].
  - intros fuel w w' calls. split.
    + intros Hrun. apply poll_until_done_inv in Hrun
        as (n & w1 & Hlt & Hpending & Hcalls & Hend); [|done].
      destruct Hend as [(msg & _ & ?)|(operation & Hget & Hdone & Hres)]; [done|].
      destruct (Operation.error operation) eqn:Herror; [done|].
      by exists n, operation, w1.
    + intros (n & operation & w1 & Hlt & Hpending & Hget & Hdone & Herror & ->).
      rewrite (poll_until_done_finish _ _ _ _ _ _ _ _ Hlt Hpending Hget Hdone).
      by rewrite Herror.
  - intros fuel w w' calls msg. split.
    + intros Hrun. apply poll_until_done_inv in Hrun
        as (n & w1 & Hlt & Hpending & Hcalls & Hend); [|done].
      destruct Hend as [(? & _ & ?)|(operation & Hget & Hdone & Hres)]; [done|].
      destruct (Operation.error operation) as [payload|] eqn:Herror; [|done].
      injection Hres as ->. by exists n, operation, w1, payload.
    + intros (n & operation & w1 & payload & Hlt & Hpending & Hget & Hdone & Herror & -> & ->).
      rewrite (poll_until_done_finish _ _ _ _ _ _ _ _ Hlt Hpending Hget Hdone).
      by rewrite Herror.
  - intros fuel w w'. apply poll_until_done_pending.
  - intros w Hforever fuel. destruct (Hforever fuel) as [w' Hpending].
    by rewrite (poll_until_done_pending _ poll _ _ _ Hpending).
Qed.

Lemma waiter_contract_ext poll get (wait1 wait2 : nat -> M W unit) :
  (forall fuel, wait1 fuel = wait2 fuel) ->
  waiter_contract poll get wait1 -> waiter_contract poll get wait2.
Proof.
  intros Heq (Hret & Hraise & Hpending & Hforever).
  repeat split; intros; rewrite <- ?Heq in *;
    first [by apply Hret | by apply Hraise | by apply Hpending | by apply Hforever].
Qed.

End Waiters.

(** C7: each waiter, zonal and global, returns exactly when a poll finds
    the operation done with no error payload (after [n] polls that found it
    not done, each followed by a two-second sleep), raises the exception
    carrying the error payload exactly when a poll finds it done with one,
    and while the polls find it not done keeps polling at that interval and
    does not return, whatever the fuel. *)
Theorem waiters_contract `{Platform W} (operation_name project_id zone : string) :
  waiter_contract (ZoneOperationsGet project_id zone operation_name)
    (zone_operations_get project_id zone operation_name)
    (fun fuel => wait_for_zone_operation fuel operation_name project_id zone) /\
  waiter_contract (GlobalOperationsGet project_id operation_name)
    (global_operations_get project_id operation_name)
    (fun fuel => wait_for_global_operation fuel operation_name project_id).
Proof.
  split.
  - eapply waiter_contract_ext; [|apply poll_until_done_contract].
    intros fuel. symmetry. apply wait_for_zone_operation_poll.
  - eapply waiter_contract_ext; [|apply poll_until_done_contract].
    intros fuel. symmetry. apply wait_for_global_operation_poll.
Qed.

Lemma stuck_operation_pending (operation : string) (n : nat) (w : nat) :
  exists w', pending (zone_operations_get "p" "z" operation) n w w'.
Proof.
  revert w. induction n as [|n IH]; intros w.
  - exists w. constructor.
  - destruct (IH (time_sleep 2 w)) as [w' Hpending]. exists w'.
    by eapply (pending_S _ n w (Stuck.still_running operation) w).
Qed.

Lemma waiters_contract_witness :
  outcome_of (wait_for_zone_operation 1000 "op-1" "p" "z" 0%nat) = OutOfFuel.
Proof.
  destruct (waiters_contract (W := nat) "op-1" "p" "z") as [(_ & _ & _ & Hforever) _].
  apply (Hforever 0%nat). intros n. apply stuck_operation_pending.
Defined.

Example wait_for_zone_operation_polls_twice :
  wait_for_zone_operation 5 "op-1" "p" "z"
    (Scripted.start [Scripted.running "op-1"; Scripted.done "op-1"]) =
  (Ret tt, Scripted.start [],
   [ZoneOperationsGet "p" "z" "op-1"; Sleep 2; ZoneOperationsGet "p" "z" "op-1"]).
Proof. reflexivity. Qed.

Example wait_for_global_operation_surfaces_error :
  wait_for_global_operation 5 "op-2" "p"
    (Scripted.start [Scripted.failed "op-2" "QUOTA_EXCEEDED"]) =
  (Raise (PyException "Operation failed: QUOTA_EXCEEDED"), Scripted.start [],
   [GlobalOperationsGet "p" "op-2"]).
Proof. reflexivity. Qed.

(** ** One turn of the attempt loop *)

Section Attempts.
Context {W : Type} `{Platform W}.
Implicit Types (w : W) (e : exn) (calls : list Call).

Lemma delete_vm_loop_returned fuel instance_name project_id max_retries attempt rest w w1 calls :
  delete_attempt fuel instance_name project_id w = (Ret tt, w1, calls) ->
  delete_vm_loop fuel instance_name project_id max_retries (attempt :: rest) w =
  (Ret tt, w1, calls).
Proof.
  intros Hrun. simpl. unfold bind at 1, try_catch, bind. rewrite Hrun. simpl.
  by rewrite !app_nil_r.
Qed.

Lemma delete_vm_loop_out_of_fuel fuel instance_name project_id max_retries attempt rest w w1 calls :
  delete_attempt fuel instance_name project_id w = (OutOfFuel, w1, calls) ->
  delete_vm_loop fuel instance_name project_id max_retries (attempt :: rest) w =
  (OutOfFuel, w1, calls).
Proof.
  intros Hrun. simpl. unfold bind at 1, try_catch, bind. by rewrite Hrun.
Qed.

Lemma delete_vm_loop_not_found fuel instance_name project_id max_retries attempt rest w e w1 calls :
  delete_attempt fuel instance_name project_id w = (Raise e, w1, calls) ->
  is_not_found e = true ->
  delete_vm_loop fuel instance_name project_id max_retries (attempt :: rest) w =
  (Ret tt, w1, calls).
Proof.
  intros Hrun Hnf. simpl. unfold bind at 1, try_catch, bind. rewrite Hrun, Hnf. simpl.
  by rewrite !app_nil_r.
Qed.

Lemma delete_vm_loop_retry fuel instance_name project_id max_retries attempt rest w e w1 calls :
  delete_attempt fuel instance_name project_id w = (Raise e, w1, calls) ->
  is_not_found e = false ->
  attempt < max_retries ->
  delete_vm_loop fuel instance_name project_id max_retries (attempt :: rest) w =
  let run := delete_vm_loop fuel instance_name project_id max_retries rest
               (time_sleep (attempt * 5) w1) in
  (outcome_of run, world_of run, calls ++ Sleep (attempt * 5) :: calls_of run).
Proof.
  intros Hrun Hnf Hlt. simpl. unfold bind at 1, try_catch, bind. rewrite Hrun, Hnf.
  rewrite (proj2 (Z.ltb_lt _ _) Hlt). unfold sleep, ret. simpl.
  destruct (delete_vm_loop _ _ _ _ _ _) as [[r w2] l2]. simpl.
  by rewrite <- app_assoc.
Qed.

Lemma delete_vm_loop_exhausted fuel instance_name project_id max_retries attempt rest w e w1 calls :
  delete_attempt fuel instance_name project_id w = (Raise e, w1, calls) ->
  is_not_found e = false ->
  max_retries <= attempt ->
  delete_vm_loop fuel instance_name project_id max_retries (attempt :: rest) w =
  (Raise e, w1, calls).
Proof.
  intros Hrun Hnf Hle. simpl. unfold bind at 1, try_catch, bind. rewrite Hrun, Hnf.
  rewrite (proj2 (Z.ltb_ge _ _) Hle). unfold raise. by rewrite app_nil_r.
Qed.

(** One way for an attempt to fail: the existence check is refused for a
    reason that is not a not-found one. *)
Lemma delete_attempt_get_refused fuel instance_name project_id w msg w1 :
  instances_get project_id ZONE instance_name w = (inl msg, w1) ->
  is_not_found (ClientError msg) = false ->
  delete_attempt fuel instance_name project_id w =
  (Raise (ClientError msg), w1, [InstancesGet project_id ZONE instance_name]).
Proof.
  intros Hget Hnf. apply not_not_found_inner in Hnf. simpl in Hnf.
  unfold delete_attempt, check_vm_exists, try_catch, bind, call_instances_get, client.
  rewrite Hget. simpl. by rewrite Hnf.
Qed.

End Attempts.

(** C4: when every attempt fails with an error that is not a not-found
    error, [delete_vm] with [max_retries = 3] makes exactly three attempts,
    sleeps 5 seconds after the first and 10 after the second, and after the
    third raises the error of that last attempt. *)
Theorem delete_vm_retry_bound `{Platform W} (fuel : nat)
    (instance_name project_id : string) (w : W) :
  (forall w0, exists e w1 calls,
     delete_attempt fuel instance_name project_id w0 = (Raise e, w1, calls) /\
     is_not_found e = false) ->
  exists e1 w1 calls1 e2 w2 calls2 e3 w3 calls3,
    delete_attempt fuel instance_name project_id w = (Raise e1, w1, calls1) /\
    delete_attempt fuel instance_name project_id (time_sleep 5 w1) = (Raise e2, w2, calls2) /\
    delete_attempt fuel instance_name project_id (time_sleep 10 w2) = (Raise e3, w3, calls3) /\
    is_not_found e3 = false /\
    delete_vm fuel instance_name project_id 3 w =
    (Raise e3, w3, calls1 ++ Sleep 5 :: calls2 ++ Sleep 10 :: calls3).
Proof.
  intros Hfails.
  destruct (Hfails w) as (e1 & w1 & calls1 & Hrun1 & Hnf1).
  destruct (Hfails (time_sleep 5 w1)) as (e2 & w2 & calls2 & Hrun2 & Hnf2).
  destruct (Hfails (time_sleep 10 w2)) as (e3 & w3 & calls3 & Hrun3 & Hnf3).
  exists e1, w1, calls1, e2, w2, calls2, e3, w3, calls3.
  repeat (split; [done|]).
  unfold delete_vm. change (range 1 (3 + 1)) with [1; 2; 3].
  rewrite (delete_vm_loop_retry _ _ _ _ _ _ _ _ _ _ Hrun1 Hnf1) by lia.
  change (1 * 5) with 5.
  rewrite (delete_vm_loop_retry _ _ _ _ _ _ _ _ _ _ Hrun2 Hnf2) by lia.
  change (2 * 5) with 10.
  rewrite (delete_vm_loop_exhausted _ _ _ _ _ _ _ _ _ _ Hrun3 Hnf3) by lia.
  reflexivity.
Qed.

Lemma delete_vm_retry_bound_witness :
  exists e1 w1 calls1 e2 w2 calls2 e3 w3 calls3,
    delete_attempt 10 "vm-1" "p" tt = (Raise e1, w1, calls1) /\
    delete_attempt 10 "vm-1" "p" (time_sleep 5 w1) = (Raise e2, w2, calls2) /\
    delete_attempt 10 "vm-1" "p" (time_sleep 10 w2) = (Raise e3, w3, calls3) /\
    is_not_found e3 = false /\
    delete_vm 10 "vm-1" "p" 3 tt =
    (Raise e3, w3, calls1 ++ Sleep 5 :: calls2 ++ Sleep 10 :: calls3).
Proof.
  apply (delete_vm_retry_bound (W := unit) 10 "vm-1" "p" tt).
  intros []. exists (ClientError "503 service unavailable"), tt,
    [InstancesGet "p" ZONE "vm-1"].
  split; reflexivity.
Defined.

(** The same run, spelled out: three existence checks, 5 then 10 seconds. *)
Example delete_vm_unavailable_service :
  delete_vm 10 "vm-1" "p" 3 tt =
  (Raise (ClientError "503 service unavailable"), tt,
   [InstancesGet "p" "us-central1-a" "vm-1"; Sleep 5;
    InstancesGet "p" "us-central1-a" "vm-1"; Sleep 10;
    InstancesGet "p" "us-central1-a" "vm-1"]).
Proof. reflexivity. Qed.

(** ** create_image_from_vm *)

Section Promotion.
Context {W : Type} `{Platform W}.
Implicit Types (w : W) (e : exn) (calls : list Call).

Lemma client_Ret {A} (c : Call) (f : W -> (string + A) * W) w a w1 :
  f w = (inr a, w1) -> client c f w = (Ret a, w1, [c]).
Proof. intros Hf. unfold client. by rewrite Hf. Qed.

(** A waiter only polls and sleeps. *)
Lemma poll_until_done_calls fuel poll get w :
  Forall (fun c => c = poll \/ c = Sleep 2) (calls_of (poll_until_done fuel poll get w)).
Proof.
  revert w. induction fuel as [|fuel IH]; intros w; [by constructor|].
  rewrite poll_until_done_S. destruct (get w) as [[msg|operation] w1].
  - repeat constructor.
  - case_bool_decide.
    + destruct (Operation.error operation); repeat constructor.
    + cbv zeta. unfold calls_of at 1. simpl.
      constructor; [by left|]. constructor; [by right|]. apply IH.
Qed.

Lemma wait_for_zone_operation_quiet fuel operation_name project_id zone w :
  Forall (fun c => is_mutating c = false)
    (calls_of (wait_for_zone_operation fuel operation_name project_id zone w)).
Proof.
  rewrite wait_for_zone_operation_poll.
  eapply Forall_impl; [apply poll_until_done_calls|].
  by intros c [-> | ->].
Qed.

Lemma find_boot_disk_source_none disks :
  Forall (fun disk => Instance.boot disk = false) disks ->
  find_boot_disk_source disks = None.
Proof. induction 1 as [|disk disks Hboot _ IH]; simpl; [done|]. by rewrite Hboot. Qed.

Lemma find_boot_disk_source_first before disk after :
  Forall (fun d => Instance.boot d = false) before ->
  Instance.boot disk = true ->
  find_boot_disk_source (before ++ disk :: after) = Some (Instance.source disk).
Proof.
  intros Hbefore Hboot. induction Hbefore as [|d before Hd _ IH]; simpl.
  - by rewrite Hboot.
  - by rewrite Hd.
Qed.

(** A promotion that got as far as reading the stopped instance. *)
Lemma create_image_from_vm_after_read fuel instance_name image_name project_id
    w operation w1 w2 instance w3 polls :
  instances_stop project_id ZONE instance_name w = (inr operation, w1) ->
  wait_for_zone_operation fuel (Operation.name operation) project_id ZONE w1 =
    (Ret tt, w2, polls) ->
  instances_get project_id ZONE instance_name w2 = (inr instance, w3) ->
  let continue : M W string :=
    match find_boot_disk_source (Instance.disks instance) with
    | None => raise (no_boot_disk instance_name)
    | Some boot_disk_source =>
        if negb (truthy boot_disk_source) then raise (no_boot_disk instance_name)
        else
          operation <- call_images_insert project_id
            (promoted_image_resource instance_name image_name boot_disk_source) ;;
          wait_for_global_operation fuel (Operation.name operation) project_id ;;;
          sleep 30 ;;;
          ret image_name
    end in
  create_image_from_vm fuel instance_name image_name project_id w =
  (outcome_of (continue w3), world_of (continue w3),
   InstancesStop project_id ZONE instance_name :: polls ++
   InstancesGet project_id ZONE instance_name :: calls_of (continue w3)).
Proof.
  intros Hstop Hwait Hget continue.
  unfold create_image_from_vm. rewrite try_catch_reraise.
  unfold call_instances_stop.
  rewrite (bind_Ret _ _ _ _ _ _ (client_Ret _ _ _ _ _ Hstop)).
  rewrite (bind_Ret _ _ _ _ _ _ Hwait).
  unfold call_instances_get.
  rewrite (bind_Ret _ _ _ _ _ _ (client_Ret _ _ _ _ _ Hget)).
  fold continue. unfold outcome_of, world_of, calls_of. simpl. reflexivity.
Qed.

End Promotion.

(** C8: once the instance has been stopped and read again, if none of its
    disks is flagged as boot, [create_image_from_vm] raises the exception
    saying that no boot disk was found and has issued no image-creation
    call; if a disk is the first flagged as boot and has a source path, the
    next call creates an image whose source disk is that path as the client
    gave it, with the labels [source_image] (the instance),
    [validation_status = passed] and [created_by], and the family
    [rhel9-runtime]. *)
Theorem create_image_from_vm_boot_disk `{Platform W} (fuel : nat)
    (instance_name image_name project_id : string)
    (w w1 w2 w3 : W) (operation : Operation.t) (instance : Instance.t)
    (polls : list Call) :
  instances_stop project_id ZONE instance_name w = (inr operation, w1) ->
  wait_for_zone_operation fuel (Operation.name operation) project_id ZONE w1 =
    (Ret tt, w2, polls) ->
  instances_get project_id ZONE instance_name w2 = (inr instance, w3) ->
  (Forall (fun disk => Instance.boot disk = false) (Instance.disks instance) ->
   create_image_from_vm fuel instance_name image_name project_id w =
   (Raise (PyException ("Could not find boot disk for instance " +:+ instance_name)), w3,
    InstancesStop project_id ZONE instance_name :: polls ++
    [InstancesGet project_id ZONE instance_name]) /\
   Forall (fun c => is_insert c = false)
     (calls_of (create_image_from_vm fuel instance_name image_name project_id w))) /\
  (forall before disk after,
     Instance.disks instance = before ++ disk :: after ->
     Forall (fun d => Instance.boot d = false) before ->
     Instance.boot disk = true ->
     Instance.source disk <> "" ->
     exists image rest,
       calls_of (create_image_from_vm fuel instance_name image_name project_id w) =
       InstancesStop project_id ZONE instance_name :: polls ++
       InstancesGet project_id ZONE instance_name ::
       ImagesInsert project_id image :: rest /\
       Image.name image = image_name /\
       Image.source_disk image = Instance.source disk /\
       Image.family image = "rhel9-runtime" /\
       Image.labels image !! "source_image" = Some instance_name /\
       Image.labels image !! "validation_status" = Some "passed" /\
       Image.labels image !! "created_by" = Some "promote-cleanup-function" /\
       dom (Image.labels image) =
         ({["source_image"; "validation_status"; "created_by"]} : gset string)).
Proof.
  intros Hstop Hwait Hget.
  pose proof (create_image_from_vm_after_read fuel instance_name image_name project_id
                _ _ _ _ _ _ _ Hstop Hwait Hget) as Hrun.
  cbv zeta in Hrun. split.
  - intros Hnone. rewrite (find_boot_disk_source_none _ Hnone) in Hrun.
    rewrite Hrun. split; [done|].
    unfold calls_of at 1. simpl. constructor; [done|].
    apply Forall_app. split; [|by repeat constructor].
    pose proof (wait_for_zone_operation_quiet fuel (Operation.name operation)
                  project_id ZONE w1) as Hquiet.
    rewrite Hwait in Hquiet. eapply Forall_impl; [exact Hquiet|].
    by intros [] Hc.
  - intros before disk after Hdisks Hbefore Hboot Hsource.
    rewrite Hdisks, (find_boot_disk_source_first _ _ _ Hbefore Hboot) in Hrun.
    assert (Htruthy : truthy (Instance.source disk) = true)
      by (by destruct (Instance.source disk)).
    rewrite Htruthy in Hrun. change (negb true) with false in Hrun. cbv iota in Hrun.
    exists (promoted_image_resource instance_name image_name (Instance.source disk)).
    match type of Hrun with
    | context [calls_of (bind ?m ?k ?w)] => destruct (bind_calls m k w) as [rest Hrest]
    end.
    unfold call_images_insert in Hrest at 2. rewrite client_calls in Hrest.
    exists rest. rewrite Hrun. unfold calls_of at 1. simpl. rewrite Hrest.
    split; [done|]. repeat (split; [done|]).
    simpl. rewrite !dom_insert_L, dom_empty_L. set_solver.
Qed.

Lemma create_image_from_vm_boot_disk_witness :
  exists image rest,
    calls_of (create_image_from_vm 5 "vm-1" "rhel9-promoted-20240517-120000" "p"
                (Scripted.start [Scripted.done "op-1"; Scripted.done "op-1";
                                 Scripted.vm Instance.TERMINATED;
                                 Scripted.done "op-2"; Scripted.done "op-2"])) =
    InstancesStop "p" ZONE "vm-1" :: [ZoneOperationsGet "p" ZONE "op-1"] ++
    InstancesGet "p" ZONE "vm-1" :: ImagesInsert "p" image :: rest /\
    Image.name image = "rhel9-promoted-20240517-120000" /\
    Image.source_disk image = "zones/z/disks/boot" /\
    Image.family image = "rhel9-runtime" /\
    Image.labels image !! "source_image" = Some "vm-1" /\
    Image.labels image !! "validation_status" = Some "passed" /\
    Image.labels image !! "created_by" = Some "promote-cleanup-function" /\
    dom (Image.labels image) =
      ({["source_image"; "validation_status"; "created_by"]} : gset string).
Proof.
  destruct (create_image_from_vm_boot_disk (W := Scripted.World) 5 "vm-1"
              "rhel9-promoted-20240517-120000" "p"
              (Scripted.start [Scripted.done "op-1"; Scripted.done "op-1";
                               Scripted.vm Instance.TERMINATED;
                               Scripted.done "op-2"; Scripted.done "op-2"])
              (Scripted.start [Scripted.done "op-1"; Scripted.vm Instance.TERMINATED;
                               Scripted.done "op-2"; Scripted.done "op-2"])
              (Scripted.start [Scripted.vm Instance.TERMINATED;
                               Scripted.done "op-2"; Scripted.done "op-2"])
              (Scripted.start [Scripted.done "op-2"; Scripted.done "op-2"])
              {| Operation.name := "op-1"; Operation.status := Operation.DONE;
                 Operation.error := None |}
              {| Instance.status := Instance.TERMINATED;
                 Instance.disks :=
                   [ {| Instance.boot := false; Instance.source := "zones/z/disks/data" |};
                     {| Instance.boot := true; Instance.source := "zones/z/disks/boot" |} ] |}
              [ZoneOperationsGet "p" ZONE "op-1"]) as [_ Hfound];
    [vm_compute; reflexivity ..|].
  apply (Hfound [ {| Instance.boot := false; Instance.source := "zones/z/disks/data" |} ]
           {| Instance.boot := true; Instance.source := "zones/z/disks/boot" |} []).
  - reflexivity.
  - repeat constructor.
  - reflexivity.
  - discriminate.
Defined.

Example create_image_from_vm_no_boot_disk :
  create_image_from_vm 5 "vm-1" "img" "p"
    (Scripted.start
       [Scripted.done "op-1"; Scripted.done "op-1";
        Scripted.AnInstance
          {| Instance.status := Instance.TERMINATED;
             Instance.disks :=
               [ {| Instance.boot := false; Instance.source := "zones/z/disks/data" |} ] |}]) =
  (Raise (PyException "Could not find boot disk for instance vm-1"), Scripted.start [],
   [InstancesStop "p" "us-central1-a" "vm-1"; ZoneOperationsGet "p" "us-central1-a" "op-1";
    InstancesGet "p" "us-central1-a" "vm-1"]).
Proof. reflexivity. Qed.

(** ** One attempt of delete_vm *)

Section Reaper.
Context {W : Type} `{Platform W}.
Implicit Types (w : W) (e : exn) (calls : list Call).

Lemma delete_instance_unfold fuel instance_name project_id :
  delete_instance fuel instance_name project_id =
  try_catch (delete_and_wait fuel instance_name project_id)
    (fun delete_error =>
       if negb (mentions_not_found delete_error) then
         force_delete fuel instance_name project_id
       else ret tt).
Proof. reflexivity. Qed.

Lemma force_delete_unfold fuel instance_name project_id :
  force_delete fuel instance_name project_id =
  try_catch
    (force_stop fuel instance_name project_id ;;;
     delete_and_wait fuel instance_name project_id)
    (fun force_error =>
       if negb (mentions_not_found force_error) then raise force_error else ret tt).
Proof. reflexivity. Qed.

Lemma delete_and_wait_first_call fuel instance_name project_id w :
  exists rest,
    calls_of (delete_and_wait fuel instance_name project_id w) =
    InstancesDelete project_id ZONE instance_name :: rest.
Proof.
  unfold delete_and_wait. first_calls.
  unfold call_instances_delete. rewrite client_calls. by eexists.
Qed.

Lemma delete_instance_first_call fuel instance_name project_id w :
  exists rest,
    calls_of (delete_instance fuel instance_name project_id w) =
    InstancesDelete project_id ZONE instance_name :: rest.
Proof.
  rewrite delete_instance_unfold. first_calls.
  destruct (delete_and_wait_first_call fuel instance_name project_id w) as [rest ->].
  by eexists.
Qed.

(** The stop before the delete never raises. *)
Lemma stop_before_delete_swallows fuel instance_name project_id w e w1 calls :
  stop_before_delete_body fuel instance_name project_id w = (Raise e, w1, calls) ->
  stop_before_delete fuel instance_name project_id w = (Ret tt, w1, calls).
Proof.
  intros Hbody. unfold stop_before_delete.
  rewrite (try_catch_Raise _ _ _ _ _ _ Hbody).
  destruct (negb _); unfold ret, outcome_of, world_of, calls_of; simpl;
    by rewrite app_nil_r.
Qed.

Lemma stop_before_delete_never_raises fuel instance_name project_id w e :
  outcome_of (stop_before_delete fuel instance_name project_id w) <> Raise e.
Proof.
  unfold stop_before_delete, try_catch.
  destruct (stop_before_delete_body _ _ _ w) as [[[[]|e'|] w1] calls]; [done| |done].
  by destruct (negb _).
Qed.

(** An attempt on a VM that exists, up to its delete. *)
Lemma delete_attempt_reaches_delete fuel instance_name project_id w w1 calls1 stable w2 calls2
    w3 calls3 :
  check_vm_exists instance_name project_id w = (Ret true, w1, calls1) ->
  wait_for_vm_stable fuel instance_name project_id 60 w1 = (Ret stable, w2, calls2) ->
  stop_before_delete fuel instance_name project_id w2 = (Ret tt, w3, calls3) ->
  delete_attempt fuel instance_name project_id w =
  (outcome_of (delete_instance fuel instance_name project_id w3),
   world_of (delete_instance fuel instance_name project_id w3),
   calls1 ++ calls2 ++ calls3 ++
   calls_of (delete_instance fuel instance_name project_id w3)).
Proof.
  intros Hcheck Hstable Hstop. unfold delete_attempt.
  rewrite (bind_Ret _ _ _ _ _ _ Hcheck). cbv beta.
  change (negb true) with false. cbv iota.
  rewrite (bind_Ret _ _ _ _ _ _ Hstable).
  rewrite (bind_Ret _ _ _ _ _ _ Hstop).
  unfold outcome_of, world_of, calls_of. simpl. reflexivity.
Qed.

End Reaper.

(** C10: in an attempt that has found the VM and finished waiting for it to
    be stable, an exception of the stop phase, whether raised by the read of
    the status, by the stop call or by the wait on it, and whatever its
    message, is caught: the stop phase ends normally where the exception
    arose, the attempt goes on with the delete call, and how the attempt
    ends is how the delete ends.  The stop phase never raises. *)
Theorem stop_phase_errors_swallowed `{Platform W} (fuel : nat)
    (instance_name project_id : string)
    (w w1 w2 w3 : W) (calls1 calls2 calls3 : list Call) (stable : bool) (e : exn) :
  check_vm_exists instance_name project_id w = (Ret true, w1, calls1) ->
  wait_for_vm_stable fuel instance_name project_id 60 w1 = (Ret stable, w2, calls2) ->
  stop_before_delete_body fuel instance_name project_id w2 = (Raise e, w3, calls3) ->
  stop_before_delete fuel instance_name project_id w2 = (Ret tt, w3, calls3) /\
  (forall w0 e0,
     outcome_of (stop_before_delete fuel instance_name project_id w0) <> Raise e0) /\
  exists rest,
    delete_attempt fuel instance_name project_id w =
    (outcome_of (delete_instance fuel instance_name project_id w3),
     world_of (delete_instance fuel instance_name project_id w3),
     calls1 ++ calls2 ++ calls3 ++ InstancesDelete project_id ZONE instance_name :: rest) /\
    calls_of (delete_instance fuel instance_name project_id w3) =
    InstancesDelete project_id ZONE instance_name :: rest.
Proof.
  intros Hcheck Hstable Hbody.
  pose proof (stop_before_delete_swallows _ _ _ _ _ _ _ Hbody) as Hstop.
  split; [done|]. split; [intros; apply stop_before_delete_never_raises|].
  destruct (delete_instance_first_call fuel instance_name project_id w3) as [rest Hrest].
  exists rest. split; [|done].
  rewrite (delete_attempt_reaches_delete _ _ _ _ _ _ _ _ _ _ _ Hcheck Hstable Hstop).
  by rewrite Hrest.
Qed.

Lemma stop_phase_errors_swallowed_witness :
  stop_before_delete 5 "vm-1" "p"
    (Scripted.start [Scripted.Fails "403 permission denied";
                     Scripted.done "op-d"; Scripted.done "op-d"]) =
  (Ret tt, Scripted.start [Scripted.done "op-d"; Scripted.done "op-d"],
   [InstancesGet "p" ZONE "vm-1"]) /\
  (forall w0 e0, outcome_of (stop_before_delete 5 "vm-1" "p" w0) <> Raise e0) /\
  exists rest,
    delete_attempt 5 "vm-1" "p" ReaperExamples.stop_refused =
    (outcome_of (delete_instance 5 "vm-1" "p"
                   (Scripted.start [Scripted.done "op-d"; Scripted.done "op-d"])),
     world_of (delete_instance 5 "vm-1" "p"
                 (Scripted.start [Scripted.done "op-d"; Scripted.done "op-d"])),
     [InstancesGet "p" ZONE "vm-1"] ++ [TimeTime; TimeTime; InstancesGet "p" ZONE "vm-1"] ++
     [InstancesGet "p" ZONE "vm-1"] ++ InstancesDelete "p" ZONE "vm-1" :: rest) /\
    calls_of (delete_instance 5 "vm-1" "p"
                (Scripted.start [Scripted.done "op-d"; Scripted.done "op-d"])) =
    InstancesDelete "p" ZONE "vm-1" :: rest.
Proof.
  apply (stop_phase_errors_swallowed (W := Scripted.World) 5 "vm-1" "p"
           ReaperExamples.stop_refused
           (Scripted.start [Scripted.vm Instance.RUNNING;
                            Scripted.Fails "403 permission denied";
                            Scripted.done "op-d"; Scripted.done "op-d"])
           (Scripted.start [Scripted.Fails "403 permission denied";
                            Scripted.done "op-d"; Scripted.done "op-d"])
           (Scripted.start [Scripted.done "op-d"; Scripted.done "op-d"])
           [InstancesGet "p" ZONE "vm-1"]
           [TimeTime; TimeTime; InstancesGet "p" ZONE "vm-1"]
           [InstancesGet "p" ZONE "vm-1"]
           true (ClientError "403 permission denied"));
    vm_compute; reflexivity.
Defined.

Example delete_vm_stop_refused :
  delete_vm 5 "vm-1" "p" 3 ReaperExamples.stop_refused =
  (Ret tt, Scripted.start [],
   [InstancesGet "p" "us-central1-a" "vm-1"; TimeTime; TimeTime;
    InstancesGet "p" "us-central1-a" "vm-1"; InstancesGet "p" "us-central1-a" "vm-1";
    InstancesDelete "p" "us-central1-a" "vm-1";
    ZoneOperationsGet "p" "us-central1-a" "op-d"; Sleep 10]).
Proof. reflexivity. Qed.

(** ** Not-found errors in delete_vm *)

Section NotFound.
Context {W : Type} `{Platform W}.
Implicit Types (w : W) (e : exn) (calls : list Call).

Lemma check_vm_exists_absent instance_name project_id w w1 calls :
  check_vm_exists instance_name project_id w = (Ret false, w1, calls) ->
  calls = [InstancesGet project_id ZONE instance_name].
Proof.
  intros Hcheck. pose proof (check_vm_exists_calls instance_name project_id w) as Hcalls.
  by rewrite Hcheck in Hcalls.
Qed.

Lemma check_vm_exists_refused instance_name project_id w msg w1 :
  instances_get project_id ZONE instance_name w = (inl msg, w1) ->
  check_vm_exists instance_name project_id w =
  (if contains "not found" (lower msg) || contains "NOT_FOUND" msg
   then Ret false else Raise (ClientError msg),
   w1, [InstancesGet project_id ZONE instance_name]).
Proof.
  intros Hget. unfold check_vm_exists, try_catch, bind, call_instances_get, client.
  rewrite Hget. simpl. by destruct (_ || _).
Qed.

Lemma delete_attempt_absent fuel instance_name project_id w w1 calls :
  check_vm_exists instance_name project_id w = (Ret false, w1, calls) ->
  delete_attempt fuel instance_name project_id w = (Ret tt, w1, calls).
Proof.
  intros Hcheck. unfold delete_attempt. rewrite (bind_Ret _ _ _ _ _ _ Hcheck).
  unfold ret, outcome_of, world_of, calls_of. simpl. by rewrite app_nil_r.
Qed.

Lemma delete_attempt_check_raises fuel instance_name project_id w e w1 calls :
  check_vm_exists instance_name project_id w = (Raise e, w1, calls) ->
  delete_attempt fuel instance_name project_id w = (Raise e, w1, calls).
Proof. intros Hcheck. unfold delete_attempt. by rewrite (bind_Raise _ _ _ _ _ _ Hcheck). Qed.

Lemma delete_instance_not_found fuel instance_name project_id w e w1 calls :
  delete_and_wait fuel instance_name project_id w = (Raise e, w1, calls) ->
  mentions_not_found e = true ->
  delete_instance fuel instance_name project_id w = (Ret tt, w1, calls).
Proof.
  intros Hdelete Hnf. rewrite delete_instance_unfold.
  rewrite (try_catch_Raise _ _ _ _ _ _ Hdelete), Hnf.
  unfold ret, outcome_of, world_of, calls_of. simpl. by rewrite app_nil_r.
Qed.

Lemma delete_instance_fallback fuel instance_name project_id w e w1 calls :
  delete_and_wait fuel instance_name project_id w = (Raise e, w1, calls) ->
  mentions_not_found e = false ->
  delete_instance fuel instance_name project_id w =
  (outcome_of (force_delete fuel instance_name project_id w1),
   world_of (force_delete fuel instance_name project_id w1),
   calls ++ calls_of (force_delete fuel instance_name project_id w1)).
Proof.
  intros Hdelete Hnf. rewrite delete_instance_unfold.
  by rewrite (try_catch_Raise _ _ _ _ _ _ Hdelete), Hnf.
Qed.

Lemma force_delete_second_delete_raises fuel instance_name project_id w w1 calls1 e w2 calls2 :
  force_stop fuel instance_name project_id w = (Ret tt, w1, calls1) ->
  delete_and_wait fuel instance_name project_id w1 = (Raise e, w2, calls2) ->
  force_delete fuel instance_name project_id w =
  (if mentions_not_found e then Ret tt else Raise e, w2, calls1 ++ calls2).
Proof.
  intros Hstop Hdelete. rewrite force_delete_unfold.
  assert (Hbody : (force_stop fuel instance_name project_id ;;;
                   delete_and_wait fuel instance_name project_id) w =
                  (Raise e, w2, calls1 ++ calls2)).
  { rewrite (bind_Ret _ _ _ _ _ _ Hstop). by rewrite Hdelete. }
  rewrite (try_catch_Raise _ _ _ _ _ _ Hbody).
  destruct (mentions_not_found e); unfold ret, raise, outcome_of, world_of, calls_of; simpl;
    by rewrite app_nil_r.
Qed.

End NotFound.

(** C5, as the code has it.  If the existence check reports the instance
    absent, [delete_vm] (with at least one attempt) returns with no call
    but that check.  In any attempt, whatever the attempts that remain,
    [delete_vm] returns at once, where the error arose, when a not-found
    error is raised by the existence check, when the delete call or its wait
    raises an error that mentions "not found", when the second delete of the
    fallback or its wait raises a not-found error, and whenever a not-found
    error leaves the attempt.  (A not-found error of the stabilisation or of
    a stop is not among them: it is absorbed there and the attempt goes
    on.) *)
Theorem delete_vm_not_found_short_circuit `{Platform W} (fuel : nat)
    (instance_name project_id : string) (max_retries attempt : Z) (rest : list Z) (w : W) :
  let loop := delete_vm_loop fuel instance_name project_id max_retries (attempt :: rest) in
  (1 <= max_retries ->
   forall w1 calls,
     check_vm_exists instance_name project_id w = (Ret false, w1, calls) ->
     delete_vm fuel instance_name project_id max_retries w =
     (Ret tt, w1, [InstancesGet project_id ZONE instance_name])) /\
  (forall w1 calls,
     check_vm_exists instance_name project_id w = (Ret false, w1, calls) ->
     loop w = (Ret tt, w1, [InstancesGet project_id ZONE instance_name])) /\
  (forall msg w1,
     instances_get project_id ZONE instance_name w = (inl msg, w1) ->
     is_not_found (ClientError msg) = true ->
     loop w = (Ret tt, w1, [InstancesGet project_id ZONE instance_name])) /\
  (forall w1 calls1 stable w2 calls2 w3 calls3 e w4 calls4,
     check_vm_exists instance_name project_id w = (Ret true, w1, calls1) ->
     wait_for_vm_stable fuel instance_name project_id 60 w1 = (Ret stable, w2, calls2) ->
     stop_before_delete fuel instance_name project_id w2 = (Ret tt, w3, calls3) ->
     delete_and_wait fuel instance_name project_id w3 = (Raise e, w4, calls4) ->
     (mentions_not_found e = true ->
      loop w = (Ret tt, w4, calls1 ++ calls2 ++ calls3 ++ calls4)) /\
     (mentions_not_found e = false ->
      forall w5 calls5 e' w6 calls6,
        force_stop fuel instance_name project_id w4 = (Ret tt, w5, calls5) ->
        delete_and_wait fuel instance_name project_id w5 = (Raise e', w6, calls6) ->
        is_not_found e' = true ->
        loop w = (Ret tt, w6, calls1 ++ calls2 ++ calls3 ++ calls4 ++ calls5 ++ calls6))) /\
  (forall e w1 calls,
     delete_attempt fuel instance_name project_id w = (Raise e, w1, calls) ->
     is_not_found e = true ->
     loop w = (Ret tt, w1, calls)).
Proof.
  intros loop. subst loop.
  assert (Habsent : forall attempts w1 calls,
            check_vm_exists instance_name project_id w = (Ret false, w1, calls) ->
            forall a, delete_vm_loop fuel instance_name project_id max_retries (a :: attempts) w =
            (Ret tt, w1, [InstancesGet project_id ZONE instance_name])).
  { intros attempts w1 calls Hcheck a.
    pose proof (check_vm_exists_absent _ _ _ _ _ Hcheck) as ->.
    apply delete_vm_loop_returned. by apply delete_attempt_absent. }
  split; [|split; [|split; [|split]]].
  - intros Hle w1 calls Hcheck. unfold delete_vm.
    rewrite range_cons by lia. by eapply Habsent.
  - intros w1 calls Hcheck. by eapply Habsent.
  - intros msg w1 Hget Hnf.
    pose proof (check_vm_exists_refused instance_name project_id _ _ _ Hget) as Hcheck.
    destruct (_ || _).
    + by eapply Habsent.
    + eapply delete_vm_loop_not_found; [|exact Hnf].
      by apply delete_attempt_check_raises.
  - intros w1 calls1 stable w2 calls2 w3 calls3 e w4 calls4 Hcheck Hstable Hstop Hdelete.
    pose proof (delete_attempt_reaches_delete _ _ _ _ _ _ _ _ _ _ _ Hcheck Hstable Hstop)
      as Hattempt.
    split.
    + intros Hnf. apply delete_vm_loop_returned.
      by rewrite Hattempt, (delete_instance_not_found _ _ _ _ _ _ _ Hdelete Hnf).
    + intros Hnf w5 calls5 e' w6 calls6 Hforce Hsecond Hnf'.
      rewrite (delete_instance_fallback _ _ _ _ _ _ _ Hdelete Hnf) in Hattempt.
      rewrite (force_delete_second_delete_raises _ _ _ _ _ _ _ _ _ Hforce Hsecond) in Hattempt.
      unfold outcome_of, world_of, calls_of in Hattempt. simpl in Hattempt.
      destruct (mentions_not_found e').
      * by apply delete_vm_loop_returned.
      * by eapply delete_vm_loop_not_found.
  - intros e w1 calls Hattempt Hnf. by eapply delete_vm_loop_not_found.
Qed.

Lemma delete_vm_not_found_short_circuit_witness :
  delete_vm 5 "vm-1" "p" 3 ReaperExamples.already_gone =
  (Ret tt, Scripted.start [], [InstancesGet "p" ZONE "vm-1"]).
Proof.
  destruct (delete_vm_not_found_short_circuit (W := Scripted.World) 5 "vm-1" "p" 3 1 [2; 3]
              ReaperExamples.already_gone) as [Habsent _].
  apply (Habsent ltac:(lia) (Scripted.start []) [InstancesGet "p" ZONE "vm-1"]).
  vm_compute. reflexivity.
Defined.

(** C5, as stated, fails: the VM is there at the existence check, the read
    of the stabilisation meets a not-found error, and [delete_vm] neither
    returns at once nor succeeds: it reads the status again, calls delete,
    falls back to the second delete and raises. *)
Lemma not_found_while_stabilising_does_not_return :
  is_not_found (ClientError "404 instance not found") = true /\
  wait_for_vm_stable 5 "vm-1" "p" 60
    (Scripted.start [Scripted.Fails "404 instance not found";
                     Scripted.Fails "404 instance not found";
                     Scripted.Fails "403 permission denied";
                     Scripted.Fails "404 instance not found";
                     Scripted.Fails "403 permission denied"]) =
  (Ret false,
   Scripted.start [Scripted.Fails "404 instance not found";
                   Scripted.Fails "403 permission denied";
                   Scripted.Fails "404 instance not found";
                   Scripted.Fails "403 permission denied"],
   [TimeTime; TimeTime; InstancesGet "p" ZONE "vm-1"]) /\
  delete_vm 5 "vm-1" "p" 1 ReaperExamples.gone_then_refused =
  (Raise (ClientError "403 permission denied"), Scripted.start [],
   [InstancesGet "p" ZONE "vm-1"; TimeTime; TimeTime; InstancesGet "p" ZONE "vm-1";
    InstancesGet "p" ZONE "vm-1"; InstancesDelete "p" ZONE "vm-1";
    InstancesGet "p" ZONE "vm-1"; InstancesDelete "p" ZONE "vm-1"]).
Proof. repeat split; vm_compute; reflexivity. Qed.

(** ** Promotion, then cleanup *)

Section Ordering.
Context {W : Type} `{Platform W}.
Implicit Types (w : W) (e : exn) (calls : list Call) (P : Call -> Prop).

Lemma bind_Forall {A B} P (m : M W A) (k : A -> M W B) w :
  Forall P (calls_of (m w)) ->
  (forall a w1, Forall P (calls_of (k a w1))) ->
  Forall P (calls_of (bind m k w)).
Proof.
  intros Hm Hk. unfold bind. destruct (m w) as [[[a|e|] w1] l1]; [|done|done].
  specialize (Hk a w1). destruct (k a w1) as [[r w2] l2].
  apply Forall_app. by split.
Qed.

Lemma try_catch_Forall {A} P (m : M W A) h w :
  Forall P (calls_of (m w)) ->
  (forall e w1, Forall P (calls_of (h e w1))) ->
  Forall P (calls_of (try_catch m h w)).
Proof.
  intros Hm Hh. unfold try_catch. destruct (m w) as [[[a|e|] w1] l1]; [done| |done].
  specialize (Hh e w1). destruct (h e w1) as [[r w2] l2].
  apply Forall_app. by split.
Qed.

Lemma client_Forall {A} P (c : Call) (f : W -> (string + A) * W) w :
  P c -> Forall P (calls_of (client c f w)).
Proof. intros Hc. rewrite client_calls. by repeat constructor. Qed.

Lemma bind_Ret_inv {A B} (m : M W A) (k : A -> M W B) w b w' calls :
  bind m k w = (Ret b, w', calls) ->
  exists a w1 calls1 calls2,
    m w = (Ret a, w1, calls1) /\ k a w1 = (Ret b, w', calls2) /\ calls = calls1 ++ calls2.
Proof.
  unfold bind. destruct (m w) as [[[a|e|] w1] l1]; [|done|done].
  destruct (k a w1) as [[r w2] l2] eqn:Hk. intros [= -> -> <-].
  by exists a, w1, l1, l2.
Qed.

Lemma client_Ret_inv {A} (c : Call) (f : W -> (string + A) * W) w a w1 calls :
  client c f w = (Ret a, w1, calls) -> f w = (inr a, w1) /\ calls = [c].
Proof. unfold client. destruct (f w) as [[msg|a'] w2]; [done|]. by intros [= -> -> <-]. Qed.

Lemma wait_for_zone_operation_returned fuel operation_name project_id zone w w' calls :
  wait_for_zone_operation fuel operation_name project_id zone w = (Ret tt, w', calls) ->
  exists n,
    calls = pending_calls (ZoneOperationsGet project_id zone operation_name) n ++
            [ZoneOperationsGet project_id zone operation_name].
Proof.
  rewrite wait_for_zone_operation_poll. intros Hrun.
  apply poll_until_done_inv in Hrun as (n & _ & _ & _ & -> & _); [|done]. by exists n.
Qed.

Lemma wait_for_global_operation_returned fuel operation_name project_id w w' calls :
  wait_for_global_operation fuel operation_name project_id w = (Ret tt, w', calls) ->
  exists n,
    calls = pending_calls (GlobalOperationsGet project_id operation_name) n ++
            [GlobalOperationsGet project_id operation_name].
Proof.
  rewrite wait_for_global_operation_poll. intros Hrun.
  apply poll_until_done_inv in Hrun as (n & _ & _ & _ & -> & _); [|done]. by exists n.
Qed.

(** A promotion that returns has gone through its whole sequence, and
    returns the name it was given. *)
Lemma create_image_from_vm_returned fuel instance_name image_name project_id w image w' calls :
  create_image_from_vm fuel instance_name image_name project_id w = (Ret image, w', calls) ->
  image = image_name /\
  exists stop_operation n1 image_resource insert_operation n2,
    Image.name image_resource = image_name /\
    calls = promotion_calls project_id instance_name stop_operation n1
              image_resource insert_operation n2.
Proof.
  unfold create_image_from_vm. rewrite try_catch_reraise. intros Hrun.
  apply bind_Ret_inv in Hrun as (operation & w1 & l1 & l1' & Hstop & Hrun & ->).
  apply client_Ret_inv in Hstop as [_ ->].
  apply bind_Ret_inv in Hrun as ([] & w2 & l2 & l2' & Hwait & Hrun & ->).
  apply wait_for_zone_operation_returned in Hwait as [n1 ->].
  apply bind_Ret_inv in Hrun as (instance & w3 & l3 & l3' & Hget & Hrun & ->).
  apply client_Ret_inv in Hget as [_ ->].
  destruct (find_boot_disk_source _) as [boot_disk_source|]; [|done].
  destruct (negb _); [done|].
  apply bind_Ret_inv in Hrun as (insert & w4 & l4 & l4' & Hinsert & Hrun & ->).
  apply client_Ret_inv in Hinsert as [_ ->].
  apply bind_Ret_inv in Hrun as ([] & w5 & l5 & l5' & Hwait & Hrun & ->).
  apply wait_for_global_operation_returned in Hwait as [n2 ->].
  unfold bind, sleep, ret in Hrun. injection Hrun as <- _ <-.
  split; [done|].
  exists (Operation.name operation), n1,
    (promoted_image_resource instance_name image_name boot_disk_source),
    (Operation.name insert), n2.
  split; [done|]. unfold promotion_calls. simpl. rewrite <- !app_assoc. reflexivity.
Qed.

Lemma waiter_never_deletes fuel poll get w :
  is_delete poll = false ->
  Forall (fun c => is_delete c = false) (calls_of (poll_until_done fuel poll get w)).
Proof.
  intros Hpoll. eapply Forall_impl; [apply poll_until_done_calls|].
  by intros c [-> | ->].
Qed.

(** Whatever its outcome, a promotion calls no delete. *)
Lemma create_image_from_vm_never_deletes fuel instance_name image_name project_id w :
  Forall (fun c => is_delete c = false)
    (calls_of (create_image_from_vm fuel instance_name image_name project_id w)).
Proof.
  unfold create_image_from_vm.
  apply try_catch_Forall; [|by constructor].
  apply bind_Forall; [by apply client_Forall|]. intros operation w1.
  apply bind_Forall.
  { rewrite wait_for_zone_operation_poll. by apply waiter_never_deletes. }
  intros _ w2. apply bind_Forall; [by apply client_Forall|]. intros instance w3.
  destruct (find_boot_disk_source _) as [boot_disk_source|]; [|by constructor].
  destruct (negb _); [by constructor|].
  apply bind_Forall; [by apply client_Forall|]. intros insert w4.
  apply bind_Forall.
  { rewrite wait_for_global_operation_poll. by apply waiter_never_deletes. }
  intros _ w5. apply bind_Forall; [by repeat constructor|]. intros _ w6. by constructor.
Qed.

Lemma promoted_image_name_truthy image_id now :
  truthy (promoted_image_name image_id now) = true.
Proof. unfold promoted_image_name. by destruct image_id. Qed.

(** A delete found among calls that start with calls free of deletes comes
    after all of these. *)
Lemma delete_after_prefix (prefix suffix before after : list Call) (c : Call) :
  Forall (fun c => is_delete c = false) prefix ->
  prefix ++ suffix = before ++ c :: after ->
  is_delete c = true ->
  exists middle, before = prefix ++ middle.
Proof.
  intros Hprefix. revert before.
  induction Hprefix as [|p prefix Hp _ IH]; intros before Heq Hc.
  - by exists before.
  - destruct before as [|b before]; simplify_eq/=; [congruence|].
    destruct (IH before) as [middle ->]; [done..|]. by exists middle.
Qed.

End Ordering.

(** C1: for a request that reaches both stages (a payload that decodes, a
    [validation_instance], [scan_result] "Pass", neither stage skipped), with
    [promotion] the run of [create_image_from_vm] and [cleanup] the run of
    [delete_vm] that follows it:
    - when the promotion returns, its calls are the whole sequence (stop
      and wait, read of the instance, image creation and wait, settle
      delay), and the calls of the invocation are the clock reading, these
      calls, the 5-second delay, then the calls of the cleanup (and the
      closing clock reading): every call of the reaper comes after them;
    - when the promotion raises or does not end, the invocation ends the
      same way, with the calls of the promotion only: no call of the reaper;
    - the promotion calls no delete, and any delete in the calls of the
      invocation has an image creation before it. *)
Theorem promotion_precedes_cleanup `{Platform W} (fuel : nat) (event : PubSub.t) (w : W) :
  payload_decodes event ->
  attribute event "validation_instance" "" <> "" ->
  attribute event "scan_result" "" = "Pass" ->
  flag event "skip_promotion" = false ->
  flag event "skip_destroy" = false ->
  let instance_name := attribute event "validation_instance" "" in
  let image_name := promoted_image_name (attribute event "image_id" "") (datetime_now w).1 in
  let promotion :=
    create_image_from_vm fuel instance_name image_name PROJECT_ID (datetime_now w).2 in
  let cleanup :=
    delete_vm fuel instance_name PROJECT_ID 3 (time_sleep 5 (world_of promotion)) in
  let invocation := promote_cleanup fuel event w in
  (forall image,
     outcome_of promotion = Ret image ->
     (exists stop_operation n1 image_resource insert_operation n2,
        calls_of promotion =
        promotion_calls PROJECT_ID instance_name stop_operation n1
          image_resource insert_operation n2) /\
     exists closing,
       calls_of invocation =
       DatetimeNow :: calls_of promotion ++ Sleep 5 :: calls_of cleanup ++ closing /\
       (closing = [] \/ closing = [DatetimeNow])) /\
  (forall e,
     outcome_of promotion = Raise e ->
     invocation = (Raise e, world_of promotion, DatetimeNow :: calls_of promotion)) /\
  (outcome_of promotion = OutOfFuel ->
   invocation = (OutOfFuel, world_of promotion, DatetimeNow :: calls_of promotion)) /\
  Forall (fun c => is_delete c = false) (calls_of promotion) /\
  (forall before c after,
     calls_of invocation = before ++ c :: after ->
     is_delete c = true ->
     exists image_resource, In (ImagesInsert PROJECT_ID image_resource) before).
Proof.
  intros Hdecodes Hinstance Hscan Hpromotion Hdestroy.
  intros instance_name image_name promotion cleanup invocation.
  assert (Hrun : invocation =
    match promotion with
    | (Ret image, wp, cp) =>
        match cleanup with
        | (Ret _, wc, cc) =>
            (Ret (Some {| Result.status := "success";
                          Result.promoted_image := Some image;
                          Result.validation_instance := instance_name;
                          Result.timestamp := isoformat (datetime_now wc).1 |}),
             (datetime_now wc).2,
             DatetimeNow :: cp ++ Sleep 5 :: cc ++ [DatetimeNow])
        | (Raise e, wc, cc) => (Raise e, wc, DatetimeNow :: cp ++ Sleep 5 :: cc ++ [])
        | (OutOfFuel, wc, cc) => (OutOfFuel, wc, DatetimeNow :: cp ++ Sleep 5 :: cc ++ [])
        end
    | (Raise e, wp, cp) => (Raise e, wp, DatetimeNow :: cp)
    | (OutOfFuel, wp, cp) => (OutOfFuel, wp, DatetimeNow :: cp)
    end).
  { subst invocation. unfold promote_cleanup. rewrite try_catch_reraise.
    assert (Hdata :
      (match PubSub.data event with
       | Some data =>
           match b64decode_utf8 data with
           | inl msg => raise (DecodeError msg)
           | inr _ => ret tt
           end
       | None => ret tt
       end) w = (Ret tt, w, [])).
    { destruct (PubSub.data event) as [data|] eqn:Hd; [|done].
      destruct (Hdecodes data Hd) as [text ->]. done. }
    rewrite (bind_Ret _ _ _ _ _ _ Hdata), app_nil_l, <- run_eta. cbv zeta.
    unfold flag, attribute in Hpromotion, Hdestroy, Hscan.
    rewrite Hpromotion, Hdestroy, Hscan.
    fold (attribute event "validation_instance" "").
    fold (attribute event "image_id" "").
    fold instance_name.
    assert (Htruthy : truthy instance_name = true).
    { subst instance_name. by destruct (attribute event "validation_instance" ""). }
    rewrite Htruthy.
    replace (String.eqb "Pass" "Pass") with true by reflexivity.
    change (negb true) with false. change (negb false) with true. cbv iota.
    subst cleanup promotion image_name.
    unfold bind, call_datetime_now.
    destruct (datetime_now w) as [now w0]. simpl.
    pose proof (create_image_from_vm_returned fuel instance_name
                  (promoted_image_name (attribute event "image_id" "") now)
                  PROJECT_ID w0) as Hreturned.
    destruct (create_image_from_vm _ _ _ _ w0) as [[[image|e|] wp] cp]; [|done|done].
    destruct (Hreturned image wp cp eq_refl) as [-> _].
    unfold ret at 1. simpl.
    rewrite promoted_image_name_truthy. unfold sleep at 1. unfold world_of. simpl.
    destruct (delete_vm _ _ _ _ _) as [[[[]|e|] wc] cc]; simpl.
    - unfold ret. destruct (datetime_now wc) as [now' wc']. simpl.
      by rewrite ?app_nil_r, <- ?app_assoc.
    - by rewrite ?app_nil_r, <- ?app_assoc.
    - by rewrite ?app_nil_r, <- ?app_assoc. }
  pose proof (create_image_from_vm_never_deletes fuel instance_name image_name PROJECT_ID
                (datetime_now w).2) as Hquiet.
  fold promotion in Hquiet.
  pose proof (create_image_from_vm_returned fuel instance_name image_name PROJECT_ID
                (datetime_now w).2) as Hreturned.
  fold promotion in Hreturned.
  assert (Hsuccess : forall image,
            outcome_of promotion = Ret image ->
            (exists stop_operation n1 image_resource insert_operation n2,
               calls_of promotion =
               promotion_calls PROJECT_ID instance_name stop_operation n1
                 image_resource insert_operation n2) /\
            exists closing,
              calls_of invocation =
              DatetimeNow :: calls_of promotion ++ Sleep 5 :: calls_of cleanup ++ closing /\
              (closing = [] \/ closing = [DatetimeNow])).
  { intros image Himage. rewrite Hrun. clear Hrun. subst cleanup.
    destruct promotion as [[outcome wp] cp]. unfold outcome_of in Himage. simpl in Himage. subst outcome.
    destruct (Hreturned image wp cp eq_refl)
      as [_ (stop_operation & n1 & image_resource & insert_operation & n2 & _ & Hcalls)].
    split; [by exists stop_operation, n1, image_resource, insert_operation, n2|].
    unfold world_of, calls_of. simpl.
    destruct (delete_vm _ _ _ _ _) as [[[[]|e|] wc] cc]; simpl; eauto. }
  split; [exact Hsuccess|]. split; [|split; [|split; [exact Hquiet|]]].
  - intros e He. rewrite Hrun. destruct promotion as [[outcome wp] cp].
    unfold outcome_of in He. simpl in He. by subst outcome.
  - intros He. rewrite Hrun. destruct promotion as [[outcome wp] cp].
    unfold outcome_of in He. simpl in He. by subst outcome.
  - intros before c after Hcalls Hdelete.
    destruct (outcome_of promotion) as [image|e|] eqn:Houtcome.
    + destruct (Hsuccess image eq_refl)
        as [(stop_operation & n1 & image_resource & insert_operation & n2 & Hpromo)
            (closing & Hinv & _)].
      rewrite Hinv, app_comm_cons in Hcalls.
      assert (Hprefix : Forall (fun c => is_delete c = false)
                          (DatetimeNow :: calls_of promotion)) by (by constructor).
      destruct (delete_after_prefix _ _ _ _ _ Hprefix Hcalls Hdelete) as [middle ->].
      exists image_resource. rewrite Hpromo. unfold promotion_calls.
      apply in_or_app. left. right. right. apply in_or_app. right.
      right. right. by left.
    + exfalso. rewrite Hrun in Hcalls. destruct promotion as [[outcome wp] cp].
      unfold outcome_of in Houtcome. simpl in Houtcome. subst outcome. unfold calls_of in Hcalls, Hquiet. simpl in *.
      assert (Hin : In c (DatetimeNow :: cp)) by (rewrite Hcalls; apply in_elt).
      destruct Hin as [<-|Hin]; [done|].
      rewrite Forall_forall in Hquiet. apply list_elem_of_In in Hin.
      specialize (Hquiet c Hin). congruence.
    + exfalso. rewrite Hrun in Hcalls. destruct promotion as [[outcome wp] cp].
      unfold outcome_of in Houtcome. simpl in Houtcome. subst outcome. unfold calls_of in Hcalls, Hquiet. simpl in *.
      assert (Hin : In c (DatetimeNow :: cp)) by (rewrite Hcalls; apply in_elt).
      destruct Hin as [<-|Hin]; [done|].
      rewrite Forall_forall in Hquiet. apply list_elem_of_In in Hin.
      specialize (Hquiet c Hin). congruence.
Qed.

Lemma promotion_precedes_cleanup_witness :
  let promotion :=
    create_image_from_vm 5 "vm-1" "rhel9-promoted-20240517-120000" PROJECT_ID
      PromotionExamples.obliging in
  let cleanup := delete_vm 5 "vm-1" PROJECT_ID 3 (time_sleep 5 (world_of promotion)) in
  exists closing,
    calls_of (promote_cleanup 5 PromotionExamples.passed_scan PromotionExamples.obliging) =
    DatetimeNow :: calls_of promotion ++ Sleep 5 :: calls_of cleanup ++ closing /\
    (closing = [] \/ closing = [DatetimeNow]).
Proof.
  destruct (promotion_precedes_cleanup (W := Scripted.World) 5
              PromotionExamples.passed_scan PromotionExamples.obliging)
    as (Hsuccess & _).
  - intros data _. by exists data.
  - vm_compute. discriminate.
  - vm_compute. reflexivity.
  - vm_compute. reflexivity.
  - vm_compute. reflexivity.
  - destruct (Hsuccess "rhel9-promoted-20240517-120000") as [_ Hcalls].
    + vm_compute. reflexivity.
    + exact Hcalls.
Defined.

(** The calls of that invocation, in order. *)
Example promote_cleanup_obliging_service :
  outcome_of (promote_cleanup 5 PromotionExamples.passed_scan PromotionExamples.obliging) =
  Ret (Some {| Result.status := "success";
               Result.promoted_image := Some "rhel9-promoted-20240517-120000";
               Result.validation_instance := "vm-1";
               Result.timestamp := "2024-05-17T12:00:00" |}) /\
  calls_of (promote_cleanup 5 PromotionExamples.passed_scan PromotionExamples.obliging) =
  [DatetimeNow;
   InstancesStop "sandbox-dev-478813" "us-central1-a" "vm-1";
   ZoneOperationsGet "sandbox-dev-478813" "us-central1-a" "op-1";
   InstancesGet "sandbox-dev-478813" "us-central1-a" "vm-1";
   ImagesInsert "sandbox-dev-478813"
     (promoted_image_resource "vm-1" "rhel9-promoted-20240517-120000" "zones/z/disks/boot");
   GlobalOperationsGet "sandbox-dev-478813" "op-2"; Sleep 30;
   Sleep 5;
   InstancesGet "sandbox-dev-478813" "us-central1-a" "vm-1"; TimeTime; TimeTime;
   InstancesGet "sandbox-dev-478813" "us-central1-a" "vm-1";
   InstancesGet "sandbox-dev-478813" "us-central1-a" "vm-1";
   InstancesDelete "sandbox-dev-478813" "us-central1-a" "vm-1";
   ZoneOperationsGet "sandbox-dev-478813" "us-central1-a" "op-3"; Sleep 10;
   DatetimeNow].
Proof. split; vm_compute; reflexivity. Qed.

(** ** The name of the promoted image *)

Lemma append_inj_r (prefix s t : string) : prefix +:+ s = prefix +:+ t -> s = t.
Proof. induction prefix as [|c prefix IH]; simpl; [done|]. intros [= Heq]. by apply IH. Qed.

Lemma below_in_seq (n a : N) :
  (a < n)%N -> In a (map N.of_nat (seq 0 (N.to_nat n))).
Proof.
  intros Hlt. rewrite <- (N2Nat.id a). apply in_map. apply in_seq. lia.
Qed.

Lemma unpad2_pad2 (a : N) : (a < 100)%N -> unpad2 (pad2 a) = a.
Proof.
  intros Hlt.
  assert (Hall : forallb (fun a => N.eqb (unpad2 (pad2 a)) a)
                   (map N.of_nat (seq 0 (N.to_nat 100))) = true) by (vm_compute; reflexivity).
  rewrite forallb_forall in Hall. by apply N.eqb_eq, Hall, below_in_seq.
Qed.

Lemma unpad4_pad4 (a : N) : (a < 10000)%N -> unpad4 (pad4 a) = a.
Proof.
  intros Hlt.
  assert (Hall : forallb (fun a => N.eqb (unpad4 (pad4 a)) a)
                   (map N.of_nat (seq 0 (N.to_nat 10000))) = true) by (vm_compute; reflexivity).
  rewrite forallb_forall in Hall. by apply N.eqb_eq, Hall, below_in_seq.
Qed.

Lemma pad2_inj (a b : N) : (a < 100)%N -> (b < 100)%N -> pad2 a = pad2 b -> a = b.
Proof.
  intros Ha Hb Heq. rewrite <- (unpad2_pad2 a Ha), <- (unpad2_pad2 b Hb). by rewrite Heq.
Qed.

Lemma pad4_inj (a b : N) : (a < 10000)%N -> (b < 10000)%N -> pad4 a = pad4 b -> a = b.
Proof.
  intros Ha Hb Heq. rewrite <- (unpad4_pad4 a Ha), <- (unpad4_pad4 b Hb). by rewrite Heq.
Qed.

(** Two valid readings are printed alike exactly when they fall within the
    same second. *)
Lemma strftime_promoted_same_second (dt1 dt2 : datetime) :
  valid_datetime dt1 -> valid_datetime dt2 ->
  strftime_promoted dt1 = strftime_promoted dt2 <-> same_second dt1 dt2.
Proof.
  intros (Hy1 & Hm1 & Hd1 & HH1 & HM1 & HS1 & _) (Hy2 & Hm2 & Hd2 & HH2 & HM2 & HS2 & _).
  split.
  - unfold strftime_promoted, pad4, pad2. cbn [String.append].
    intros [= Y3 Y2 Y1 Y0 m1 m0 d1 d0 h1 h0 M1 M0 S1 S0].
    split; [apply pad4_inj; [lia|lia|unfold pad4, pad2; congruence]|].
    repeat split; apply pad2_inj; try lia; unfold pad2; congruence.
  - intros (Hy & Hm & Hd & HH & HM & HS). unfold strftime_promoted. congruence.
Qed.

Lemma promoted_image_name_eq (image_id : string) (dt1 dt2 : datetime) :
  promoted_image_name image_id dt1 = promoted_image_name image_id dt2 <->
  strftime_promoted dt1 = strftime_promoted dt2.
Proof.
  unfold promoted_image_name. split; [|by intros ->].
  intros Heq%append_inj_r. by apply (append_inj_r "-promoted-").
Qed.

Lemma call_datetime_now_inv `{Platform W} (w w1 : W) now calls :
  call_datetime_now w = (Ret now, w1, calls) ->
  now = (datetime_now w).1 /\ w1 = (datetime_now w).2 /\ calls = [DatetimeNow].
Proof.
  unfold call_datetime_now. destruct (datetime_now w) as [dt w2]. by intros [= -> -> <-].
Qed.

Lemma promotion_calls_insert project_id instance_name stop_operation n1 image
    insert_operation n2 :
  In (ImagesInsert project_id image)
    (promotion_calls project_id instance_name stop_operation n1 image insert_operation n2).
Proof.
  unfold promotion_calls. right. apply in_or_app. right. right. right. by left.
Qed.

(** An invocation that promotes and returns a record names the image
    after the clock reading it starts with. *)
Lemma promote_cleanup_promoted_image `{Platform W} (fuel : nat) (event : PubSub.t)
    (w w' : W) (record : Result.t) (calls : list Call) :
  flag event "skip_promotion" = false ->
  promote_cleanup fuel event w = (Ret (Some record), w', calls) ->
  Result.promoted_image record =
    Some (promoted_image_name (attribute event "image_id" "") (datetime_now w).1) /\
  exists image_resource,
    In (ImagesInsert PROJECT_ID image_resource) calls /\
    Image.name image_resource =
      promoted_image_name (attribute event "image_id" "") (datetime_now w).1.
Proof.
  intros Hpromotion. unfold promote_cleanup. rewrite try_catch_reraise. intros Hrun.
  apply bind_Ret_inv in Hrun as ([] & w1 & l1 & l1' & Hdata & Hrun & ->).
  assert (w1 = w) as ->.
  { destruct (PubSub.data event) as [data|]; [|by injection Hdata].
    destruct (b64decode_utf8 data); [done|by injection Hdata]. }
  cbv zeta in Hrun. unfold flag, attribute in Hpromotion. rewrite Hpromotion in Hrun.
  fold (attribute event "image_id" "") in Hrun.
  destruct (negb (truthy _)); [done|]. destruct (negb (String.eqb _ _)); [done|].
  change (negb false) with true in Hrun. cbv iota in Hrun.
  apply bind_Ret_inv in Hrun as (promoted_image & w2 & l2 & l2' & Hpromote & Hrun & ->).
  apply bind_Ret_inv in Hpromote as (now & w3 & l3 & l3' & Hnow & Hpromote & ->).
  apply call_datetime_now_inv in Hnow as (-> & -> & ->).
  apply bind_Ret_inv in Hpromote as (promoted & w4 & l4 & l4' & Hcreate & Hret & ->).
  apply create_image_from_vm_returned in Hcreate
    as [-> (stop_operation & n1 & image_resource & insert_operation & n2 & Hname & ->)].
  injection Hret as <- _ _.
  apply bind_Ret_inv in Hrun as ([] & w5 & l5 & l5' & _ & Hrun & ->).
  apply bind_Ret_inv in Hrun as (now' & w6 & l6 & l6' & _ & Hret & ->).
  injection Hret as <- _ _. split; [done|].
  exists image_resource. split; [|done].
  pose proof (promotion_calls_insert PROJECT_ID
                (default "" (default ∅ (PubSub.attributes event) !! "validation_instance"))
                stop_operation n1 image_resource insert_operation n2) as Hin.
  rewrite !in_app_iff. tauto.
Qed.

(** *** Who creates images *)

Section Inserts.
Context {W : Type} `{Platform W}.
Implicit Types (w : W) (e : exn) (calls : list Call) (P : Call -> Prop).

Lemma bind_Forall_run {A B} P (m : M W A) (k : A -> M W B) w :
  Forall P (calls_of (m w)) ->
  (forall a w1 calls1, m w = (Ret a, w1, calls1) -> Forall P (calls_of (k a w1))) ->
  Forall P (calls_of (bind m k w)).
Proof.
  intros Hm Hk. unfold bind. destruct (m w) as [[[a|e|] w1] l1]; [|done|done].
  specialize (Hk a w1 l1 eq_refl). destruct (k a w1) as [[r w2] l2].
  apply Forall_app. by split.
Qed.

Lemma ret_Forall {A} P (a : A) w : Forall P (calls_of (ret a w)).
Proof. constructor. Qed.

Lemma raise_Forall {A} P e w : Forall P (calls_of (raise (A := A) e w)).
Proof. constructor. Qed.

Lemma sleep_Forall P seconds w : P (Sleep seconds) -> Forall P (calls_of (sleep seconds w)).
Proof. intros HP. by repeat constructor. Qed.

Lemma wait_for_zone_operation_Forall P fuel operation_name project_id zone w :
  P (ZoneOperationsGet project_id zone operation_name) -> P (Sleep 2) ->
  Forall P (calls_of (wait_for_zone_operation fuel operation_name project_id zone w)).
Proof.
  intros Hpoll Hsleep. rewrite wait_for_zone_operation_poll.
  eapply Forall_impl; [apply poll_until_done_calls|]. by intros c [-> | ->].
Qed.

Lemma wait_for_global_operation_Forall P fuel operation_name project_id w :
  P (GlobalOperationsGet project_id operation_name) -> P (Sleep 2) ->
  Forall P (calls_of (wait_for_global_operation fuel operation_name project_id w)).
Proof.
  intros Hpoll Hsleep. rewrite wait_for_global_operation_poll.
  eapply Forall_impl; [apply poll_until_done_calls|]. by intros c [-> | ->].
Qed.

(** The only image [create_image_from_vm] creates bears the name it was
    given. *)
Lemma create_image_from_vm_inserts fuel instance_name image_name project_id w :
  Forall (inserts_named image_name)
    (calls_of (create_image_from_vm fuel instance_name image_name project_id w)).
Proof.
  unfold create_image_from_vm.
  apply try_catch_Forall; [|intros; apply raise_Forall].
  apply bind_Forall; [by apply client_Forall|]. intros operation w1.
  apply bind_Forall; [by apply wait_for_zone_operation_Forall|].
  intros _ w2. apply bind_Forall; [by apply client_Forall|]. intros instance w3.
  destruct (find_boot_disk_source _) as [boot_disk_source|]; [|apply raise_Forall].
  destruct (negb _); [apply raise_Forall|].
  apply bind_Forall; [by apply client_Forall|]. intros insert w4.
  apply bind_Forall; [by apply wait_for_global_operation_Forall|].
  intros _ w5. apply bind_Forall; [by apply sleep_Forall|]. intros. apply ret_Forall.
Qed.

Lemma check_vm_exists_never_inserts instance_name project_id w :
  Forall (fun c => is_insert c = false) (calls_of (check_vm_exists instance_name project_id w)).
Proof. rewrite check_vm_exists_calls. by repeat constructor. Qed.

Lemma wait_for_vm_stable_never_inserts fuel instance_name project_id max_wait_seconds w :
  Forall (fun c => is_insert c = false)
    (calls_of (wait_for_vm_stable fuel instance_name project_id max_wait_seconds w)).
Proof.
  unfold wait_for_vm_stable.
  apply bind_Forall.
  { unfold call_time_time. destruct (time_time w). by repeat constructor. }
  intros start_time w1. revert w1.
  induction fuel as [|fuel IH]; intros w1; [constructor|]. simpl.
  apply bind_Forall.
  { unfold call_time_time. destruct (time_time w1). by repeat constructor. }
  intros now w2. destruct (PrimFloat.ltb _ _); [|apply ret_Forall].
  apply bind_Forall.
  - apply try_catch_Forall.
    + apply bind_Forall; [by apply client_Forall|]. intros instance w3.
      destruct (is_stable _); [apply ret_Forall|].
      apply bind_Forall; [by apply sleep_Forall|]. intros. apply ret_Forall.
    + intros e w3. destruct (_ || _); [apply ret_Forall|apply raise_Forall].
  - intros [b|] w3; [apply ret_Forall|apply IH].
Qed.

Lemma stop_before_delete_never_inserts fuel instance_name project_id w :
  Forall (fun c => is_insert c = false)
    (calls_of (stop_before_delete fuel instance_name project_id w)).
Proof.
  unfold stop_before_delete, stop_before_delete_body.
  apply try_catch_Forall.
  - apply bind_Forall; [by apply client_Forall|]. intros instance w1.
    case_bool_decide; [|apply ret_Forall].
    apply bind_Forall; [by apply client_Forall|]. intros operation w2.
    by apply wait_for_zone_operation_Forall.
  - intros e w1. destruct (negb _); apply ret_Forall.
Qed.

Lemma delete_and_wait_never_inserts fuel instance_name project_id w :
  Forall (fun c => is_insert c = false)
    (calls_of (delete_and_wait fuel instance_name project_id w)).
Proof.
  unfold delete_and_wait.
  apply bind_Forall; [by apply client_Forall|]. intros operation w1.
  apply bind_Forall; [by apply wait_for_zone_operation_Forall|].
  intros. by apply sleep_Forall.
Qed.

Lemma force_delete_never_inserts fuel instance_name project_id w :
  Forall (fun c => is_insert c = false)
    (calls_of (force_delete fuel instance_name project_id w)).
Proof.
  rewrite force_delete_unfold. apply try_catch_Forall.
  - apply bind_Forall; [|intros; apply delete_and_wait_never_inserts].
    unfold force_stop. apply try_catch_Forall; [|intros; apply ret_Forall].
    apply bind_Forall; [by apply client_Forall|]. intros instance w1.
    case_bool_decide; [|apply ret_Forall].
    apply bind_Forall; [by apply client_Forall|]. intros operation w2.
    apply bind_Forall; [by apply wait_for_zone_operation_Forall|].
    intros. by apply sleep_Forall.
  - intros e w1. destruct (negb _); [apply raise_Forall|apply ret_Forall].
Qed.

Lemma delete_attempt_never_inserts fuel instance_name project_id w :
  Forall (fun c => is_insert c = false)
    (calls_of (delete_attempt fuel instance_name project_id w)).
Proof.
  unfold delete_attempt.
  apply bind_Forall; [apply check_vm_exists_never_inserts|]. intros exists_ w1.
  destruct (negb exists_); [apply ret_Forall|].
  apply bind_Forall; [apply wait_for_vm_stable_never_inserts|]. intros _ w2.
  apply bind_Forall; [apply stop_before_delete_never_inserts|]. intros _ w3.
  rewrite delete_instance_unfold. apply try_catch_Forall.
  - apply delete_and_wait_never_inserts.
  - intros e w4. destruct (negb _); [apply force_delete_never_inserts|apply ret_Forall].
Qed.

(** The reaper creates no image. *)
Lemma delete_vm_never_inserts fuel instance_name project_id max_retries w :
  Forall (fun c => is_insert c = false)
    (calls_of (delete_vm fuel instance_name project_id max_retries w)).
Proof.
  unfold delete_vm. generalize (range 1 (max_retries + 1)). intros attempts. revert w.
  induction attempts as [|attempt rest IH]; intros w; [apply ret_Forall|]. simpl.
  apply bind_Forall.
  - apply try_catch_Forall.
    + apply bind_Forall; [apply delete_attempt_never_inserts|]. intros. apply ret_Forall.
    + intros e w1. destruct (is_not_found e); [apply ret_Forall|].
      destruct (attempt <? max_retries); [|apply raise_Forall].
      apply bind_Forall; [by apply sleep_Forall|]. intros. apply ret_Forall.
  - intros [] w1; [apply ret_Forall|apply IH].
Qed.

(** Whatever its outcome, an invocation creates no image under another
    name than the one made of [image_id] and of the clock reading it starts
    with. *)
Lemma promote_cleanup_inserts fuel event w :
  Forall (inserts_named
            (promoted_image_name (attribute event "image_id" "") (datetime_now w).1))
    (calls_of (promote_cleanup fuel event w)).
Proof.
  unfold promote_cleanup. rewrite try_catch_reraise.
  apply bind_Forall_run.
  { destruct (PubSub.data event) as [data|]; [|apply ret_Forall].
    destruct (b64decode_utf8 data); [apply raise_Forall|apply ret_Forall]. }
  intros [] w1 calls1 Hdata.
  assert (w1 = w) as ->.
  { destruct (PubSub.data event) as [data|]; [|by injection Hdata].
    destruct (b64decode_utf8 data); [done|by injection Hdata]. }
  cbv zeta. fold (attribute event "image_id" "").
  destruct (negb (truthy _)); [apply ret_Forall|].
  destruct (negb (String.eqb _ "Pass")); [apply ret_Forall|].
  apply bind_Forall.
  { destruct (negb (String.eqb _ "true")); [|apply ret_Forall].
    apply bind_Forall_run.
    { unfold call_datetime_now. destruct (datetime_now w). by repeat constructor. }
    intros now w2 calls2 (-> & -> & _)%call_datetime_now_inv.
    apply bind_Forall; [apply create_image_from_vm_inserts|]. intros. apply ret_Forall. }
  intros promoted_image w2. apply bind_Forall.
  { destruct (negb (String.eqb _ "true")); [|apply ret_Forall].
    apply bind_Forall.
    - destruct promoted_image as [image|]; [|apply ret_Forall].
      destruct (truthy image); [by apply sleep_Forall|apply ret_Forall].
    - intros _ w3. eapply Forall_impl; [apply delete_vm_never_inserts|].
      by intros []. }
  intros _ w3. apply bind_Forall.
  { unfold call_datetime_now. destruct (datetime_now w3). by repeat constructor. }
  intros. apply ret_Forall.
Qed.

End Inserts.

(** C6, as the code has it: the image of a promotion is named
    [{image_id}-promoted-{timestamp}], the timestamp being the clock reading
    taken at the start of the invocation, printed to the second: no call of
    the invocation creates an image under another name, and a record
    returned after a promotion carries that name.  Two promotions of the
    same [image_id] get distinct names exactly when their timestamps
    differ, that is, for valid readings, when the readings do not fall
    within the same second. *)
Theorem promoted_image_naming `{Platform W} (fuel : nat) (event : PubSub.t) (w : W) :
  let image_id := attribute event "image_id" "" in
  let image_name := image_id +:+ "-promoted-" +:+ strftime_promoted (datetime_now w).1 in
  Forall (inserts_named image_name) (calls_of (promote_cleanup fuel event w)) /\
  (forall record w' calls,
     flag event "skip_promotion" = false ->
     promote_cleanup fuel event w = (Ret (Some record), w', calls) ->
     Result.promoted_image record = Some image_name /\
     exists image_resource,
       In (ImagesInsert PROJECT_ID image_resource) calls /\
       Image.name image_resource = image_name) /\
  (forall dt1 dt2,
     promoted_image_name image_id dt1 <> promoted_image_name image_id dt2 <->
     strftime_promoted dt1 <> strftime_promoted dt2) /\
  (forall dt1 dt2,
     valid_datetime dt1 -> valid_datetime dt2 ->
     (promoted_image_name image_id dt1 <> promoted_image_name image_id dt2 <->
      ~ same_second dt1 dt2)).
Proof.
  intros image_id image_name.
  split; [apply promote_cleanup_inserts|]. split; [|split].
  - intros record w' calls Hpromotion Hrun.
    exact (promote_cleanup_promoted_image fuel event w w' record calls Hpromotion Hrun).
  - intros dt1 dt2. by rewrite promoted_image_name_eq.
  - intros dt1 dt2 Hvalid1 Hvalid2.
    by rewrite promoted_image_name_eq, strftime_promoted_same_second.
Qed.

Lemma promoted_image_naming_witness :
  exists record w' calls,
    promote_cleanup 5 PromotionExamples.passed_scan PromotionExamples.obliging =
      (Ret (Some record), w', calls) /\
    Result.promoted_image record =
      Some ("rhel9" +:+ "-promoted-" +:+ strftime_promoted Scripted.noon).
Proof.
  destruct (promote_cleanup 5 PromotionExamples.passed_scan PromotionExamples.obliging)
    as [[[[record|]|e|] w'] calls] eqn:Hrun; try (vm_compute in Hrun; discriminate).
  exists record, w', calls. split; [reflexivity|].
  destruct (promoted_image_naming (W := Scripted.World) 5 PromotionExamples.passed_scan
              PromotionExamples.obliging) as (_ & Hrecord & _).
  destruct (Hrecord record w' calls) as [Hname _].
  - vm_compute. reflexivity.
  - exact Hrun.
  - exact Hname.
Defined.

(** C6, as stated, fails: two distinct invocations for the same image,
    started within the same second, name their images alike. *)
Lemma same_second_same_image_name :
  PromotionExamples.obliging <> PromotionExamples.obliging_later /\
  exists record1 w1 calls1 record2 w2 calls2,
    promote_cleanup 5 PromotionExamples.passed_scan PromotionExamples.obliging =
      (Ret (Some record1), w1, calls1) /\
    promote_cleanup 5 PromotionExamples.passed_scan PromotionExamples.obliging_later =
      (Ret (Some record2), w2, calls2) /\
    Result.promoted_image record1 = Some "rhel9-promoted-20240517-120000" /\
    Result.promoted_image record2 = Some "rhel9-promoted-20240517-120000".
Proof.
  split; [discriminate|].
  do 6 eexists. repeat split; vm_compute; reflexivity.
Qed.

(** A disk flagged as boot whose source is empty counts as no boot disk:
    the test of line 94 is on the source, not on the flag. *)
Example create_image_from_vm_empty_source :
  create_image_from_vm 5 "vm-1" "img" "p"
    (Scripted.start
       [Scripted.done "op-1"; Scripted.done "op-1";
        Scripted.AnInstance
          {| Instance.status := Instance.TERMINATED;
             Instance.disks := [ {| Instance.boot := true; Instance.source := "" |} ] |}]) =
  (Raise (PyException "Could not find boot disk for instance vm-1"), Scripted.start [],
   [InstancesStop "p" "us-central1-a" "vm-1"; ZoneOperationsGet "p" "us-central1-a" "op-1";
    InstancesGet "p" "us-central1-a" "vm-1"]).
Proof. reflexivity. Qed.

(** * Further properties *)

(** ** promote_cleanup beyond the gates *)

Section Stages.
Context {W : Type} `{Platform W}.
Implicit Types (w : W) (e : exn) (calls : list Call).

(** Past the gates, an invocation is the promotion stage, the cleanup stage
    and the closing clock reading, each under its flag. *)
Lemma promote_cleanup_passed_gates fuel event w :
  payload_decodes event ->
  attribute event "validation_instance" "" <> "" ->
  attribute event "scan_result" "" = "Pass" ->
  promote_cleanup fuel event w =
  (promoted_image <-
     (if negb (flag event "skip_promotion") then
        now <- call_datetime_now ;;
        promoted <- create_image_from_vm fuel (attribute event "validation_instance" "")
                      (promoted_image_name (attribute event "image_id" "") now) PROJECT_ID ;;
        ret (Some promoted)
      else ret None) ;;
   (if negb (flag event "skip_destroy") then
      match promoted_image with
      | Some image => if truthy image then sleep 5 else ret tt
      | None => ret tt
      end ;;;
      delete_vm fuel (attribute event "validation_instance" "") PROJECT_ID 3
    else ret tt) ;;;
   now <- call_datetime_now ;;
   ret (Some {| Result.status := "success";
                Result.promoted_image := promoted_image;
                Result.validation_instance := attribute event "validation_instance" "";
                Result.timestamp := isoformat now |})) w.
Proof.
  intros Hdecodes Hinstance Hscan. unfold promote_cleanup. rewrite try_catch_reraise.
  assert (Hdata :
    (match PubSub.data event with
     | Some data =>
         match b64decode_utf8 data with
         | inl msg => raise (DecodeError msg)
         | inr _ => ret tt
         end
     | None => ret tt
     end) w = (Ret tt, w, [])).
  { destruct (PubSub.data event) as [data|] eqn:Hd; [|done].
    destruct (Hdecodes data Hd) as [text ->]. done. }
  rewrite (bind_Ret _ _ _ _ _ _ Hdata), app_nil_l, <- run_eta. cbv zeta.
  unfold attribute in Hscan. rewrite Hscan.
  fold (attribute event "validation_instance" "").
  assert (Htruthy : truthy (attribute event "validation_instance" "") = true)
    by (by destruct (attribute event "validation_instance" "")).
  rewrite Htruthy.
  replace (String.eqb "Pass" "Pass") with true by reflexivity.
  reflexivity.
Qed.

Lemma call_datetime_now_run w :
  call_datetime_now w = (Ret (datetime_now w).1, (datetime_now w).2, [DatetimeNow]).
Proof. unfold call_datetime_now. by destruct (datetime_now w). Qed.

End Stages.

(** X1: a payload that is there and does not decode stops the invocation
    before anything else: [promote_cleanup] raises the decoder's error,
    whatever the attributes say, and has issued no call. *)
Theorem undecodable_payload_raises `{Platform W} (fuel : nat) (event : PubSub.t) (w : W)
    (data msg : string) :
  PubSub.data event = Some data ->
  b64decode_utf8 data = inl msg ->
  promote_cleanup fuel event w = (Raise (DecodeError msg), w, []).
Proof.
  intros Hdata Hdecode. unfold promote_cleanup. rewrite try_catch_reraise.
  unfold bind. by rewrite Hdata, Hdecode.
Qed.

Lemma undecodable_payload_raises_witness :
  @promote_cleanup bool Garbled.platform 5 Garbled.bad_payload true =
  (Raise (DecodeError "Incorrect padding"), true, []).
Proof.
  apply (@undecodable_payload_raises bool Garbled.platform 5 Garbled.bad_payload true "%%%");
    reflexivity.
Defined.

(** X2: with [skip_promotion] set ("true" in any letter case) and
    [skip_destroy] not, a request that passes the gates runs the cleanup
    alone, from the state the invocation starts in: no clock reading, no
    settle delay and no call of the promotion come before the calls of
    [delete_vm]; if [delete_vm] returns, the record returned has no promoted
    image; if it raises or does not end, so does the invocation. *)
Theorem skip_promotion_runs_cleanup_only `{Platform W} (fuel : nat) (event : PubSub.t)
    (w : W) :
  payload_decodes event ->
  attribute event "validation_instance" "" <> "" ->
  attribute event "scan_result" "" = "Pass" ->
  flag event "skip_promotion" = true ->
  flag event "skip_destroy" = false ->
  let instance_name := attribute event "validation_instance" "" in
  let cleanup := delete_vm fuel instance_name PROJECT_ID 3 w in
  promote_cleanup fuel event w =
  match outcome_of cleanup with
  | Ret _ =>
      (Ret (Some {| Result.status := "success";
                    Result.promoted_image := None;
                    Result.validation_instance := instance_name;
                    Result.timestamp := isoformat (datetime_now (world_of cleanup)).1 |}),
       (datetime_now (world_of cleanup)).2,
       calls_of cleanup ++ [DatetimeNow])
  | Raise e => (Raise e, world_of cleanup, calls_of cleanup)
  | OutOfFuel => (OutOfFuel, world_of cleanup, calls_of cleanup)
  end.
Proof.
  intros Hdecodes Hinstance Hscan Hpromotion Hdestroy instance_name cleanup.
  rewrite promote_cleanup_passed_gates by done.
  rewrite Hpromotion, Hdestroy. fold instance_name. subst cleanup.
  unfold bind, ret. simpl.
  destruct (delete_vm _ _ _ _ w) as [[[[]|e|] wc] cc]; simpl; try done.
  rewrite call_datetime_now_run. by rewrite app_nil_r.
Qed.

Lemma skip_promotion_runs_cleanup_only_witness :
  promote_cleanup 5 SkipExamples.cleanup_only
    (Scripted.start SkipExamples.cleanup_replies) =
  (Ret (Some {| Result.status := "success";
                Result.promoted_image := None;
                Result.validation_instance := "vm-1";
                Result.timestamp := "2024-05-17T12:00:00" |}),
   Scripted.start [],
   [InstancesGet PROJECT_ID ZONE "vm-1"; TimeTime; TimeTime;
    InstancesGet PROJECT_ID ZONE "vm-1"; InstancesGet PROJECT_ID ZONE "vm-1";
    InstancesDelete PROJECT_ID ZONE "vm-1"; ZoneOperationsGet PROJECT_ID ZONE "op-3";
    Sleep 10; DatetimeNow]).
Proof.
  rewrite (skip_promotion_runs_cleanup_only (W := Scripted.World) 5
             SkipExamples.cleanup_only (Scripted.start SkipExamples.cleanup_replies)).
  - vm_compute. reflexivity.
  - intros data _. by exists data.
  - vm_compute. discriminate.
  - vm_compute. reflexivity.
  - vm_compute. reflexivity.
  - vm_compute. reflexivity.
Defined.

(** X3: with [skip_destroy] set and [skip_promotion] not, a request that
    passes the gates runs the promotion alone: the invocation ends as
    [create_image_from_vm] ends, no delete is ever called (the VM stays,
    stopped by the promotion), and the record returned carries the name of
    the image. *)
Theorem skip_destroy_runs_promotion_only `{Platform W} (fuel : nat) (event : PubSub.t)
    (w : W) :
  payload_decodes event ->
  attribute event "validation_instance" "" <> "" ->
  attribute event "scan_result" "" = "Pass" ->
  flag event "skip_promotion" = false ->
  flag event "skip_destroy" = true ->
  let instance_name := attribute event "validation_instance" "" in
  let image_name := promoted_image_name (attribute event "image_id" "") (datetime_now w).1 in
  let promotion :=
    create_image_from_vm fuel instance_name image_name PROJECT_ID (datetime_now w).2 in
  promote_cleanup fuel event w =
  match outcome_of promotion with
  | Ret image =>
      (Ret (Some {| Result.status := "success";
                    Result.promoted_image := Some image_name;
                    Result.validation_instance := instance_name;
                    Result.timestamp := isoformat (datetime_now (world_of promotion)).1 |}),
       (datetime_now (world_of promotion)).2,
       DatetimeNow :: calls_of promotion ++ [DatetimeNow])
  | Raise e => (Raise e, world_of promotion, DatetimeNow :: calls_of promotion)
  | OutOfFuel => (OutOfFuel, world_of promotion, DatetimeNow :: calls_of promotion)
  end /\
  Forall (fun c => is_delete c = false) (calls_of (promote_cleanup fuel event w)).
Proof.
  intros Hdecodes Hinstance Hscan Hpromotion Hdestroy instance_name image_name promotion.
  assert (Hrun : promote_cleanup fuel event w =
    match outcome_of promotion with
    | Ret image =>
        (Ret (Some {| Result.status := "success";
                      Result.promoted_image := Some image_name;
                      Result.validation_instance := instance_name;
                      Result.timestamp := isoformat (datetime_now (world_of promotion)).1 |}),
         (datetime_now (world_of promotion)).2,
         DatetimeNow :: calls_of promotion ++ [DatetimeNow])
    | Raise e => (Raise e, world_of promotion, DatetimeNow :: calls_of promotion)
    | OutOfFuel => (OutOfFuel, world_of promotion, DatetimeNow :: calls_of promotion)
    end).
  { rewrite promote_cleanup_passed_gates by done.
    rewrite Hpromotion, Hdestroy. fold instance_name.
    change (negb false) with true. change (negb true) with false. cbv iota.
    unfold bind. rewrite call_datetime_now_run. cbv beta iota. fold image_name.
    pose proof (create_image_from_vm_returned fuel instance_name image_name PROJECT_ID
                  (datetime_now w).2) as Hreturned.
    fold promotion in Hreturned |- *.
    destruct promotion as [[[image|e|] wp] cp]; unfold outcome_of, world_of, calls_of;
      simpl; [|done|done].
    destruct (Hreturned image wp cp eq_refl) as [-> _].
    rewrite call_datetime_now_run. simpl. by rewrite !app_nil_r. }
  split; [exact Hrun|]. rewrite Hrun.
  pose proof (create_image_from_vm_never_deletes fuel instance_name image_name PROJECT_ID
                (datetime_now w).2) as Hquiet.
  fold promotion in Hquiet.
  destruct (outcome_of promotion); unfold calls_of at 1; simpl.
  - constructor; [done|]. apply Forall_app. split; [done|by repeat constructor].
  - by constructor.
  - by constructor.
Qed.

Lemma skip_destroy_runs_promotion_only_witness :
  Forall (fun c => is_delete c = false)
    (calls_of (promote_cleanup 5 SkipExamples.promotion_only
                 (Scripted.start SkipExamples.promotion_replies))).
Proof.
  eapply proj2.
  apply (skip_destroy_runs_promotion_only (W := Scripted.World) 5
           SkipExamples.promotion_only (Scripted.start SkipExamples.promotion_replies)).
  - intros data _. by exists data.
  - vm_compute. discriminate.
  - vm_compute. reflexivity.
  - vm_compute. reflexivity.
  - vm_compute. reflexivity.
Defined.

Example promote_cleanup_promotion_only :
  promote_cleanup 5 SkipExamples.promotion_only
    (Scripted.start SkipExamples.promotion_replies) =
  (Ret (Some {| Result.status := "success";
                Result.promoted_image := Some "rhel9-promoted-20240517-120000";
                Result.validation_instance := "vm-1";
                Result.timestamp := "2024-05-17T12:00:00" |}),
   Scripted.start [],
   [DatetimeNow;
    InstancesStop "sandbox-dev-478813" "us-central1-a" "vm-1";
    ZoneOperationsGet "sandbox-dev-478813" "us-central1-a" "op-1";
    InstancesGet "sandbox-dev-478813" "us-central1-a" "vm-1";
    ImagesInsert "sandbox-dev-478813"
      (promoted_image_resource "vm-1" "rhel9-promoted-20240517-120000" "zones/z/disks/boot");
    GlobalOperationsGet "sandbox-dev-478813" "op-2"; Sleep 30; DatetimeNow]).
Proof. vm_compute. reflexivity. Qed.

(** X4: with both stages skipped, a request that passes the gates reads the
    clock once and returns a record with status "success" and no promoted
    image, having called the service not at all. *)
Theorem both_stages_skipped `{Platform W} (fuel : nat) (event : PubSub.t) (w : W) :
  payload_decodes event ->
  attribute event "validation_instance" "" <> "" ->
  attribute event "scan_result" "" = "Pass" ->
  flag event "skip_promotion" = true ->
  flag event "skip_destroy" = true ->
  promote_cleanup fuel event w =
  (Ret (Some {| Result.status := "success";
                Result.promoted_image := None;
                Result.validation_instance := attribute event "validation_instance" "";
                Result.timestamp := isoformat (datetime_now w).1 |}),
   (datetime_now w).2, [DatetimeNow]).
Proof.
  intros Hdecodes Hinstance Hscan Hpromotion Hdestroy.
  rewrite promote_cleanup_passed_gates by done.
  rewrite Hpromotion, Hdestroy. unfold bind, ret. simpl.
  by rewrite call_datetime_now_run.
Qed.

Lemma both_stages_skipped_witness :
  promote_cleanup 5 SkipExamples.nothing_to_do (Scripted.start []) =
  (Ret (Some {| Result.status := "success";
                Result.promoted_image := None;
                Result.validation_instance := "vm-1";
                Result.timestamp := "2024-05-17T12:00:00" |}),
   Scripted.start [], [DatetimeNow]).
Proof.
  rewrite (both_stages_skipped (W := Scripted.World) 5 SkipExamples.nothing_to_do
             (Scripted.start [])).
  - vm_compute. reflexivity.
  - intros data _. by exists data.
  - vm_compute. discriminate.
  - vm_compute. reflexivity.
  - vm_compute. reflexivity.
  - vm_compute. reflexivity.
Defined.

(** X5: no partial success.  When the promotion has returned and the
    cleanup then raises, the invocation raises the error of the cleanup: no
    record is returned, although the image has been created (its creation is
    among the calls, under the name the promotion returned). *)
Theorem cleanup_failure_after_promotion `{Platform W} (fuel : nat) (event : PubSub.t)
    (w wp wc : W) (image : string) (cp cc : list Call) (e : exn) :
  payload_decodes event ->
  attribute event "validation_instance" "" <> "" ->
  attribute event "scan_result" "" = "Pass" ->
  flag event "skip_promotion" = false ->
  flag event "skip_destroy" = false ->
  create_image_from_vm fuel (attribute event "validation_instance" "")
    (promoted_image_name (attribute event "image_id" "") (datetime_now w).1)
    PROJECT_ID (datetime_now w).2 = (Ret image, wp, cp) ->
  delete_vm fuel (attribute event "validation_instance" "") PROJECT_ID 3
    (time_sleep 5 wp) = (Raise e, wc, cc) ->
  promote_cleanup fuel event w = (Raise e, wc, DatetimeNow :: cp ++ Sleep 5 :: cc) /\
  exists image_resource,
    In (ImagesInsert PROJECT_ID image_resource) cp /\
    Image.name image_resource = image.
Proof.
  intros Hdecodes Hinstance Hscan Hpromotion Hdestroy Hpromote Hcleanup.
  destruct (create_image_from_vm_returned _ _ _ _ _ _ _ _ Hpromote)
    as [-> (stop_operation & n1 & image_resource & insert_operation & n2 & Hname & ->)].
  split.
  - rewrite promote_cleanup_passed_gates by done.
    rewrite Hpromotion, Hdestroy.
    change (negb false) with true. cbv iota.
    unfold bind at 1 2. rewrite call_datetime_now_run. unfold bind at 1.
    rewrite Hpromote. unfold ret at 1. simpl.
    rewrite promoted_image_name_truthy. unfold bind, sleep. rewrite Hcleanup. simpl.
    by rewrite !app_nil_r, <- !app_assoc.
  - exists image_resource. split; [apply promotion_calls_insert|done].
Qed.

Lemma cleanup_failure_after_promotion_witness :
  outcome_of (promote_cleanup 5 PromotionExamples.passed_scan
                (Scripted.start SkipExamples.cleanup_refused_replies)) =
  Raise (ClientError "503 backend error").
Proof.
  destruct (cleanup_failure_after_promotion (W := Scripted.World) 5
              PromotionExamples.passed_scan
              (Scripted.start SkipExamples.cleanup_refused_replies)
              (Scripted.start [Scripted.Fails "503 backend error";
                               Scripted.Fails "503 backend error";
                               Scripted.Fails "503 backend error"])
              (Scripted.start [])
              "rhel9-promoted-20240517-120000"
              (promotion_calls PROJECT_ID "vm-1" "op-1" 0
                 (promoted_image_resource "vm-1" "rhel9-promoted-20240517-120000"
                    "zones/z/disks/boot") "op-2" 0)
              [InstancesGet PROJECT_ID ZONE "vm-1"; Sleep 5;
               InstancesGet PROJECT_ID ZONE "vm-1"; Sleep 10;
               InstancesGet PROJECT_ID ZONE "vm-1"]
              (ClientError "503 backend error")) as [Hrun _].
  - intros data _. by exists data.
  - vm_compute. discriminate.
  - vm_compute. reflexivity.
  - vm_compute. reflexivity.
  - vm_compute. reflexivity.
  - vm_compute. reflexivity.
  - vm_compute. reflexivity.
  - by rewrite Hrun.
Defined.

(** X6: what a returned record vouches for.  If [promote_cleanup] returns
    a record, the request had a [validation_instance] and a [scan_result]
    "Pass", the record has status "success" and names that instance, it
    carries a promoted image exactly when the promotion was not skipped,
    a cleanup that was not skipped has returned, and the last thing the
    invocation did was to read the clock for the timestamp. *)
Theorem returned_record_facts `{Platform W} (fuel : nat) (event : PubSub.t)
    (w w' : W) (record : Result.t) (calls : list Call) :
  promote_cleanup fuel event w = (Ret (Some record), w', calls) ->
  let instance_name := attribute event "validation_instance" "" in
  instance_name <> "" /\
  attribute event "scan_result" "" = "Pass" /\
  Result.status record = "success" /\
  Result.validation_instance record = instance_name /\
  (Result.promoted_image record = None <-> flag event "skip_promotion" = true) /\
  (flag event "skip_destroy" = false ->
   exists w1 w2 cleanup_calls,
     delete_vm fuel instance_name PROJECT_ID 3 w1 = (Ret tt, w2, cleanup_calls)) /\
  exists w1 before,
    calls = before ++ [DatetimeNow] /\
    w' = (datetime_now w1).2 /\
    Result.timestamp record = isoformat (datetime_now w1).1.
Proof.
  intros Hrun instance_name. unfold promote_cleanup in Hrun.
  rewrite try_catch_reraise in Hrun.
  apply bind_Ret_inv in Hrun as ([] & w1 & l1 & l1' & Hdata & Hrun & ->).
  cbv zeta in Hrun.
  change (default "" (default ∅ (PubSub.attributes event) !! "validation_instance"))
    with instance_name in Hrun.
  change (default "" (default ∅ (PubSub.attributes event) !! "scan_result"))
    with (attribute event "scan_result" "") in Hrun.
  change (String.eqb (lower (default "false"
            (default ∅ (PubSub.attributes event) !! "skip_promotion"))) "true")
    with (flag event "skip_promotion") in Hrun.
  change (String.eqb (lower (default "false"
            (default ∅ (PubSub.attributes event) !! "skip_destroy"))) "true")
    with (flag event "skip_destroy") in Hrun.
  destruct (truthy instance_name) eqn:Htruthy; [|done].
  destruct (String.eqb (attribute event "scan_result" "") "Pass") eqn:Hscan; [|done].
  change (negb true) with false in Hrun. cbv iota in Hrun.
  apply bind_Ret_inv in Hrun as (promoted_image & w2 & l2 & l2' & Hpromote & Hrun & ->).
  apply bind_Ret_inv in Hrun as ([] & w3 & l3 & l3' & Hcleanup & Hrun & ->).
  apply bind_Ret_inv in Hrun as (now & w4 & l4 & l4' & Hnow & Hret & ->).
  apply call_datetime_now_inv in Hnow as (-> & -> & ->).
  injection Hret as <- <- <-.
  split; [intros Hempty; by rewrite Hempty in Htruthy|].
  split; [by apply String.eqb_eq|].
  split; [done|]. split; [done|]. split; [|split].
  - simpl. destruct (flag event "skip_promotion").
    + injection Hpromote as <- _ _. done.
    + apply bind_Ret_inv in Hpromote as (now & w5 & l5 & l5' & _ & Hpromote & ->).
      apply bind_Ret_inv in Hpromote as (promoted & w6 & l6 & l6' & _ & Hret & ->).
      injection Hret as <- _ _. done.
  - intros Hdestroy. rewrite Hdestroy in Hcleanup.
    apply bind_Ret_inv in Hcleanup as ([] & w5 & l5 & l5' & _ & Hcleanup & ->).
    by exists w5, w3, l5'.
  - exists w3, (l1 ++ l2 ++ l3). split; [|done].
    simpl. by rewrite <- !app_assoc.
Qed.

Lemma returned_record_facts_witness :
  exists record w' calls,
    promote_cleanup 5 PromotionExamples.passed_scan PromotionExamples.obliging =
      (Ret (Some record), w', calls) /\
    Result.status record = "success" /\
    Result.validation_instance record = "vm-1".
Proof.
  destruct (promote_cleanup 5 PromotionExamples.passed_scan PromotionExamples.obliging)
    as [[[[record|]|e|] w'] calls] eqn:Hrun; try (vm_compute in Hrun; discriminate).
  exists record, w', calls. split; [reflexivity|].
  destruct (returned_record_facts (W := Scripted.World) 5 PromotionExamples.passed_scan
              PromotionExamples.obliging w' record calls Hrun)
    as (_ & _ & Hstatus & Hinstance & _).
  split; [exact Hstatus|exact Hinstance].
Defined.

(** ** The waiters and the client's own errors *)

Section PollRefused.
Context {W : Type} `{Platform W}.
Implicit Types (w : W).

Lemma poll_until_done_refused fuel poll get n w w1 w' msg :
  (n < fuel)%nat -> pending get n w w1 -> get w1 = (inl msg, w') ->
  poll_until_done fuel poll get w =
  (Raise (ClientError msg), w', pending_calls poll n ++ [poll]).
Proof.
  intros Hlt Hpending Hget. revert fuel Hlt.
  induction Hpending as [w|n w operation w1 w2 Hget' Hstatus _ IH];
    intros [|fuel] Hlt; try lia; rewrite poll_until_done_S.
  - by rewrite Hget.
  - rewrite Hget', bool_decide_eq_false_2 by done.
    rewrite (IH Hget fuel) by lia. done.
Qed.

Lemma poll_until_done_client_error fuel poll get w w' calls msg :
  poll_until_done fuel poll get w = (Raise (ClientError msg), w', calls) <->
  exists n w1,
    (n < fuel)%nat /\ pending get n w w1 /\ get w1 = (inl msg, w') /\
    calls = pending_calls poll n ++ [poll].
Proof.
  split.
  - intros Hrun. apply poll_until_done_inv in Hrun
      as (n & w1 & Hlt & Hpending & Hcalls & Hend); [|done].
    destruct Hend as [(msg' & Hget & [= ->])|(operation & _ & _ & Hres)].
    + by exists n, w1.
    + by destruct (Operation.error operation).
  - intros (n & w1 & Hlt & Hpending & Hget & ->). by eapply poll_until_done_refused.
Qed.

Lemma poll_until_done_no_decode_error fuel poll get w msg :
  outcome_of (poll_until_done fuel poll get w) <> Raise (DecodeError msg).
Proof.
  destruct (poll_until_done fuel poll get w) as [[result w'] calls] eqn:Hrun.
  unfold outcome_of. simpl. intros ->.
  apply poll_until_done_inv in Hrun
    as (n & w1 & _ & _ & _ & [(msg' & _ & ?)|(operation & _ & _ & Hres)]); [done| |done].
  by destruct (Operation.error operation).
Qed.

End PollRefused.

(** X7: a poll that the client refuses ends the wait.  Each waiter raises a
    client error exactly when, after any number of polls that found the
    operation not done (each followed by its two-second sleep), a poll is
    refused with that error; the error is raised as it is, at that poll.  A
    waiter raises nothing but this and the error of a failed operation. *)
Theorem waiters_propagate_client_errors `{Platform W}
    (fuel : nat) (operation_name project_id zone : string) (w w' : W)
    (calls : list Call) (msg : string) :
  (wait_for_zone_operation fuel operation_name project_id zone w =
     (Raise (ClientError msg), w', calls) <->
   exists n w1,
     (n < fuel)%nat /\
     pending (zone_operations_get project_id zone operation_name) n w w1 /\
     zone_operations_get project_id zone operation_name w1 = (inl msg, w') /\
     calls = pending_calls (ZoneOperationsGet project_id zone operation_name) n ++
             [ZoneOperationsGet project_id zone operation_name]) /\
  (wait_for_global_operation fuel operation_name project_id w =
     (Raise (ClientError msg), w', calls) <->
   exists n w1,
     (n < fuel)%nat /\
     pending (global_operations_get project_id operation_name) n w w1 /\
     global_operations_get project_id operation_name w1 = (inl msg, w') /\
     calls = pending_calls (GlobalOperationsGet project_id operation_name) n ++
             [GlobalOperationsGet project_id operation_name]) /\
  outcome_of (wait_for_zone_operation fuel operation_name project_id zone w) <>
    Raise (DecodeError msg) /\
  outcome_of (wait_for_global_operation fuel operation_name project_id w) <>
    Raise (DecodeError msg).
Proof.
  rewrite wait_for_zone_operation_poll, wait_for_global_operation_poll.
  split; [apply poll_until_done_client_error|].
  split; [apply poll_until_done_client_error|].
  split; apply poll_until_done_no_decode_error.
Qed.

Lemma waiters_propagate_client_errors_witness :
  wait_for_zone_operation 5 "op-1" "p" "z"
    (Scripted.start [Scripted.running "op-1"; Scripted.Fails "500 internal error"]) =
  (Raise (ClientError "500 internal error"), Scripted.start [],
   pending_calls (ZoneOperationsGet "p" "z" "op-1") 1 ++ [ZoneOperationsGet "p" "z" "op-1"]).
Proof.
  apply (waiters_propagate_client_errors (W := Scripted.World) 5 "op-1" "p" "z").
  exists 1%nat, (Scripted.start [Scripted.Fails "500 internal error"]).
  split; [lia|]. split; [|split; reflexivity].
  eapply pending_S; [reflexivity|discriminate|constructor].
Defined.

(** ** The search for the boot disk *)

(** X8: the search of lines 88-92 answers the source of the first disk
    flagged as boot, whatever the disks after it, and answers nothing exactly
    when no disk is flagged. *)
Theorem find_boot_disk_source_spec (disks : list Instance.AttachedDisk) :
  (forall source,
     find_boot_disk_source disks = Some source <->
     exists before disk after,
       disks = before ++ disk :: after /\
       Forall (fun d => Instance.boot d = false) before /\
       Instance.boot disk = true /\ Instance.source disk = source) /\
  (find_boot_disk_source disks = None <->
   Forall (fun d => Instance.boot d = false) disks).
Proof.
  induction disks as [|d disks [IHsome IHnone]]; simpl.
  - split; [|by split].
    intros source. split; [done|]. by intros ([] & disk & after & ? & _).
  - destruct (Instance.boot d) eqn:Hboot.
    + split.
      * intros source. split.
        -- intros [= <-]. by exists [], d, disks.
        -- intros (before & disk & after & Heq & Hbefore & Hdisk & <-).
           destruct before as [|b before]; simplify_eq/=; [done|].
           apply Forall_cons in Hbefore as [Hb _]. congruence.
      * split; [done|]. intros [Hd _]%Forall_cons. congruence.
    + split.
      * intros source. rewrite IHsome. split.
        -- intros (before & disk & after & -> & Hbefore & Hdisk & <-).
           exists (d :: before), disk, after. by repeat split; [constructor|..].
        -- intros (before & disk & after & Heq & Hbefore & Hdisk & <-).
           destruct before as [|b before]; simplify_eq/=; [congruence|].
           apply Forall_cons in Hbefore as [_ Hbefore]. by exists before, disk, after.
      * rewrite IHnone. split; [by constructor|]. by intros [_ ?]%Forall_cons.
Qed.

(** ** What precedes the creation of an image *)

Section InsertPreconditions.
Context {W : Type} `{Platform W}.
Implicit Types (w : W).

Lemma no_insert_among (calls : list Call) project image :
  Forall (fun c => is_insert c = false) calls ->
  ~ In (ImagesInsert project image) calls.
Proof.
  intros Hquiet Hin. rewrite Forall_forall in Hquiet.
  apply list_elem_of_In in Hin. by specialize (Hquiet _ Hin).
Qed.

Lemma wait_for_zone_operation_no_insert fuel operation_name project_id zone w :
  Forall (fun c => is_insert c = false)
    (calls_of (wait_for_zone_operation fuel operation_name project_id zone w)).
Proof. by apply wait_for_zone_operation_Forall. Qed.

Lemma after_insert_no_insert fuel operation_name project_id (image_name : string) w :
  Forall (fun c => is_insert c = false)
    (calls_of ((wait_for_global_operation fuel operation_name project_id ;;;
                sleep 30 ;;; ret image_name) w)).
Proof.
  apply bind_Forall; [by apply wait_for_global_operation_Forall|]. intros _ w1.
  apply bind_Forall; [by apply sleep_Forall|]. intros. apply ret_Forall.
Qed.

End InsertPreconditions.

(** X9: an image is created only from an instance that has been stopped
    and read.  If [create_image_from_vm] calls the image creation at all,
    then the stop call returned an operation, the wait on it returned, the
    read of the instance returned, a disk flagged as boot with a source was
    found, and the image created is the one made of the given names and of
    that source. *)
Theorem image_created_only_after_stop `{Platform W} (fuel : nat)
    (instance_name image_name project_id : string) (w : W) (image : Image.t) :
  In (ImagesInsert project_id image)
    (calls_of (create_image_from_vm fuel instance_name image_name project_id w)) ->
  exists operation w1 polls w2 instance w3 source,
    instances_stop project_id ZONE instance_name w = (inr operation, w1) /\
    wait_for_zone_operation fuel (Operation.name operation) project_id ZONE w1 =
      (Ret tt, w2, polls) /\
    instances_get project_id ZONE instance_name w2 = (inr instance, w3) /\
    find_boot_disk_source (Instance.disks instance) = Some source /\
    source <> "" /\
    image = promoted_image_resource instance_name image_name source.
Proof.
  intros Hin.
  destruct (instances_stop project_id ZONE instance_name w) as [[msg|operation] w1] eqn:Hstop.
  { exfalso. revert Hin. unfold create_image_from_vm. rewrite try_catch_reraise.
    unfold bind, call_instances_stop, client. rewrite Hstop. simpl. by intros [?|[]]. }
  pose proof (wait_for_zone_operation_no_insert fuel (Operation.name operation)
                project_id ZONE w1) as Hpolls.
  destruct (wait_for_zone_operation fuel (Operation.name operation) project_id ZONE w1)
    as [[outcome w2] polls] eqn:Hwait.
  unfold calls_of in Hpolls. simpl in Hpolls.
  assert (Hstopped : client (InstancesStop project_id ZONE instance_name)
                       (instances_stop project_id ZONE instance_name) w =
                     (Ret operation, w1, [InstancesStop project_id ZONE instance_name]))
    by (by apply client_Ret).
  destruct outcome as [[]|e|].
  2,3: exfalso; revert Hin; unfold create_image_from_vm; rewrite try_catch_reraise;
       unfold call_instances_stop; rewrite (bind_Ret _ _ _ _ _ _ Hstopped);
       unfold bind; rewrite Hwait; unfold calls_of; simpl;
       intros [?|Hin]; [done|by apply no_insert_among in Hin].
  destruct (instances_get project_id ZONE instance_name w2) as [[msg|instance] w3] eqn:Hget.
  { exfalso. revert Hin. unfold create_image_from_vm. rewrite try_catch_reraise.
    unfold call_instances_stop. rewrite (bind_Ret _ _ _ _ _ _ Hstopped).
    rewrite (bind_Ret _ _ _ _ _ _ Hwait).
    unfold bind, call_instances_get, client. rewrite Hget. unfold calls_of. simpl.
    intros [?|Hin]; [done|]. apply in_app_or in Hin as [Hin|[?|[]]]; [|done].
    by apply no_insert_among in Hin. }
  rewrite (create_image_from_vm_after_read _ _ _ _ _ _ _ _ _ _ _ Hstop Hwait Hget) in Hin.
  cbv zeta in Hin. unfold calls_of at 1 in Hin. simpl in Hin.
  destruct Hin as [?|Hin]; [done|].
  apply in_app_or in Hin as [Hin|[?|Hin]]; [by apply no_insert_among in Hin|done|].
  destruct (find_boot_disk_source (Instance.disks instance)) as [source|] eqn:Hfind;
    [|by destruct Hin].
  destruct (truthy source) eqn:Htruthy; simpl in Hin; [|by destruct Hin].
  exists operation, w1, polls, w2, instance, w3, source.
  repeat (split; [done|]). split; [by intros ->|].
  revert Hin. unfold bind at 1, call_images_insert, client.
  destruct (images_insert _ _ w3) as [[msg|insert] w4]; unfold calls_of; simpl.
  - intros [[= <-]|[]]. done.
  - pose proof (after_insert_no_insert fuel (Operation.name insert) project_id image_name w4)
      as Hrest.
    destruct ((wait_for_global_operation fuel (Operation.name insert) project_id ;;;
               sleep 30 ;;; ret image_name) w4) as [[r w5] rest].
    unfold calls_of in Hrest. simpl in *.
    intros [[= <-]|Hin]; [done|]. by apply no_insert_among in Hin.
Qed.

Lemma image_created_only_after_stop_witness :
  exists operation w1 polls w2 instance w3 source,
    instances_stop "p" ZONE "vm-1" (Scripted.start SkipExamples.promotion_replies) =
      (inr operation, w1) /\
    wait_for_zone_operation 5 (Operation.name operation) "p" ZONE w1 = (Ret tt, w2, polls) /\
    instances_get "p" ZONE "vm-1" w2 = (inr instance, w3) /\
    find_boot_disk_source (Instance.disks instance) = Some source /\
    source <> "" /\
    promoted_image_resource "vm-1" "img-1" "zones/z/disks/boot" =
    promoted_image_resource "vm-1" "img-1" source.
Proof.
  apply (image_created_only_after_stop (W := Scripted.World) 5 "vm-1" "img-1" "p"
           (Scripted.start SkipExamples.promotion_replies)).
  vm_compute. tauto.
Defined.

(** ** Footprints of the reaper *)

Section Footprint.
Context {W : Type} `{Platform W}.
Implicit Types (w : W) (e : exn) (P : Call -> Prop).

Lemma call_time_time_Forall P w : P TimeTime -> Forall P (calls_of (call_time_time w)).
Proof. intros HP. unfold call_time_time. destruct (time_time w). by repeat constructor. Qed.

Lemma wait_for_vm_stable_Forall P fuel instance_name project_id max_wait_seconds w :
  P TimeTime -> P (InstancesGet project_id ZONE instance_name) -> P (Sleep 5) ->
  Forall P (calls_of (wait_for_vm_stable fuel instance_name project_id max_wait_seconds w)).
Proof.
  intros Htime Hget Hsleep. unfold wait_for_vm_stable.
  apply bind_Forall; [by apply call_time_time_Forall|].
  intros start_time w1. revert w1.
  induction fuel as [|fuel IH]; intros w1; [constructor|]. simpl.
  apply bind_Forall; [by apply call_time_time_Forall|].
  intros now w2. destruct (PrimFloat.ltb _ _); [|apply ret_Forall].
  apply bind_Forall.
  - apply try_catch_Forall.
    + apply bind_Forall; [by apply client_Forall|]. intros instance w3.
      destruct (is_stable _); [apply ret_Forall|].
      apply bind_Forall; [by apply sleep_Forall|]. intros. apply ret_Forall.
    + intros e w3. destruct (_ || _); [apply ret_Forall|apply raise_Forall].
  - intros [b|] w3; [apply ret_Forall|apply IH].
Qed.

Lemma delete_and_wait_Forall P fuel instance_name project_id w :
  P (InstancesDelete project_id ZONE instance_name) ->
  (forall operation, P (ZoneOperationsGet project_id ZONE operation)) ->
  P (Sleep 2) -> P (Sleep 10) ->
  Forall P (calls_of (delete_and_wait fuel instance_name project_id w)).
Proof.
  intros Hdelete Hpoll Hsleep2 Hsleep10. unfold delete_and_wait.
  apply bind_Forall; [by apply client_Forall|]. intros operation w1.
  apply bind_Forall; [by apply wait_for_zone_operation_Forall|].
  intros. by apply sleep_Forall.
Qed.

Lemma delete_attempt_Forall P fuel instance_name project_id w :
  P TimeTime ->
  P (InstancesGet project_id ZONE instance_name) ->
  P (InstancesStop project_id ZONE instance_name) ->
  P (InstancesDelete project_id ZONE instance_name) ->
  (forall operation, P (ZoneOperationsGet project_id ZONE operation)) ->
  P (Sleep 2) -> P (Sleep 5) -> P (Sleep 10) ->
  Forall P (calls_of (delete_attempt fuel instance_name project_id w)).
Proof.
  intros Htime Hget Hstop Hdelete Hpoll Hsleep2 Hsleep5 Hsleep10. unfold delete_attempt.
  apply bind_Forall.
  { rewrite check_vm_exists_calls. by repeat constructor. }
  intros exists_ w1. destruct (negb exists_); [apply ret_Forall|].
  apply bind_Forall; [by apply wait_for_vm_stable_Forall|]. intros _ w2.
  apply bind_Forall.
  { unfold stop_before_delete, stop_before_delete_body. apply try_catch_Forall.
    - apply bind_Forall; [by apply client_Forall|]. intros instance w3.
      case_bool_decide; [|apply ret_Forall].
      apply bind_Forall; [by apply client_Forall|]. intros operation w4.
      by apply wait_for_zone_operation_Forall.
    - intros e w3. destruct (negb _); apply ret_Forall. }
  intros _ w3. rewrite delete_instance_unfold. apply try_catch_Forall.
  { by apply delete_and_wait_Forall. }
  intros e w4. destruct (negb _); [|apply ret_Forall].
  rewrite force_delete_unfold. apply try_catch_Forall.
  - apply bind_Forall; [|intros; by apply delete_and_wait_Forall].
    unfold force_stop. apply try_catch_Forall; [|intros; apply ret_Forall].
    apply bind_Forall; [by apply client_Forall|]. intros instance w5.
    case_bool_decide; [|apply ret_Forall].
    apply bind_Forall; [by apply client_Forall|]. intros operation w6.
    apply bind_Forall; [by apply wait_for_zone_operation_Forall|].
    intros. by apply sleep_Forall.
  - intros e' w5. destruct (negb _); [apply raise_Forall|apply ret_Forall].
Qed.

Lemma range_from_one (hi : Z) : Forall (fun attempt => 1 <= attempt) (range 1 hi).
Proof.
  unfold range. apply Forall_forall. intros attempt Hin.
  apply list_elem_of_In, in_map_iff in Hin as (i & <- & _). lia.
Qed.

Lemma delete_vm_Forall P fuel instance_name project_id max_retries w :
  P TimeTime ->
  P (InstancesGet project_id ZONE instance_name) ->
  P (InstancesStop project_id ZONE instance_name) ->
  P (InstancesDelete project_id ZONE instance_name) ->
  (forall operation, P (ZoneOperationsGet project_id ZONE operation)) ->
  (forall seconds, 0 < seconds -> P (Sleep seconds)) ->
  Forall P (calls_of (delete_vm fuel instance_name project_id max_retries w)).
Proof.
  intros Htime Hget Hstop Hdelete Hpoll Hsleep. unfold delete_vm.
  pose proof (range_from_one (max_retries + 1)) as Hrange. revert w.
  induction Hrange as [|attempt rest Hattempt _ IH]; intros w; [apply ret_Forall|]. simpl.
  apply bind_Forall.
  - apply try_catch_Forall.
    + apply bind_Forall; [|intros; apply ret_Forall].
      apply delete_attempt_Forall; auto with lia.
    + intros e w1. destruct (is_not_found e); [apply ret_Forall|].
      destruct (attempt <? max_retries); [|apply raise_Forall].
      apply bind_Forall; [|intros; apply ret_Forall].
      apply sleep_Forall, Hsleep. lia.
  - intros [] w1; [apply ret_Forall|apply IH].
Qed.

Lemma wait_for_vm_stable_loop_true fuel instance_name project_id max_wait_seconds
    start_time w w' calls :
  wait_for_vm_stable_loop fuel instance_name project_id max_wait_seconds start_time w =
    (Ret true, w', calls) ->
  exists w1 instance before,
    instances_get project_id ZONE instance_name w1 = (inr instance, w') /\
    Instance.status instance ∈ [Instance.TERMINATED; Instance.STOPPED; Instance.RUNNING] /\
    calls = before ++ [InstancesGet project_id ZONE instance_name].
Proof.
  revert w calls. induction fuel as [|fuel IH]; intros w calls Hrun; [done|].
  simpl in Hrun.
  apply bind_Ret_inv in Hrun as (now & w1 & l1 & l1' & _ & Hrun & ->).
  destruct (PrimFloat.ltb _ _); [|done].
  apply bind_Ret_inv in Hrun as (returned & w2 & l2 & l2' & Hturn & Hrun & ->).
  destruct returned as [b|].
  - injection Hrun as -> -> <-. clear IH. unfold try_catch in Hturn.
    destruct (bind _ _ w1) as [[[r|e|] w3] l3] eqn:Hbody.
    + injection Hturn as -> -> ->.
      apply bind_Ret_inv in Hbody as (instance & w4 & l4 & l4' & Hget & Hbody & ->).
      apply client_Ret_inv in Hget as [Hget ->].
      unfold is_stable in Hbody. case_bool_decide as Hstable.
      * injection Hbody as <- <-. exists w1, instance, l1.
        split; [done|]. split; [done|]. by rewrite !app_nil_r.
      * apply bind_Ret_inv in Hbody as (? & ? & ? & ? & _ & [=] & _).
    + destruct (_ || _); by injection Hturn.
    + done.
  - destruct (IH _ _ Hrun) as (w3 & instance & before & Hget & Hstable & ->).
    exists w3, instance, (l1 ++ l2 ++ before).
    split; [done|]. split; [done|]. by rewrite <- !app_assoc.
Qed.

Lemma wait_for_vm_stable_loop_raises fuel instance_name project_id max_wait_seconds
    start_time w e w' calls :
  wait_for_vm_stable_loop fuel instance_name project_id max_wait_seconds start_time w =
    (Raise e, w', calls) ->
  contains "not found" (lower (str e)) || contains "NOT_FOUND" (str e) = false.
Proof.
  revert w calls. induction fuel as [|fuel IH]; intros w calls Hrun; [done|].
  simpl in Hrun. unfold bind at 1, call_time_time in Hrun.
  destruct (time_time w) as [now w1]. simpl in Hrun.
  destruct (PrimFloat.ltb _ _); [|done].
  unfold bind at 1 in Hrun.
  destruct (try_catch _ _ w1) as [[[returned|e'|] w2] l2] eqn:Hturn.
  - destruct returned as [b|]; [done|].
    destruct (wait_for_vm_stable_loop _ _ _ _ _ w2) as [[r w3] l3] eqn:Hloop.
    injection Hrun as -> -> <-. by eapply IH.
  - injection Hrun as -> -> <-. unfold try_catch in Hturn.
    destruct (bind _ _ w1) as [[[r|e''|] w3] l3] eqn:Hbody; [done| |done].
    destruct (contains "not found" (lower (str e'')) || contains "NOT_FOUND" (str e''))
      eqn:Htest; [done|].
    by injection Hturn as <- _ _.
  - done.
Qed.

End Footprint.

(** X10: [wait_for_vm_stable] only observes.  Its calls are clock
    readings, reads of the instance it was given and five-second sleeps; it
    answers [True] only on a read that found the instance terminated,
    stopped or running, a read that is then its last call; and an error it
    raises is never one that its own test calls not found. *)
Theorem wait_for_vm_stable_observes `{Platform W} (fuel : nat)
    (instance_name project_id : string) (max_wait_seconds : float) (w : W) :
  Forall (observer_call project_id instance_name)
    (calls_of (wait_for_vm_stable fuel instance_name project_id max_wait_seconds w)) /\
  (forall w' calls,
     wait_for_vm_stable fuel instance_name project_id max_wait_seconds w =
       (Ret true, w', calls) ->
     exists w1 instance before,
       instances_get project_id ZONE instance_name w1 = (inr instance, w') /\
       Instance.status instance ∈
         [Instance.TERMINATED; Instance.STOPPED; Instance.RUNNING] /\
       calls = before ++ [InstancesGet project_id ZONE instance_name]) /\
  (forall e w' calls,
     wait_for_vm_stable fuel instance_name project_id max_wait_seconds w =
       (Raise e, w', calls) ->
     contains "not found" (lower (str e)) || contains "NOT_FOUND" (str e) = false).
Proof.
  split; [|split].
  - apply wait_for_vm_stable_Forall; unfold observer_call; auto.
  - intros w' calls. unfold wait_for_vm_stable. intros Hrun.
    apply bind_Ret_inv in Hrun as (start_time & w0 & l0 & l0' & _ & Hrun & ->).
    apply wait_for_vm_stable_loop_true in Hrun
      as (w1 & instance & before & Hget & Hstable & ->).
    exists w1, instance, (l0 ++ before). by rewrite <- app_assoc.
  - intros e w' calls. unfold wait_for_vm_stable, bind, call_time_time.
    destruct (time_time w) as [start_time w0]. simpl.
    destruct (wait_for_vm_stable_loop _ _ _ _ _ w0) as [[r w1] l1] eqn:Hloop.
    intros [= -> -> <-]. by eapply wait_for_vm_stable_loop_raises.
Qed.

(** X11: the deadline of [wait_for_vm_stable].  When at the first test of
    the loop the time elapsed since the start is not below the bound (the
    deadline has passed, or the difference is not a number), the function
    answers [False] after its two clock readings, without reading the
    instance. *)
Theorem wait_for_vm_stable_deadline `{Platform W} (fuel : nat)
    (instance_name project_id : string) (max_wait_seconds start_time now : float)
    (w w1 w2 : W) :
  time_time w = (start_time, w1) ->
  time_time w1 = (now, w2) ->
  PrimFloat.ltb (PrimFloat.sub now start_time) max_wait_seconds = false ->
  wait_for_vm_stable (S fuel) instance_name project_id max_wait_seconds w =
  (Ret false, w2, [TimeTime; TimeTime]).
Proof.
  intros Hstart Hnow Hlate. unfold wait_for_vm_stable. simpl.
  unfold bind, call_time_time. by rewrite Hstart, Hnow, Hlate.
Qed.

Lemma wait_for_vm_stable_deadline_witness :
  @wait_for_vm_stable (list float) Clocked.platform 3 "vm-1" "p" 60%float
    [100%float; 160%float; 161%float] =
  (Ret false, [161%float], [TimeTime; TimeTime]).
Proof.
  apply (@wait_for_vm_stable_deadline (list float) Clocked.platform 2 "vm-1" "p"
           60%float 100%float 160%float
           [100%float; 160%float; 161%float] [160%float; 161%float] [161%float]);
    reflexivity.
Defined.

(** Just before the deadline the instance is read, found in transition, and
    after the sleep the deadline has passed. *)
Example wait_for_vm_stable_gives_up :
  @wait_for_vm_stable (list float) Clocked.platform 5 "vm-1" "p" 60%float
    [100%float; 159.5%float; 165%float] =
  (Ret false, [],
   [TimeTime; TimeTime; InstancesGet "p" "us-central1-a" "vm-1"; Sleep 5; TimeTime]).
Proof. reflexivity. Qed.

(** ** More on the attempts of delete_vm *)

(** X12: a retry can succeed.  When the first attempt fails with an error
    that is not a not-found one and the attempt made five seconds later
    returns, [delete_vm] with two attempts or more returns, after the calls
    of the first attempt, the five-second sleep and the calls of the second. *)
Theorem delete_vm_recovers `{Platform W} (fuel : nat) (instance_name project_id : string)
    (max_retries : Z) (w w1 w2 : W) (e : exn) (calls1 calls2 : list Call) :
  2 <= max_retries ->
  delete_attempt fuel instance_name project_id w = (Raise e, w1, calls1) ->
  is_not_found e = false ->
  delete_attempt fuel instance_name project_id (time_sleep 5 w1) = (Ret tt, w2, calls2) ->
  delete_vm fuel instance_name project_id max_retries w =
  (Ret tt, w2, calls1 ++ Sleep 5 :: calls2).
Proof.
  intros Hmax Hfirst Hnf Hsecond. unfold delete_vm.
  rewrite range_cons, (range_cons (1 + 1)) by lia.
  rewrite (delete_vm_loop_retry _ _ _ _ _ _ _ _ _ _ Hfirst Hnf) by lia.
  change (1 * 5) with 5.
  by rewrite (delete_vm_loop_returned _ _ _ _ _ _ _ _ _ Hsecond).
Qed.

Lemma delete_vm_recovers_witness :
  delete_vm 5 "vm-1" "p" 3
    (Scripted.start [Scripted.Fails "503 backend error";
                     Scripted.Fails "404 instance not found"]) =
  (Ret tt, Scripted.start [],
   [InstancesGet "p" ZONE "vm-1"] ++ Sleep 5 :: [InstancesGet "p" ZONE "vm-1"]).
Proof.
  apply (delete_vm_recovers (W := Scripted.World) 5 "vm-1" "p" 3
           (Scripted.start [Scripted.Fails "503 backend error";
                            Scripted.Fails "404 instance not found"])
           (Scripted.start [Scripted.Fails "404 instance not found"])
           (Scripted.start [])
           (ClientError "503 backend error")).
  - lia.
  - vm_compute. reflexivity.
  - vm_compute. reflexivity.
  - vm_compute. reflexivity.
Defined.

Section Fallback.
Context {W : Type} `{Platform W}.
Implicit Types (w : W) (e : exn).

(** The force stop of the fallback never raises. *)
Lemma force_stop_never_raises fuel instance_name project_id w e :
  outcome_of (force_stop fuel instance_name project_id w) <> Raise e.
Proof.
  unfold force_stop, try_catch.
  by destruct (bind _ _ w) as [[[[]|e'|] w1] calls].
Qed.

Lemma force_delete_second_delete_returns fuel instance_name project_id w w1 calls1 w2 calls2 :
  force_stop fuel instance_name project_id w = (Ret tt, w1, calls1) ->
  delete_and_wait fuel instance_name project_id w1 = (Ret tt, w2, calls2) ->
  force_delete fuel instance_name project_id w = (Ret tt, w2, calls1 ++ calls2).
Proof.
  intros Hstop Hdelete. rewrite force_delete_unfold.
  apply try_catch_Ret. rewrite (bind_Ret _ _ _ _ _ _ Hstop). by rewrite Hdelete.
Qed.

End Fallback.

(** X13: the fallback of the delete.  When the delete (or the wait on it)
    raises an error that does not mention "not found", the same attempt
    stops the instance by force, never failing on that, and deletes a second
    time; the attempt then ends as this second delete ends: it returns if
    the second delete returns or raises an error that mentions "not found",
    and otherwise raises the error of the second delete, not that of the
    first. *)
Theorem delete_fallback `{Platform W} (fuel : nat) (instance_name project_id : string)
    (w w1 w2 w3 : W) (e : exn) (calls1 calls2 calls3 : list Call) (second : outcome unit) :
  delete_and_wait fuel instance_name project_id w = (Raise e, w1, calls1) ->
  mentions_not_found e = false ->
  force_stop fuel instance_name project_id w1 = (Ret tt, w2, calls2) ->
  delete_and_wait fuel instance_name project_id w2 = (second, w3, calls3) ->
  delete_instance fuel instance_name project_id w =
  (match second with
   | Ret _ => Ret tt
   | Raise e' => if mentions_not_found e' then Ret tt else Raise e'
   | OutOfFuel => OutOfFuel
   end, w3, calls1 ++ calls2 ++ calls3) /\
  (exists rest, calls3 = InstancesDelete project_id ZONE instance_name :: rest) /\
  (forall w0 e0, outcome_of (force_stop fuel instance_name project_id w0) <> Raise e0).
Proof.
  intros Hfirst Hnf Hstop Hsecond.
  split; [|split; [|intros; apply force_stop_never_raises]].
  - rewrite (delete_instance_fallback _ _ _ _ _ _ _ Hfirst Hnf).
    destruct second as [[]|e'|].
    + by rewrite (force_delete_second_delete_returns _ _ _ _ _ _ _ _ Hstop Hsecond).
    + by rewrite (force_delete_second_delete_raises _ _ _ _ _ _ _ _ _ Hstop Hsecond).
    + rewrite force_delete_unfold. unfold try_catch.
      rewrite (bind_Ret _ _ _ _ _ _ Hstop). by rewrite Hsecond.
  - destruct (delete_and_wait_first_call fuel instance_name project_id w2) as [rest Hrest].
    rewrite Hsecond in Hrest. by exists rest.
Qed.

Lemma delete_fallback_witness :
  delete_instance 5 "vm-1" "p"
    (Scripted.start [Scripted.Fails "400 resource not ready"; Scripted.vm Instance.STOPPED;
                     Scripted.Fails "403 permission denied"]) =
  (Raise (ClientError "403 permission denied"), Scripted.start [],
   [InstancesDelete "p" ZONE "vm-1"] ++ [InstancesGet "p" ZONE "vm-1"] ++
   [InstancesDelete "p" ZONE "vm-1"]).
Proof.
  apply (delete_fallback (W := Scripted.World) 5 "vm-1" "p"
           (Scripted.start [Scripted.Fails "400 resource not ready";
                            Scripted.vm Instance.STOPPED;
                            Scripted.Fails "403 permission denied"])
           (Scripted.start [Scripted.vm Instance.STOPPED;
                            Scripted.Fails "403 permission denied"])
           (Scripted.start [Scripted.Fails "403 permission denied"])
           (Scripted.start [])
           (ClientError "400 resource not ready")
           [InstancesDelete "p" ZONE "vm-1"] [InstancesGet "p" ZONE "vm-1"]
           [InstancesDelete "p" ZONE "vm-1"]
           (Raise (ClientError "403 permission denied")));
    vm_compute; reflexivity.
Defined.

(** X14: the straight path of [delete_vm].  When the existence check finds
    the VM, the wait for a stable state and the stop phase end, and the
    delete with its wait returns, [delete_vm] with at least one attempt
    returns in its first attempt, and its last call is the ten-second settle
    delay. *)
Theorem delete_vm_straight_path `{Platform W} (fuel : nat)
    (instance_name project_id : string) (max_retries : Z)
    (w w1 w2 w3 w4 : W) (calls1 calls2 calls3 calls4 : list Call) (stable : bool) :
  1 <= max_retries ->
  check_vm_exists instance_name project_id w = (Ret true, w1, calls1) ->
  wait_for_vm_stable fuel instance_name project_id 60 w1 = (Ret stable, w2, calls2) ->
  stop_before_delete fuel instance_name project_id w2 = (Ret tt, w3, calls3) ->
  delete_and_wait fuel instance_name project_id w3 = (Ret tt, w4, calls4) ->
  delete_vm fuel instance_name project_id max_retries w =
  (Ret tt, w4, calls1 ++ calls2 ++ calls3 ++ calls4) /\
  exists before, calls4 = before ++ [Sleep 10].
Proof.
  intros Hmax Hcheck Hstable Hstop Hdelete. split.
  - unfold delete_vm. rewrite range_cons by lia. apply delete_vm_loop_returned.
    rewrite (delete_attempt_reaches_delete _ _ _ _ _ _ _ _ _ _ _ Hcheck Hstable Hstop).
    rewrite delete_instance_unfold, (try_catch_Ret _ _ _ _ _ _ Hdelete). done.
  - unfold delete_and_wait in Hdelete.
    apply bind_Ret_inv in Hdelete as (operation & w5 & l5 & l5' & _ & Hdelete & ->).
    apply bind_Ret_inv in Hdelete as ([] & w6 & l6 & l6' & _ & Hsleep & ->).
    injection Hsleep as _ <-. exists (l5 ++ l6). by rewrite <- app_assoc.
Qed.

Lemma delete_vm_straight_path_witness :
  delete_vm 5 "vm-1" "p" 3 (Scripted.start SkipExamples.cleanup_replies) =
  (Ret tt, Scripted.start [],
   [InstancesGet "p" ZONE "vm-1"] ++ [TimeTime; TimeTime; InstancesGet "p" ZONE "vm-1"] ++
   [InstancesGet "p" ZONE "vm-1"] ++
   [InstancesDelete "p" ZONE "vm-1"; ZoneOperationsGet "p" ZONE "op-3"; Sleep 10]).
Proof.
  apply (delete_vm_straight_path (W := Scripted.World) 5 "vm-1" "p" 3
           (Scripted.start SkipExamples.cleanup_replies)
           (Scripted.start [Scripted.vm Instance.TERMINATED; Scripted.vm Instance.TERMINATED;
                            Scripted.done "op-3"; Scripted.done "op-3"])
           (Scripted.start [Scripted.vm Instance.TERMINATED;
                            Scripted.done "op-3"; Scripted.done "op-3"])
           (Scripted.start [Scripted.done "op-3"; Scripted.done "op-3"])
           (Scripted.start [])
           _ _ _ _ true).
  - lia.
  - vm_compute. reflexivity.
  - vm_compute. reflexivity.
  - vm_compute. reflexivity.
  - vm_compute. reflexivity.
Defined.

(** ** Footprints *)

(** X15: the footprint of the reaper.  Whatever the service answers and
    however many attempts it takes, [delete_vm] reads, stops and deletes no
    instance but the one it was given, in the fixed zone of the given
    project; besides that it polls zonal operations of the project, reads
    the clock and sleeps, always for a positive time; it creates no image. *)
Theorem delete_vm_footprint `{Platform W} (fuel : nat) (instance_name project_id : string)
    (max_retries : Z) (w : W) :
  Forall (reaper_call project_id instance_name)
    (calls_of (delete_vm fuel instance_name project_id max_retries w)).
Proof. by apply delete_vm_Forall. Qed.

Lemma create_image_from_vm_Forall `{Platform W} (P : Call -> Prop) (fuel : nat)
    (instance_name image_name project_id : string) (w : W) :
  P (InstancesStop project_id ZONE instance_name) ->
  P (InstancesGet project_id ZONE instance_name) ->
  (forall operation, P (ZoneOperationsGet project_id ZONE operation)) ->
  (forall operation, P (GlobalOperationsGet project_id operation)) ->
  (forall source,
     P (ImagesInsert project_id (promoted_image_resource instance_name image_name source))) ->
  P (Sleep 2) -> P (Sleep 30) ->
  Forall P (calls_of (create_image_from_vm fuel instance_name image_name project_id w)).
Proof.
  intros Hstop Hget Hzone Hglobal Hinsert Hsleep2 Hsleep30.
  unfold create_image_from_vm.
  apply try_catch_Forall; [|intros; apply raise_Forall].
  apply bind_Forall; [by apply client_Forall|]. intros operation w1.
  apply bind_Forall; [by apply wait_for_zone_operation_Forall|].
  intros _ w2. apply bind_Forall; [by apply client_Forall|]. intros instance w3.
  destruct (find_boot_disk_source _) as [boot_disk_source|]; [|apply raise_Forall].
  destruct (negb _); [apply raise_Forall|].
  apply bind_Forall; [by apply client_Forall|]. intros insert w4.
  apply bind_Forall; [by apply wait_for_global_operation_Forall|].
  intros _ w5. apply bind_Forall; [by apply sleep_Forall|]. intros. apply ret_Forall.
Qed.

(** X16: the footprint of the promotion.  [create_image_from_vm] stops and
    reads no instance but the one it was given, in the fixed zone of the
    given project, polls operations of the project, creates an image only in
    that project and labelled with the instance as its source, sleeps only
    for a positive time, and never deletes anything nor reads the clock. *)
Theorem create_image_from_vm_footprint `{Platform W} (fuel : nat)
    (instance_name image_name project_id : string) (w : W) :
  Forall (promoter_call project_id instance_name)
    (calls_of (create_image_from_vm fuel instance_name image_name project_id w)).
Proof. by apply create_image_from_vm_Forall. Qed.

(** X17: the footprint of an invocation.  Every call of [promote_cleanup]
    is a reading of the clock, a call of the promotion or a call of the
    reaper for the [validation_instance] of the request in the configured
    project: an invocation touches no other instance. *)
Theorem promote_cleanup_footprint `{Platform W} (fuel : nat) (event : PubSub.t) (w : W) :
  Forall (invocation_call PROJECT_ID (attribute event "validation_instance" ""))
    (calls_of (promote_cleanup fuel event w)).
Proof.
  unfold promote_cleanup. rewrite try_catch_reraise.
  apply bind_Forall.
  { destruct (PubSub.data event) as [data|]; [|apply ret_Forall].
    destruct (b64decode_utf8 data); [apply raise_Forall|apply ret_Forall]. }
  intros _ w1. cbv zeta. fold (attribute event "validation_instance" "").
  destruct (negb (truthy _)); [apply ret_Forall|].
  destruct (negb (String.eqb _ "Pass")); [apply ret_Forall|].
  apply bind_Forall.
  { destruct (negb (String.eqb _ "true")); [|apply ret_Forall].
    apply bind_Forall.
    { unfold call_datetime_now. destruct (datetime_now w1). repeat constructor. }
    intros now w2. apply bind_Forall; [|intros; apply ret_Forall].
    apply create_image_from_vm_Forall; right; by left. }
  intros promoted_image w2. apply bind_Forall.
  { destruct (negb (String.eqb _ "true")); [|apply ret_Forall].
    apply bind_Forall.
    - destruct promoted_image as [image|]; [|apply ret_Forall].
      destruct (truthy image); [|apply ret_Forall].
      apply sleep_Forall. right. by left.
    - intros _ w3. apply delete_vm_Forall; intros; right; by right. }
  intros _ w3. apply bind_Forall; [|intros; apply ret_Forall].
  unfold call_datetime_now. destruct (datetime_now w3). repeat constructor.
Qed.

(** ** How many deletes *)

Section Counting.
Context {W : Type} `{Platform W}.
Implicit Types (w : W) (e : exn) (p : Call -> bool).

Lemma count_app p (l1 l2 : list Call) : count p (l1 ++ l2) = (count p l1 + count p l2)%nat.
Proof. induction l1 as [|c l1 IH]; simpl; [done|]. rewrite IH. lia. Qed.

Lemma count_none p (calls : list Call) :
  Forall (fun c => p c = false) calls -> count p calls = 0%nat.
Proof. induction 1 as [|c calls Hc _ IH]; simpl; [done|]. by rewrite Hc, IH. Qed.

Lemma bind_count_le {A B} p (m : M W A) (k : A -> M W B) w (a b : nat) :
  (count p (calls_of (m w)) <= a)%nat ->
  (forall x w1, (count p (calls_of (k x w1)) <= b)%nat) ->
  (count p (calls_of (bind m k w)) <= a + b)%nat.
Proof.
  intros Hm Hk. unfold bind. destruct (m w) as [[[x|e|] w1] l1];
    unfold calls_of in *; simpl in *; [|lia..].
  specialize (Hk x w1). destruct (k x w1) as [[r w2] l2]. simpl in *.
  rewrite count_app. lia.
Qed.

Lemma try_catch_count_le {A} p (m : M W A) h w (a b : nat) :
  (count p (calls_of (m w)) <= a)%nat ->
  (forall e w1, (count p (calls_of (h e w1)) <= b)%nat) ->
  (count p (calls_of (try_catch m h w)) <= a + b)%nat.
Proof.
  intros Hm Hh. unfold try_catch. destruct (m w) as [[[x|e|] w1] l1];
    unfold calls_of in *; simpl in *; [lia| |lia].
  specialize (Hh e w1). destruct (h e w1) as [[r w2] l2]. simpl in *.
  rewrite count_app. lia.
Qed.

(** Bounds the count over a compound by the bounds [a] and [b] of its parts. *)
Ltac count_bind a b :=
  eapply Nat.le_trans; [apply (bind_count_le _ _ _ _ a b)|lia].
Ltac count_try a b :=
  eapply Nat.le_trans; [apply (try_catch_count_le _ _ _ _ a b)|lia].

Lemma delete_and_wait_count fuel instance_name project_id w :
  (count is_delete (calls_of (delete_and_wait fuel instance_name project_id w)) <= 1)%nat.
Proof.
  unfold delete_and_wait. count_bind 1%nat 0%nat.
  - unfold call_instances_delete. by rewrite client_calls.
  - intros operation w1. rewrite count_none; [lia|].
    apply bind_Forall; [by apply wait_for_zone_operation_Forall|].
    intros. by apply sleep_Forall.
Qed.

Lemma force_delete_count fuel instance_name project_id w :
  (count is_delete (calls_of (force_delete fuel instance_name project_id w)) <= 1)%nat.
Proof.
  rewrite force_delete_unfold. count_try 1%nat 0%nat.
  - count_bind 0%nat 1%nat.
    + rewrite count_none; [lia|]. unfold force_stop.
      apply try_catch_Forall; [|intros; apply ret_Forall].
      apply bind_Forall; [by apply client_Forall|]. intros instance w1.
      case_bool_decide; [|apply ret_Forall].
      apply bind_Forall; [by apply client_Forall|]. intros operation w2.
      apply bind_Forall; [by apply wait_for_zone_operation_Forall|].
      intros. by apply sleep_Forall.
    + intros. apply delete_and_wait_count.
  - intros e w1. destruct (negb _); by vm_compute.
Qed.

Lemma delete_attempt_count fuel instance_name project_id w :
  (count is_delete (calls_of (delete_attempt fuel instance_name project_id w)) <= 2)%nat.
Proof.
  unfold delete_attempt. count_bind 0%nat 2%nat.
  { rewrite check_vm_exists_calls. by vm_compute. }
  intros exists_ w1. destruct (negb exists_); [vm_compute; lia|].
  count_bind 0%nat 2%nat.
  { rewrite count_none; [lia|]. by apply wait_for_vm_stable_Forall. }
  intros _ w2. count_bind 0%nat 2%nat.
  { rewrite count_none; [lia|].
    unfold stop_before_delete, stop_before_delete_body. apply try_catch_Forall.
    - apply bind_Forall; [by apply client_Forall|]. intros instance w3.
      case_bool_decide; [|apply ret_Forall].
      apply bind_Forall; [by apply client_Forall|]. intros operation w4.
      by apply wait_for_zone_operation_Forall.
    - intros e w3. destruct (negb _); apply ret_Forall. }
  intros _ w3. rewrite delete_instance_unfold. count_try 1%nat 1%nat.
  - apply delete_and_wait_count.
  - intros e w4. destruct (negb _); [apply force_delete_count|vm_compute; lia].
Qed.

Lemma delete_vm_loop_count fuel instance_name project_id max_retries attempts w :
  (count is_delete
     (calls_of (delete_vm_loop fuel instance_name project_id max_retries attempts w)) <=
   2 * length attempts)%nat.
Proof.
  revert w. induction attempts as [|attempt rest IH]; intros w; [by vm_compute|].
  simpl delete_vm_loop. simpl length. count_bind 2%nat (2 * length rest)%nat.
  - count_try 2%nat 0%nat.
    + count_bind 2%nat 0%nat.
      * apply delete_attempt_count.
      * intros. by vm_compute.
    + intros e w1. destruct (is_not_found e); [by vm_compute|].
      destruct (attempt <? max_retries); [|by vm_compute].
      rewrite count_none; [lia|].
      apply bind_Forall; [by apply sleep_Forall|]. intros. apply ret_Forall.
  - intros [] w1; [vm_compute; lia|apply IH].
Qed.

Lemma range_length (lo hi : Z) : length (range lo hi) = Z.to_nat (hi - lo).
Proof. unfold range. by rewrite length_map, length_seq. Qed.

End Counting.

(** X18: a bound on the deletes.  One attempt calls delete at most twice
    (the delete and the delete of the fallback), so [delete_vm] calls delete
    at most twice per attempt allowed, whatever the service answers: at most
    six times with the default of three attempts. *)
Theorem delete_vm_delete_bound `{Platform W} (fuel : nat)
    (instance_name project_id : string) (max_retries : Z) (w : W) :
  (count is_delete (calls_of (delete_attempt fuel instance_name project_id w)) <= 2)%nat /\
  (count is_delete (calls_of (delete_vm fuel instance_name project_id max_retries w)) <=
   2 * Z.to_nat max_retries)%nat /\
  (count is_delete (calls_of (delete_vm fuel instance_name project_id 3 w)) <= 6)%nat.
Proof.
  split; [apply delete_attempt_count|].
  assert (Hbound : forall n,
            (count is_delete (calls_of (delete_vm fuel instance_name project_id n w)) <=
             2 * Z.to_nat n)%nat).
  { intros n. unfold delete_vm.
    etrans; [apply delete_vm_loop_count|]. rewrite range_length. lia. }
  split; [apply Hbound|]. apply (Hbound 3).
Qed.

(** Both deletes of each of three attempts can indeed be called. *)
Example delete_vm_six_deletes :
  count is_delete
    (calls_of (delete_vm 5 "vm-1" "p" 3
       (Scripted.start
          (concat (replicate 3
             [Scripted.vm Instance.STOPPED; Scripted.vm Instance.STOPPED;
              Scripted.vm Instance.STOPPED; Scripted.Fails "409 resource busy";
              Scripted.vm Instance.STOPPED; Scripted.Fails "409 resource busy"]))))) =
  6%nat.
Proof. vm_compute. reflexivity. Qed.

(** ** How many images *)

Section OneImage.
Context {W : Type} `{Platform W}.
Implicit Types (w : W).

Lemma create_image_from_vm_insert_count fuel instance_name image_name project_id w :
  (count is_insert
     (calls_of (create_image_from_vm fuel instance_name image_name project_id w)) <= 1)%nat.
Proof.
  unfold create_image_from_vm. rewrite try_catch_reraise.
  eapply Nat.le_trans; [apply (bind_count_le _ _ _ _ 0 1)|lia].
  { unfold call_instances_stop. by rewrite client_calls. }
  intros operation w1.
  eapply Nat.le_trans; [apply (bind_count_le _ _ _ _ 0 1)|lia].
  { rewrite count_none; [lia|]. by apply wait_for_zone_operation_Forall. }
  intros _ w2.
  eapply Nat.le_trans; [apply (bind_count_le _ _ _ _ 0 1)|lia].
  { unfold call_instances_get. by rewrite client_calls. }
  intros instance w3.
  destruct (find_boot_disk_source _) as [boot_disk_source|]; [|vm_compute; lia].
  destruct (negb _); [vm_compute; lia|].
  eapply Nat.le_trans; [apply (bind_count_le _ _ _ _ 1 0)|lia].
  { unfold call_images_insert. by rewrite client_calls. }
  intros insert w4. rewrite count_none; [lia|]. apply after_insert_no_insert.
Qed.

End OneImage.

(** X19: one image at most.  Whatever the service answers, an invocation
    of [promote_cleanup] calls the creation of an image at most once, and
    [create_image_from_vm] does so at most once. *)
Theorem at_most_one_image `{Platform W} (fuel : nat) (event : PubSub.t) (w : W) :
  (forall instance_name image_name project_id w0,
     (count is_insert
        (calls_of (create_image_from_vm fuel instance_name image_name project_id w0)) <=
      1)%nat) /\
  (count is_insert (calls_of (promote_cleanup fuel event w)) <= 1)%nat.
Proof.
  split; [intros; apply create_image_from_vm_insert_count|].
  unfold promote_cleanup. rewrite try_catch_reraise.
  eapply Nat.le_trans; [apply (bind_count_le _ _ _ _ 0 1)|lia].
  { destruct (PubSub.data event) as [data|]; [|by vm_compute].
    destruct (b64decode_utf8 data); by vm_compute. }
  intros _ w1. cbv zeta.
  destruct (negb (truthy _)); [vm_compute; lia|].
  destruct (negb (String.eqb _ "Pass")); [vm_compute; lia|].
  eapply Nat.le_trans; [apply (bind_count_le _ _ _ _ 1 0)|lia].
  { destruct (negb (String.eqb _ "true")); [|vm_compute; lia].
    eapply Nat.le_trans; [apply (bind_count_le _ _ _ _ 0 1)|lia].
    { unfold call_datetime_now. by destruct (datetime_now w1). }
    intros now w2.
    eapply Nat.le_trans; [apply (bind_count_le _ _ _ _ 1 0)|lia].
    - apply create_image_from_vm_insert_count.
    - intros. by vm_compute. }
  intros promoted_image w2. rewrite count_none; [lia|].
  apply bind_Forall.
  { destruct (negb (String.eqb _ "true")); [|apply ret_Forall].
    apply bind_Forall.
    - destruct promoted_image as [image|]; [|apply ret_Forall].
      destruct (truthy image); [by apply sleep_Forall|apply ret_Forall].
    - intros. apply delete_vm_never_inserts. }
  intros _ w3. apply bind_Forall; [|intros; apply ret_Forall].
  unfold call_datetime_now. destruct (datetime_now w3). by repeat constructor.
Qed.
